(** * Singularity: DNS rebinding responder and HTTP dispatcher

    A shallow embedding of [singularity.go] (package [singularity]) and the
    properties of its query-name codec, session store, rebinding strategies,
    DNS responder and HTTP handlers.

    Layout:
    - models of the Go library functions the source calls ([strings],
      [encoding/hex], [net], [time]);
    - the interface of the code that lives outside the source file
      (the zone-line parser of the DNS library, the IP literal parser, the
      domain-name check);
    - the data model ([DNSClientState], [DNSClientStateStore], [DNSQuery],
      [AppConfig]) and the functions of the source, in source order;
    - the functions of the source beside the DNS responder (the random
      token, the parser of an [Origin] header, the store of HTTP servers);
    - the properties. *)

From Stdlib Require Import ZArith Ascii String List Bool Lia DecimalString.
From Stdlib Require DecimalPos DecimalN.
From stdpp Require Import base tactics option list gmap strings.

Local Open Scope string_scope.
Local Open Scope list_scope.
Local Open Scope Z_scope.

(** ** Go [strings] *)

Module strings.

(** [strings.HasPrefix(s, prefix)]. *)
Fixpoint HasPrefix (s prefix : string) {struct prefix} : bool :=
  match prefix with
  | EmptyString => true
  | String p prefix' =>
      match s with
      | EmptyString => false
      | String c s' => Ascii.eqb c p && HasPrefix s' prefix'
      end
  end.

Fixpoint drop (n : nat) (s : string) : string :=
  match n, s with
  | O, _ => s
  | S _, EmptyString => EmptyString
  | S k, String _ t => drop k t
  end.

(** [strings.TrimPrefix(s, prefix)]. *)
Definition TrimPrefix (s prefix : string) : string :=
  if HasPrefix s prefix then drop (String.length prefix) s else s.

(** Left-to-right scan shared by [Replace] and [Split]: [skip] counts the
    bytes of an occurrence of the pattern that are still to be consumed. *)
Fixpoint replace_from (old new : string) (skip : nat) (s : string) : string :=
  match s with
  | EmptyString => EmptyString
  | String c t =>
      match skip with
      | S k => replace_from old new k t
      | O =>
          if HasPrefix s old
          then new +:+ replace_from old new (String.length old - 1) t
          else String c (replace_from old new 0 t)
      end
  end.

(** [strings.Replace(s, old, new, -1)] for a non-empty [old]: every
    non-overlapping occurrence, leftmost first. *)
Definition Replace (s old new : string) : string := replace_from old new 0 s.

Fixpoint split_from (sep : string) (skip : nat) (s : string) : list string :=
  match s with
  | EmptyString => [EmptyString]
  | String c t =>
      match skip with
      | S k => split_from sep k t
      | O =>
          if HasPrefix s sep
          then EmptyString :: split_from sep (String.length sep - 1) t
          else
            match split_from sep 0 t with
            | piece :: rest => String c piece :: rest
            | [] => [String c EmptyString]
            end
      end
  end.

(** [strings.Split(s, sep)] for a non-empty [sep]. *)
Definition Split (s sep : string) : list string := split_from sep 0 s.

(** [strings.Cut(s, sep)]: the text before and after the first [sep]. *)
Fixpoint Cut (s sep : string) : string * string * bool :=
  if HasPrefix s sep then (EmptyString, drop (String.length sep) s, true)
  else
    match s with
    | EmptyString => (EmptyString, EmptyString, false)
    | String c t => let '(before, after, found) := Cut t sep in
                    (String c before, after, found)
    end.

Fixpoint mem (c : ascii) (chars : string) : bool :=
  match chars with
  | EmptyString => false
  | String d t => Ascii.eqb c d || mem c t
  end.

(** [strings.ContainsAny(s, chars)]. *)
Fixpoint ContainsAny (s chars : string) : bool :=
  match s with
  | EmptyString => false
  | String c t => mem c chars || ContainsAny t chars
  end.

Definition lower (c : ascii) : ascii :=
  let n := N_of_ascii c in
  if ((65 <=? n) && (n <=? 90))%N then ascii_of_N (n + 32) else c.

(** [strings.ToLower(s)] on ASCII text. The DNS library hands over names
    in presentation format, where every byte outside the printable ASCII
    range is written as a decimal escape, so the handler only ever
    lower-cases ASCII. *)
Fixpoint ToLower (s : string) : string :=
  match s with
  | EmptyString => EmptyString
  | String c t => String (lower c) (ToLower t)
  end.

Fixpoint Join (elems : list string) (sep : string) : string :=
  match elems with
  | [] => EmptyString
  | [x] => x
  | x :: rest => x +:+ sep +:+ Join rest sep
  end.

End strings.

(** ** Go [encoding/hex] *)

Module hex.

Definition fromHexChar (c : ascii) : option Z :=
  let n := Z.of_N (N_of_ascii c) in
  if (48 <=? n) && (n <=? 57) then Some (n - 48)
  else if (97 <=? n) && (n <=? 102) then Some (n - 97 + 10)
  else if (65 <=? n) && (n <=? 70) then Some (n - 65 + 10)
  else None.

(** [hex.DecodeString(s)]: [None] stands for a non-nil error (odd length
    or a byte that is not a hexadecimal digit). *)
Fixpoint DecodeString (s : string) : option (list Z) :=
  match s with
  | EmptyString => Some []
  | String _ EmptyString => None
  | String a (String b t) =>
      match fromHexChar a, fromHexChar b, DecodeString t with
      | Some x, Some y, Some r => Some (x * 16 + y :: r)
      | _, _, _ => None
      end
  end.

Definition hexdigit (n : Z) : ascii :=
  ascii_of_N (Z.to_N (if n <? 10 then 48 + n else 87 + n)).

(** Two lower-case digits per byte ([hex.EncodeToString]). *)
Fixpoint EncodeToString (b : list Z) : string :=
  match b with
  | [] => EmptyString
  | x :: t => String (hexdigit (x / 16)) (String (hexdigit (x mod 16)) (EncodeToString t))
  end.

End hex.

(** ** Go [net]: the [IP] byte slice *)

Module net.

(** [net.IP] is a byte slice; a byte is a [Z] in [0, 255]. The nil slice
    and the empty slice are both [[]]. *)
Abbreviation IP := (list Z).

Definition IPv4len : nat := 4.
Definition IPv6len : nat := 16.

Definition v4InV6Prefix : list Z := [0; 0; 0; 0; 0; 0; 0; 0; 0; 0; 255; 255].

Definition bytes_eqb (a b : list Z) : bool :=
  (length a =? length b)%nat && forallb (fun p => fst p =? snd p) (combine a b).

(** [ip.To4()]: [None] is the nil result. *)
Definition To4 (ip : IP) : option IP :=
  if (length ip =? IPv4len)%nat then Some ip
  else if (length ip =? IPv6len)%nat && bytes_eqb (firstn 12 ip) v4InV6Prefix
       then Some (skipn 12 ip)
       else None.

Definition itoa (n : Z) : string := NilZero.string_of_uint (N.to_uint (Z.to_N n)).

(** Hexadecimal without leading zeros, as [appendHex] prints a 16-bit group. *)
Definition group_hex (g : Z) : string :=
  let d3 := g / 4096 in
  let d2 := (g / 256) mod 16 in
  let d1 := (g / 16) mod 16 in
  let d0 := g mod 16 in
  let c x := String (hex.hexdigit x) EmptyString in
  if 0 <? d3 then c d3 +:+ c d2 +:+ c d1 +:+ c d0
  else if 0 <? d2 then c d2 +:+ c d1 +:+ c d0
  else if 0 <? d1 then c d1 +:+ c d0
  else c d0.

Fixpoint groups (b : list Z) : list Z :=
  match b with
  | hi :: lo :: t => (hi * 256 + lo) :: groups t
  | _ => []
  end.

Fixpoint zero_run (g : list Z) : nat :=
  match g with
  | 0 :: t => S (zero_run t)
  | _ => O
  end.

(** Leftmost longest run of zero groups: (start, length). *)
Fixpoint longest_run (i : nat) (g : list Z) (best : nat * nat) : nat * nat :=
  match g with
  | [] => best
  | _ :: t =>
      let r := zero_run g in
      longest_run (S i) t (if (snd best <? r)%nat then (i, r) else best)
  end.

Definition ipv6_string (b : list Z) : string :=
  let g := groups b in
  let '(e0, n) := longest_run 0 g (O, O) in
  if (n <=? 1)%nat then strings.Join (map group_hex g) ":"
  else strings.Join (map group_hex (firstn e0 g)) ":" +:+ "::" +:+
       strings.Join (map group_hex (skipn (e0 + n) g)) ":".

(** [ip.String()]. *)
Definition String (ip : IP) : string :=
  if (length ip =? 0)%nat then "<nil>"
  else
    match To4 ip with
    | Some p4 => strings.Join (map itoa p4) "."
    | None =>
        if negb (length ip =? IPv6len)%nat then "?" +:+ hex.EncodeToString ip
        else ipv6_string ip
    end.

(** [ip.Equal(x)]: an IPv4 address and the same address in IPv6 form are
    equal. *)
Definition Equal (ip x : IP) : bool :=
  if (length ip =? length x)%nat then bytes_eqb ip x
  else if (length ip =? IPv4len)%nat && (length x =? IPv6len)%nat
       then bytes_eqb (firstn 12 x) v4InV6Prefix && bytes_eqb ip (skipn 12 x)
  else if (length ip =? IPv6len)%nat && (length x =? IPv4len)%nat
       then bytes_eqb (firstn 12 ip) v4InV6Prefix && bytes_eqb (skipn 12 ip) x
  else false.

End net.

(** ** Go [time] *)

Module time.

(** A [time.Time] is the number of nanoseconds since the zero time
    (January 1, year 1, 00:00 UTC); a [time.Duration] is an [int64]
    count of nanoseconds. *)
Abbreviation Time := Z.
Abbreviation Duration := Z.

Definition minDuration : Duration := - 2 ^ 63.
Definition maxDuration : Duration := 2 ^ 63 - 1.
Definition Second : Duration := 1000000000.

Definition zero : Time := 0.

(** [t.IsZero()]. *)
Definition IsZero (t : Time) : bool := t =? 0.

(** [t.Sub(u)]: the difference, saturated to the range of [Duration]. *)
Definition Sub (t u : Time) : Duration :=
  let d := t - u in
  if d <? minDuration then minDuration
  else if maxDuration <? d then maxDuration
  else d.

(** Product of two [int64] values, wrapping around. *)
Definition wrap64 (z : Z) : Z := (z + 2 ^ 63) mod 2 ^ 64 - 2 ^ 63.
Definition mul (a b : Duration) : Duration := wrap64 (a * b).

End time.

(** ** Code outside the source file

    The source calls three functions whose code is not part of
    [singularity.go]: [dns.NewRR] of the DNS library (it parses one line of
    zone-file text into a resource record), [net.ParseIP], and
    [golang.IsDomainName] of this repository's [golang] package. They are
    taken as an interface; every property below holds for all
    implementations of it. A reference implementation, used to run the
    concrete scenarios, follows the data model. *)

Class External := {
  (** [dns.RR]: a parsed resource record. *)
  RR : Type;
  (** [dns.NewRR(line)]: [None] stands for a non-nil error. *)
  NewRR : string -> option RR;
  (** [net.ParseIP(s)]: [None] stands for the nil address. *)
  ParseIP : string -> option net.IP;
  (** [golang.IsDomainName(s)]. *)
  IsDomainName : string -> bool;
}.

(** ** The DNS library's message types *)

Module dns.

Definition TypeA : Z := 1.
Definition TypeAAAA : Z := 28.
Definition OpcodeQuery : Z := 0.

Record Question := { Name : string; Qtype : Z; Qclass : Z }.

Record Msg := { Opcode : Z; Questions : list Question }.

End dns.

(** ** Data model *)

(** [DNSClientState] holds the current rebinding state of a client. *)
Module DNSClientState.

Record t := mk {
  FirstQueryTime : time.Time;
  LastQueryTime : time.Time;
  CurrentQueryTime : time.Time;
  ResponseIPAddr : string;
  ResponseReboundIPAddr : string;
  LastResponseReboundIPAddr : Z;
  ResponseReboundIPAddrtimeOut : Z;
  FirewalledOnce : bool;
}.

(** The zero value, [&DNSClientState{}]. *)
Definition zero : t := mk time.zero time.zero time.zero "" "" 0 0 false.

Definition set_FirstQueryTime (v : time.Time) (s : t) : t :=
  mk v (LastQueryTime s) (CurrentQueryTime s) (ResponseIPAddr s)
     (ResponseReboundIPAddr s) (LastResponseReboundIPAddr s)
     (ResponseReboundIPAddrtimeOut s) (FirewalledOnce s).
Definition set_LastQueryTime (v : time.Time) (s : t) : t :=
  mk (FirstQueryTime s) v (CurrentQueryTime s) (ResponseIPAddr s)
     (ResponseReboundIPAddr s) (LastResponseReboundIPAddr s)
     (ResponseReboundIPAddrtimeOut s) (FirewalledOnce s).
Definition set_CurrentQueryTime (v : time.Time) (s : t) : t :=
  mk (FirstQueryTime s) (LastQueryTime s) v (ResponseIPAddr s)
     (ResponseReboundIPAddr s) (LastResponseReboundIPAddr s)
     (ResponseReboundIPAddrtimeOut s) (FirewalledOnce s).
Definition set_ResponseIPAddr (v : string) (s : t) : t :=
  mk (FirstQueryTime s) (LastQueryTime s) (CurrentQueryTime s) v
     (ResponseReboundIPAddr s) (LastResponseReboundIPAddr s)
     (ResponseReboundIPAddrtimeOut s) (FirewalledOnce s).
Definition set_ResponseReboundIPAddr (v : string) (s : t) : t :=
  mk (FirstQueryTime s) (LastQueryTime s) (CurrentQueryTime s) (ResponseIPAddr s)
     v (LastResponseReboundIPAddr s)
     (ResponseReboundIPAddrtimeOut s) (FirewalledOnce s).
Definition set_LastResponseReboundIPAddr (v : Z) (s : t) : t :=
  mk (FirstQueryTime s) (LastQueryTime s) (CurrentQueryTime s) (ResponseIPAddr s)
     (ResponseReboundIPAddr s) v
     (ResponseReboundIPAddrtimeOut s) (FirewalledOnce s).
Definition set_ResponseReboundIPAddrtimeOut (v : Z) (s : t) : t :=
  mk (FirstQueryTime s) (LastQueryTime s) (CurrentQueryTime s) (ResponseIPAddr s)
     (ResponseReboundIPAddr s) (LastResponseReboundIPAddr s)
     v (FirewalledOnce s).
Definition set_FirewalledOnce (v : bool) (s : t) : t :=
  mk (FirstQueryTime s) (LastQueryTime s) (CurrentQueryTime s) (ResponseIPAddr s)
     (ResponseReboundIPAddr s) (LastResponseReboundIPAddr s)
     (ResponseReboundIPAddrtimeOut s) v.

End DNSClientState.

(** A [*DNSClientState]: the index of the object in the store's heap. *)
Abbreviation ptr := nat.

(** [DNSClientStateStore] stores DNS sessions. [Sessions] is the Go map
    [map[string]*DNSClientState]; its values are pointers, so two session
    ids can share one state object. [Objects] is the memory those pointers
    point into: [&DNSClientState{}] appends an object, and an object is
    never freed. The read/write mutex is not modelled: a handler runs as
    one uninterrupted step. *)
Record DNSClientStateStore := {
  Sessions : gmap string ptr;
  Objects : list DNSClientState.t;
}.

(** [dcss.Sessions[session]], dereferenced. [None] is the nil pointer of a
    missing key: reading a field through it panics. *)
Definition session_state (dcss : DNSClientStateStore) (session : string)
  : option DNSClientState.t :=
  p ← Sessions dcss !! session; Objects dcss !! p.

(** Assignment to the object behind a pointer. *)
Definition store_object (p : ptr) (f : DNSClientState.t -> DNSClientState.t)
    (dcss : DNSClientStateStore) : option DNSClientStateStore :=
  s ← Objects dcss !! p;
  Some {| Sessions := Sessions dcss; Objects := <[p := f s]> (Objects dcss) |}.

(** Assignment to a field of [dcss.Sessions[session]]. *)
Definition store_session (session : string) (f : DNSClientState.t -> DNSClientState.t)
    (dcss : DNSClientStateStore) : option DNSClientStateStore :=
  p ← Sessions dcss !! session; store_object p f dcss.

(** [&DNSClientState{}]: a new zero object and the pointer to it. *)
Definition new_DNSClientState (dcss : DNSClientStateStore) : ptr * DNSClientStateStore :=
  (length (Objects dcss),
   {| Sessions := Sessions dcss; Objects := Objects dcss ++ [DNSClientState.zero] |}).

(** The rebinding functions of the source. [AppConfig.RebindingFn] and the
    values of the table [DNSRebindingStrategy] are Go function values; the
    source defines five functions of that type and these are their names. *)
Inductive RebindingFn :=
| FnRoundRobin
| FnFirstThenSecond
| FnRandom
| FnMultiA
| FnFirst.

(** [AppConfig] stores the running parameters of the server (the fields the
    DNS handler reads). *)
Module AppConfig.

Record t := {
  ResponseIPAddr : string;
  RebindingFn : RebindingFn;
  ResponseReboundIPAddrtimeOut : Z;
  IgnoreDNSRequestFrom : list net.IP;
}.

End AppConfig.

(** [DNSRebindingStrategy] maps a strategy name to a function. *)
Definition DNSRebindingStrategy (tag : string) : option RebindingFn :=
  if String.eqb tag "rr" then Some FnRoundRobin
  else if String.eqb tag "fs" then Some FnFirstThenSecond
  else if String.eqb tag "rd" then Some FnRandom
  else if String.eqb tag "ma" then Some FnMultiA
  else None.

(** [ExpireOldEntries] expires the sessions whose last query is older than
    [duration]. [clock sk] is the reading of [time.Since]'s clock when the
    loop visits the key [sk]. Deleting from a Go map while ranging over it
    is safe, and the outcome does not depend on the iteration order. *)
Definition expired (duration : time.Duration) (clock : string -> time.Time)
    (objects : list DNSClientState.t) (sk : string) (sv : ptr) : bool :=
  match objects !! sv with
  | Some st =>
      let diff := time.Sub (clock sk) (DNSClientState.LastQueryTime st) in
      negb (time.IsZero (DNSClientState.LastQueryTime st)) && (duration <? diff)
  | None => false
  end.

Definition ExpireOldEntries (duration : time.Duration) (clock : string -> time.Time)
    (dcss : DNSClientStateStore) : DNSClientStateStore :=
  {| Sessions :=
       filter (fun kv => expired duration clock (Objects dcss) kv.1 kv.2 = false)
              (Sessions dcss);
     Objects := Objects dcss |}.

(** [DNSQuery] holds the parsed DNS query of a client. *)
Module DNSQuery.

Record t := mk {
  ResponseIPAddr : string;
  ResponseReboundIPAddr : string;
  Session : string;
  DNSRebindingStrategy : string;
  Domain : string;
}.

(** [new(DNSQuery)]. *)
Definition zero : t := mk "" "" "" "" "".

End DNSQuery.

(** The errors [NewDNSQuery] returns, one per message of the source. *)
Inductive ParseError :=
| ErrStartTag   (** cannot find start tag in DNS query *)
| ErrEndTag     (** cannot find end tag in DNS query *)
| ErrDomain     (** cannot parse domain in DNS query *)
| ErrStart      (** cannot parse start of DNS query *)
| ErrHosts      (** cannot find attacker and target hosts *)
| ErrFirstHost  (** failed to decode IP address of the first host in DNS query *)
| ErrCNAME      (** cannot parse CNAME of second host in DNS query *)
| ErrSession.   (** cannot parse session in DNS query *)

(** The peer address of a DNS request ([w.RemoteAddr()], a [net.Addr]). *)
Inductive Addr :=
| TCPAddr (ip : net.IP)
| UDPAddr (ip : net.IP)
| IPAddr (ip : net.IP)
| OtherAddr.

(** What the DNS handler did with the request: it returned without a call
    to [w.WriteMsg], or it wrote the reply [m] with the answer section
    [answer]. *)
Inductive Reply {R : Type} :=
| NoReply
| WriteMsg (answer : list R).
Arguments Reply : clear implicits.

(** Control flow of the body of the loop over the questions. *)
Inductive Flow {R : Type} :=
| Continue (dcss : DNSClientStateStore) (answer : list R)
| Return (dcss : DNSClientStateStore) (reply : Reply R).
Arguments Flow : clear implicits.

(** What the serialization of the answers produced: an index out of range,
    the error of [respond], or the zone-file lines of the response. *)
Inductive Serialized :=
| OutOfRange
| Mismatch
| Lines (response : list string).

Section Singularity.

Context `{External}.

(** *** The query-name codec *)

(** [NewDNSQuery] parses a DNS query string. It returns the [DNSQuery] it
    allocated together with the error ([None] is the nil error). *)
Definition NewDNSQuery (qname : string) : DNSQuery.t * option ParseError :=
  let name := DNSQuery.zero in
  let qname := strings.Replace qname "--" "_" in
  if negb (strings.HasPrefix qname "s-") then (name, Some ErrStartTag) else
  let qname := strings.TrimPrefix qname "s-" in
  let split1 := strings.Split qname "-e." in
  match split1 with
  | [split1_0; domainSuffix] =>
      if (String.length domainSuffix <? 3)%nat
         && negb (strings.ContainsAny domainSuffix ".")
      then (name, Some ErrDomain) else
      let split2 := strings.Split split1_0 "-" in
      match split2 with
      | [split2_0; split2_1; split2_2] =>
          let '(eleme0, eleme1, found) := strings.Cut split2_0 "." in
          if negb found then (name, Some ErrHosts) else
          match hex.DecodeString eleme0 with
          | None => (name, Some ErrFirstHost)
          | Some elem0 =>
              let elem1Str :=
                match hex.DecodeString eleme1 with
                | None =>
                    (* probably a name, not an IP address *)
                    if String.eqb eleme1 "localhost" then Some eleme1
                    else
                      let elem1Str := strings.Replace eleme1 "_" "-" in
                      if IsDomainName elem1Str then Some elem1Str else None
                | Some elem1 => Some (net.String elem1)
                end in
              match elem1Str with
              | None => (name, Some ErrCNAME)
              | Some elem1Str =>
                  let name :=
                    DNSQuery.mk (net.String elem0) elem1Str split2_1 "" "" in
                  if (String.length (DNSQuery.Session name) =? 0)%nat
                  then (name, Some ErrSession) else
                  (DNSQuery.mk (net.String elem0) elem1Str split2_1 split2_2
                               ("." +:+ domainSuffix),
                   None)
              end
          end
      | _ => (name, Some ErrStart)
      end
  | _ => (name, Some ErrEndTag)
  end.

(** *** The rebinding strategies

    Each takes the session id, the store and the question and returns the
    answers; [None] is a panic (a field read through the nil pointer of a
    missing session, or an index out of range). *)

(** [dnsRebindFirst] always returns the first host of the DNS query. *)
Definition dnsRebindFirst (session : string) (dcss : DNSClientStateStore)
    (q : dns.Question) : option (list string) :=
  s ← session_state dcss session;
  Some [DNSClientState.ResponseIPAddr s].

(** [DNSRebindFromQueryFirstThenSecond]. *)
Definition DNSRebindFromQueryFirstThenSecond (session : string)
    (dcss : DNSClientStateStore) (q : dns.Question) : option (list string) :=
  s ← session_state dcss session;
  let answers := [DNSClientState.ResponseIPAddr s] in
  let elapsed :=
    time.Sub (DNSClientState.CurrentQueryTime s) (DNSClientState.LastQueryTime s) in
  let timeOut := DNSClientState.ResponseReboundIPAddrtimeOut s in
  if elapsed <? time.mul time.Second timeOut
  then Some [DNSClientState.ResponseReboundIPAddr s]
  else Some answers.

(** [DNSRebindFromQueryRandom]; [intn] is the value [rand.Intn] returns. *)
Definition DNSRebindFromQueryRandom (intn : nat) (session : string)
    (dcss : DNSClientStateStore) (q : dns.Question) : option (list string) :=
  s ← session_state dcss session;
  let hosts := [DNSClientState.ResponseIPAddr s;
                DNSClientState.ResponseReboundIPAddr s] in
  host ← hosts !! intn;
  Some [host].

(** [DNSRebindFromQueryRoundRobin]: the only strategy that writes to the
    store. *)
Definition DNSRebindFromQueryRoundRobin (session : string)
    (dcss : DNSClientStateStore) (q : dns.Question)
  : option (list string * DNSClientStateStore) :=
  s ← session_state dcss session;
  let ResponseIPAddr := DNSClientState.ResponseIPAddr s in
  let ResponseReboundIPAddr := DNSClientState.ResponseReboundIPAddr s in
  let LastResponseReboundIPAddr := DNSClientState.LastResponseReboundIPAddr s in
  let hosts := [""; ResponseIPAddr; ResponseReboundIPAddr] in
  let LastResponseReboundIPAddr :=
    if LastResponseReboundIPAddr =? 0 then 1
    else if LastResponseReboundIPAddr =? 1 then 2
    else if LastResponseReboundIPAddr =? 2 then 1
    else LastResponseReboundIPAddr in
  dcss ← store_session session
           (DNSClientState.set_LastResponseReboundIPAddr LastResponseReboundIPAddr)
           dcss;
  host ← (if LastResponseReboundIPAddr <? 0 then None
          else hosts !! Z.to_nat LastResponseReboundIPAddr);
  Some ([host], dcss).

(** [DNSRebindFromQueryMultiA]. *)
Definition DNSRebindFromQueryMultiA (session : string)
    (dcss : DNSClientStateStore) (q : dns.Question) : option (list string) :=
  s ← session_state dcss session;
  if DNSClientState.FirewalledOnce s
  then Some [DNSClientState.ResponseReboundIPAddr s]
  else Some [DNSClientState.ResponseIPAddr s;
             DNSClientState.ResponseReboundIPAddr s].

(** A call through a function value of the strategy type. *)
Definition call (fn : RebindingFn) (intn : nat) (session : string)
    (dcss : DNSClientStateStore) (q : dns.Question)
  : option (list string * DNSClientStateStore) :=
  match fn with
  | FnRoundRobin => DNSRebindFromQueryRoundRobin session dcss q
  | FnFirstThenSecond =>
      answers ← DNSRebindFromQueryFirstThenSecond session dcss q; Some (answers, dcss)
  | FnRandom =>
      answers ← DNSRebindFromQueryRandom intn session dcss q; Some (answers, dcss)
  | FnMultiA =>
      answers ← DNSRebindFromQueryMultiA session dcss q; Some (answers, dcss)
  | FnFirst =>
      answers ← dnsRebindFirst session dcss q; Some (answers, dcss)
  end.

(** [addrInIPAddressList]. *)
Definition addrInIPAddressList (addr : Addr) (ips : list net.IP) : bool :=
  match addr with
  | TCPAddr addrIP | UDPAddr addrIP | IPAddr addrIP =>
      existsb (fun ip => net.Equal ip addrIP) ips
  | OtherAddr => false
  end.

(** *** The DNS handler *)

(** [fmt.Sprintf("%s %s IN %s %s", question, time, recordType, answer)]. *)
Definition address_line (question time recordType answer : string) : string :=
  question +:+ " " +:+ time +:+ " IN " +:+ recordType +:+ " " +:+ answer.

(** [fmt.Sprintf("%s 10 IN CNAME %s.", question, answer)]. *)
Definition cname_line (question answer : string) : string :=
  question +:+ " 10 IN CNAME " +:+ answer +:+ ".".

(** The closure [respond] of the handler: one A, AAAA or CNAME record as
    zone-file text; [None] is its error. *)
Definition respond (q : dns.Question) (question time answer : string)
    (additionalRecord : bool) : option string :=
  match ParseIP answer with
  | Some address =>
      let recordType :=
        match net.To4 address with
        | None => "AAAA" (* IPv6 *)
        | Some _ => "A" (* IPv4 *)
        end in
      let isMatch :=
        (String.eqb recordType "AAAA" && (dns.Qtype q =? dns.TypeAAAA))
        || (String.eqb recordType "A" && (dns.Qtype q =? dns.TypeA)) in
      if isMatch then Some (address_line question time recordType answer)
      else if additionalRecord
           then Some (address_line question time recordType answer)
           else None
  | None =>
      (* Otherwise, we respond with a CNAME record *)
      Some (cname_line question answer)
  end.

(** The serialization of [answers] into [response]. *)
Definition serialize (q : dns.Question) (answers : list string) : Serialized :=
  match answers with
  | [answers_0] => (* we return only one answer *)
      match respond q (dns.Name q) "0" answers_0 false with
      | None => Mismatch
      | Some res => Lines [res]
      end
  | answers_0 :: answers_1 :: _ => (* We respond with multiple answers *)
      match respond q (dns.Name q) "10" answers_0 true with
      | None => Mismatch
      | Some res0 =>
          match respond q (dns.Name q) "0" answers_1 true with
          | None => Mismatch
          | Some res1 => Lines [res0; res1]
          end
      end
  | [] => OutOfRange
  end.

(** The part of the handler that answers a query with potential QNAME
    minimization. [None]: control falls through to the encoded-query
    path. *)
Definition minimization (appConfig : AppConfig.t) (q : dns.Question)
    (dcss : DNSClientStateStore) (answer : list RR) : option (Flow RR) :=
  match ParseIP (AppConfig.ResponseIPAddr appConfig) with
  | None => Some (Return dcss NoReply)
  | Some address =>
      let response :=
        match net.To4 address with
        | Some _ =>
            address_line (dns.Name q) "0" "A" (AppConfig.ResponseIPAddr appConfig)
        | None =>
            address_line (dns.Name q) "0" "AAAA" (AppConfig.ResponseIPAddr appConfig)
        end in
      match NewRR response with
      | Some rr => Some (Return dcss (WriteMsg (answer ++ [rr])))
      | None => None
      end
  end.

(** The part of the handler that answers an encoded query: it prepares
    the client state, parses the name, picks the strategy, inserts a new
    session, asks the strategy for the answers, serializes them and
    stamps the session. [clientState] is the object the handler
    allocated, [answer] is [m.Answer]. *)
Definition encoded (appConfig : AppConfig.t) (now : time.Time) (intn : nat)
    (clientState : ptr) (q : dns.Question) (dcss : DNSClientStateStore)
    (answer : list RR) : option (Flow RR) :=
  let qnameLower := strings.ToLower (dns.Name q) in
  (* Preparing to update the client DNS query state *)
  dcss ← store_object clientState (DNSClientState.set_FirstQueryTime now) dcss;
  dcss ← store_object clientState (DNSClientState.set_CurrentQueryTime now) dcss;
  dcss ← store_object clientState
           (DNSClientState.set_ResponseReboundIPAddrtimeOut
              (AppConfig.ResponseReboundIPAddrtimeOut appConfig)) dcss;
  let '(name, err) := NewDNSQuery qnameLower in
  match err with
  | Some _ => Some (Return dcss NoReply)
  | None =>
      dcss ← store_object clientState
               (DNSClientState.set_ResponseIPAddr (DNSQuery.ResponseIPAddr name)) dcss;
      dcss ← store_object clientState
               (DNSClientState.set_ResponseReboundIPAddr
                  (DNSQuery.ResponseReboundIPAddr name)) dcss;
      let rebindingFn :=
        match DNSRebindingStrategy (DNSQuery.DNSRebindingStrategy name) with
        | Some fn => fn
        | None => AppConfig.RebindingFn appConfig
        end in
      let dcss :=
        match Sessions dcss !! DNSQuery.Session name with
        | Some _ => dcss
        | None => (* New session *)
            {| Sessions := <[DNSQuery.Session name := clientState]> (Sessions dcss);
               Objects := Objects dcss |}
        end in
      '(answers, dcss) ← call rebindingFn intn (DNSQuery.Session name) dcss q;
      match serialize q answers with
      | OutOfRange => None
      | Mismatch => Some (Return dcss (WriteMsg answer))
      | Lines response =>
          dcss ← store_session (DNSQuery.Session name)
                   (DNSClientState.set_CurrentQueryTime now) dcss;
          dcss ← store_session (DNSQuery.Session name)
                   (DNSClientState.set_LastQueryTime now) dcss;
          Some (Continue dcss (answer ++ omap NewRR response))
      end
  end.

(** The body of the loop over the questions of the reply [m], for one
    question [q]. *)
Definition serve_question (appConfig : AppConfig.t) (now : time.Time)
    (remote : Addr) (intn : nat) (clientState : ptr) (q : dns.Question)
    (dcss : DNSClientStateStore) (answer : list RR) : option (Flow RR) :=
  if negb ((dns.Qtype q =? dns.TypeA) || (dns.Qtype q =? dns.TypeAAAA))
  then Some (Continue dcss answer) else
  if addrInIPAddressList remote (AppConfig.IgnoreDNSRequestFrom appConfig)
  then Some (Return dcss NoReply) else
  let qnameLower := strings.ToLower (dns.Name q) in
  match (if negb (strings.HasPrefix qnameLower "s-")
         then minimization appConfig q dcss answer else None) with
  | Some flow => Some flow
  | None => encoded appConfig now intn clientState q dcss answer
  end.

Fixpoint serve_questions (appConfig : AppConfig.t) (now : time.Time)
    (remote : Addr) (intn : nat) (clientState : ptr) (qs : list dns.Question)
    (dcss : DNSClientStateStore) (answer : list RR)
  : option (DNSClientStateStore * Reply RR) :=
  match qs with
  | [] => Some (dcss, WriteMsg answer)
  | q :: rest =>
      flow ← serve_question appConfig now remote intn clientState q dcss answer;
      match flow with
      | Continue dcss answer =>
          serve_questions appConfig now remote intn clientState rest dcss answer
      | Return dcss reply => Some (dcss, reply)
      end
  end.

(** [m.SetReply(r)] of the DNS library copies the first question of the
    request, and only that one, into the reply. *)
Definition SetReply_Question (r : dns.Msg) : list dns.Question :=
  firstn 1 (dns.Questions r).

(** The handler [MakeRebindDNSHandler] returns, run on the request [r]
    from the peer [remote] at the time [now]. *)
Definition MakeRebindDNSHandler (appConfig : AppConfig.t)
    (dcss : DNSClientStateStore) (now : time.Time) (remote : Addr)
    (intn : nat) (r : dns.Msg) : option (DNSClientStateStore * Reply RR) :=
  let '(clientState, dcss) := new_DNSClientState dcss in
  if dns.Opcode r =? dns.OpcodeQuery
  then serve_questions appConfig now remote intn clientState
                       (SetReply_Question r) dcss []
  else Some (dcss, WriteMsg []).

(** *** The HTTP handlers *)

(** Which handler the catch-all route ended in: [ipth.ServeHTTP]
    (the packet-filter hijack) or [d.ServeHTTP] (default headers, then
    the file server). *)
Inductive RootRoute :=
| IPTables
| DefaultHeaders.

(** The handler of ["/"] that [NewHTTPServer] registers, run on a request
    with the given [Host] header; [now] is the reading of [time.Now()]. *)
Definition rootHandler (dcss : DNSClientStateStore) (host : string)
    (now : time.Time) : option (DNSClientStateStore * RootRoute) :=
  let '(name, err) := NewDNSQuery host in
  match err with
  | None =>
      match Sessions dcss !! DNSQuery.Session name with
      | Some _ =>
          s ← session_state dcss (DNSQuery.Session name);
          let elapsed := time.Sub now (DNSClientState.FirstQueryTime s) in
          if String.eqb (DNSQuery.DNSRebindingStrategy name) "ma"
             && (time.mul time.Second 3 <? elapsed)
          then
            dcss ← store_session (DNSQuery.Session name)
                     (DNSClientState.set_FirewalledOnce true) dcss;
            Some (dcss, IPTables)
          else Some (dcss, DefaultHeaders)
      | None => Some (dcss, DefaultHeaders)
      end
  | Some _ => Some (dcss, DefaultHeaders)
  end.

End Singularity.

(** [HTTPClientInfoHandler] provides HTTP client information. *)
Module HTTPClientInfoHandler.

Record t := mk { IPAddress : string; Port : string }.

(** [&HTTPClientInfoHandler{}]. *)
Definition zero : t := mk "" "".

End HTTPClientInfoHandler.

(** A JSON object with string members, before it is printed. *)
Inductive JSON :=
| JObject (members : list (string * string)).

(** [json.Marshal(hcih)]: an object with one member per exported field. *)
Definition json_Marshal (hcih : HTTPClientInfoHandler.t) : JSON :=
  JObject [("IPAddress", HTTPClientInfoHandler.IPAddress hcih);
           ("Port", HTTPClientInfoHandler.Port hcih)].

Record Response := { StatusCode : Z; Body : JSON }.

(** [HTTPClientInfoHandler.ServeHTTP], the handler of ["/clientinfo"]. The
    receiver [hcih] is the one object [NewHTTPServer] allocates for the
    server, so it is passed from request to request. [None] is the panic of
    [splitted[1]] on a remote address without a colon. [fmt.Fprintf] on a
    fresh response writer sends status 200; [http.Error] sends the given
    status and the given text. *)
Definition HTTPClientInfoHandler_ServeHTTP (hcih : HTTPClientInfoHandler.t)
    (Method RemoteAddr : string) : option (HTTPClientInfoHandler.t * Response) :=
  let emptyResponse := json_Marshal hcih in
  let splitted := strings.Split RemoteAddr ":" in
  splitted_0 ← splitted !! 0%nat;
  splitted_1 ← splitted !! 1%nat;
  let hcih := HTTPClientInfoHandler.mk splitted_0 splitted_1 in
  let clientInfoResponse := json_Marshal hcih in
  if String.eqb Method "GET"
  then Some (hcih, {| StatusCode := 200; Body := clientInfoResponse |})
  else Some (hcih, {| StatusCode := 400; Body := emptyResponse |}).

(** ** A reference implementation of the external interface

    Used only to run the handlers on concrete requests. *)
Module reference.

Definition is_digit (c : ascii) : bool :=
  let n := N_of_ascii c in ((48 <=? n) && (n <=? 57))%N.

Fixpoint all_chars (p : ascii -> bool) (s : string) : bool :=
  match s with
  | EmptyString => true
  | String c t => p c && all_chars p t
  end.

Fixpoint decimal (acc : Z) (s : string) : Z :=
  match s with
  | EmptyString => acc
  | String c t => decimal (acc * 10 + (Z.of_N (N_of_ascii c) - 48)) t
  end.

(** One field of a dotted quad: up to three digits, no leading zero,
    at most 255. *)
Definition octet (s : string) : option Z :=
  let n := String.length s in
  if ((1 <=? n) && (n <=? 3))%nat && all_chars is_digit s
     && negb ((2 <=? n)%nat && strings.HasPrefix s "0")
     && (decimal 0 s <=? 255)
  then Some (decimal 0 s) else None.

Definition parseIPv4 (s : string) : option (list Z) :=
  match strings.Split s "." with
  | [a; b; c; d] =>
      a ← octet a; b ← octet b; c ← octet c; d ← octet d; Some [a; b; c; d]
  | _ => None
  end.

Fixpoint hexadecimal (acc : Z) (s : string) : option Z :=
  match s with
  | EmptyString => Some acc
  | String c t => d ← hex.fromHexChar c; hexadecimal (acc * 16 + d) t
  end.

(** One 16-bit group: one to four hexadecimal digits. *)
Definition group (s : string) : option (list Z) :=
  let n := String.length s in
  if ((1 <=? n) && (n <=? 4))%nat
  then g ← hexadecimal 0 s; Some [g / 256; g mod 256]
  else None.

Fixpoint pieces (l : list string) : option (list Z) :=
  match l with
  | [] => Some []
  | [last] =>
      match group last with
      | Some b => Some b
      | None => parseIPv4 last
      end
  | g :: rest => b ← group g; r ← pieces rest; Some (b ++ r)
  end.

Definition groups_of (s : string) : option (list Z) :=
  if String.eqb s "" then Some [] else pieces (strings.Split s ":").

Definition only_groups (s : string) : option (list Z) :=
  if strings.ContainsAny s "." then None else groups_of s.

Definition parseIPv6 (s : string) : option (list Z) :=
  match strings.Split s "::" with
  | [all] =>
      b ← groups_of all;
      if (length b =? 16)%nat then Some b else None
  | [l; r] =>
      bl ← only_groups l;
      br ← groups_of r;
      if (length bl + length br <=? 14)%nat
      then Some (bl ++ repeat 0 (16 - (length bl + length br)) ++ br)
      else None
  | _ => None
  end.

Fixpoint first_separator (s : string) : option ascii :=
  match s with
  | EmptyString => None
  | String c t =>
      if Ascii.eqb c "." || Ascii.eqb c ":" then Some c else first_separator t
  end.

(** [net.ParseIP]: a dotted quad (returned in its 16-byte form) or an
    IPv6 literal without zone. *)
Definition ParseIP (s : string) : option net.IP :=
  match first_separator s with
  | Some c =>
      if Ascii.eqb c "." then b ← parseIPv4 s; Some (net.v4InV6Prefix ++ b)
      else parseIPv6 s
  | None => None
  end.

(** The domain-name check of Go's resolver, of which the repository's
    [golang] package carries a copy. *)
Fixpoint domain_scan (s : string) (last : ascii) (nonNumeric : bool)
    (partlen : nat) : bool :=
  match s with
  | EmptyString =>
      if Ascii.eqb last "-" || (63 <? partlen)%nat then false else nonNumeric
  | String c t =>
      let n := N_of_ascii c in
      if (((97 <=? n) && (n <=? 122)) || ((65 <=? n) && (n <=? 90)))%N
         || Ascii.eqb c "_"
      then domain_scan t c true (S partlen)
      else if is_digit c then domain_scan t c nonNumeric (S partlen)
      else if Ascii.eqb c "-"
      then if Ascii.eqb last "." then false else domain_scan t c true (S partlen)
      else if Ascii.eqb c "."
      then if Ascii.eqb last "." || Ascii.eqb last "-" then false
           else if (63 <? partlen)%nat || (partlen =? 0)%nat then false
           else domain_scan t c nonNumeric O
      else false
  end.

Definition IsDomainName (s : string) : bool :=
  let l := String.length s in
  if (l =? 0)%nat || (254 <? l)%nat
     || ((l =? 254)%nat
         && negb (bool_decide (String.get (l - 1) s = Some "."%char)))
  then false
  else domain_scan s "." false O.

(** A resource record as the zone-file line spells it. *)
Record ZoneRR := { Hdr_Name : string; Hdr_Ttl : Z; Hdr_Rrtype : string; Rdata : string }.

(** [dns.NewRR] on the lines the handler builds:
    [<owner> <ttl> IN <type> <rdata>]. An A record takes a dotted quad, an
    AAAA record an address written with colons, a CNAME record a
    non-empty target. *)
Definition NewRR (line : string) : option ZoneRR :=
  match strings.Split line " " with
  | [owner; ttl; class; rrtype; rdata] =>
      let ok :=
        negb (String.eqb owner "") && negb (String.eqb ttl "")
        && all_chars is_digit ttl && String.eqb class "IN"
        && (if String.eqb rrtype "A"
            then bool_decide (is_Some (ParseIP rdata))
                 && negb (strings.ContainsAny rdata ":")
            else if String.eqb rrtype "AAAA"
            then bool_decide (is_Some (ParseIP rdata))
                 && strings.ContainsAny rdata ":"
            else if String.eqb rrtype "CNAME"
            then negb (String.eqb rdata "")
            else false) in
      if ok then Some {| Hdr_Name := owner; Hdr_Ttl := decimal 0 ttl;
                         Hdr_Rrtype := rrtype; Rdata := rdata |}
      else None
  | _ => None
  end.

Definition go : External := Build_External ZoneRR NewRR ParseIP IsDomainName.

End reference.

(** * Vocabulary of the properties *)

(** The store at startup: an empty map. *)
Definition empty_store : DNSClientStateStore := {| Sessions := ∅; Objects := [] |}.

(** Every session of the map points to an object. *)
Definition wf (dcss : DNSClientStateStore) : Prop :=
  forall session p, Sessions dcss !! session = Some p -> is_Some (Objects dcss !! p).

(** The handler left the sessions alone: the map has the keys and pointers
    it had, the objects are the ones there were, and the only new object is
    the one the handler allocated for itself. *)
Definition untouched (dcss dcss' : DNSClientStateStore) : Prop :=
  Sessions dcss' = Sessions dcss /\
  exists clientState, Objects dcss' = Objects dcss ++ [clientState].

Definition is_address_query (q : dns.Question) : Prop :=
  dns.Qtype q = dns.TypeA \/ dns.Qtype q = dns.TypeAAAA.

(** The round-robin cursor after a call: 0 -> 1 -> 2 -> 1 -> 2 ... *)
Definition rr_next (i : Z) : Z := if i =? 1 then 2 else 1.

Definition cursor_ok (s : DNSClientState.t) : Prop :=
  DNSClientState.LastResponseReboundIPAddr s = 0
  \/ DNSClientState.LastResponseReboundIPAddr s = 1
  \/ DNSClientState.LastResponseReboundIPAddr s = 2.

Definition cursors_ok (dcss : DNSClientStateStore) : Prop :=
  Forall cursor_ok (Objects dcss).


(** The assignments the handlers make to a state object that is in the
    store: the round-robin cursor, the two time stamps of an answer, the
    firewall flag. *)
Inductive assigned : DNSClientState.t -> DNSClientState.t -> Prop :=
| assigned_cursor s i :
    i = 1 \/ i = 2 ->
    assigned s (DNSClientState.set_LastResponseReboundIPAddr i s)
| assigned_current s t : assigned s (DNSClientState.set_CurrentQueryTime t s)
| assigned_last s t : assigned s (DNSClientState.set_LastQueryTime t s)
| assigned_firewalled s : assigned s (DNSClientState.set_FirewalledOnce true s).

(** How a handler derives the store it leaves from the store it found: it
    allocates an object, it inserts a new session on a new object, it
    assigns to an object. *)
Inductive derives : DNSClientStateStore -> DNSClientStateStore -> Prop :=
| derives_refl dcss : derives dcss dcss
| derives_allocate dcss object :
    DNSClientState.LastResponseReboundIPAddr object = 0 ->
    derives dcss {| Sessions := Sessions dcss; Objects := Objects dcss ++ [object] |}
| derives_session dcss session object :
    DNSClientState.LastResponseReboundIPAddr object = 0 ->
    Sessions dcss !! session = None ->
    derives dcss {| Sessions := <[session := length (Objects dcss)]> (Sessions dcss);
                    Objects := Objects dcss ++ [object] |}
| derives_assigned dcss p s s' :
    Objects dcss !! p = Some s ->
    assigned s s' ->
    derives dcss {| Sessions := Sessions dcss; Objects := <[p := s']> (Objects dcss) |}
| derives_trans d1 d2 d3 : derives d1 d2 -> derives d2 d3 -> derives d1 d3.

(** What every handler preserves of a state object: the rebound target,
    and the firewall flag once it is set. *)
Definition latched (s s' : DNSClientState.t) : Prop :=
  DNSClientState.ResponseReboundIPAddr s' = DNSClientState.ResponseReboundIPAddr s /\
  (DNSClientState.FirewalledOnce s = true -> DNSClientState.FirewalledOnce s' = true).

(** A store that kept every session on its object and changed the objects
    only in ways that respect the latch. *)
Definition evolves (dcss dcss' : DNSClientStateStore) : Prop :=
  (forall session p, Sessions dcss !! session = Some p ->
                     Sessions dcss' !! session = Some p) /\
  (forall p s, Objects dcss !! p = Some s ->
               exists s', Objects dcss' !! p = Some s' /\ latched s s').

(** What can happen to the store: a DNS request, an HTTP request on the
    catch-all route, an expiry sweep. *)
Inductive Event :=
| DNSRequest (now : time.Time) (remote : Addr) (intn : nat) (r : dns.Msg)
| RootRequest (host : string) (now : time.Time)
| Sweep (duration : time.Duration) (clock : string -> time.Time).

(** What a client of the servers sees of an event. *)
Inductive Observation {R : Type} :=
| Replied (reply : Reply R)
| Routed (route : RootRoute)
| Swept
| Panicked.
Arguments Observation : clear implicits.

Section Vocabulary.

Context `{External}.

(** The object of a new session, as the handler has prepared it when it
    calls the strategy. *)
Definition new_session (appConfig : AppConfig.t) (now : time.Time)
    (name : DNSQuery.t) : DNSClientState.t :=
  DNSClientState.mk now time.zero now
    (DNSQuery.ResponseIPAddr name) (DNSQuery.ResponseReboundIPAddr name) 0
    (AppConfig.ResponseReboundIPAddrtimeOut appConfig) false.

(** The store in which the handler calls the strategy: the handler's
    object is prepared and, for a new session, inserted. *)
Definition dispatch_store (appConfig : AppConfig.t) (now : time.Time)
    (name : DNSQuery.t) (dcss : DNSClientStateStore) : DNSClientStateStore :=
  {| Sessions :=
       match Sessions dcss !! DNSQuery.Session name with
       | Some _ => Sessions dcss
       | None => <[DNSQuery.Session name := length (Objects dcss)]> (Sessions dcss)
       end;
     Objects := Objects dcss ++ [new_session appConfig now name] |}.

(** The strategy of a query: the one its tag names, else the configured
    one. *)
Definition strategy_of (appConfig : AppConfig.t) (name : DNSQuery.t) : RebindingFn :=
  match DNSRebindingStrategy (DNSQuery.DNSRebindingStrategy name) with
  | Some fn => fn
  | None => AppConfig.RebindingFn appConfig
  end.

(** The record type of an IP answer. *)
Definition record_type (address : net.IP) : string :=
  match net.To4 address with Some _ => "A" | None => "AAAA" end.

(** The zone-file line of the QNAME-minimization answer: TTL 0, type A
    for an IPv4 address and AAAA otherwise. *)
Definition minimization_line (appConfig : AppConfig.t) (q : dns.Question)
    (address : net.IP) : string :=
  address_line (dns.Name q) "0" (record_type address)
               (AppConfig.ResponseIPAddr appConfig).

(** The zone-file line of one answer in a response: an address record
    with the given TTL for an IP, a CNAME record otherwise. *)
Definition record_line (q : dns.Question) (time answer : string) : string :=
  match ParseIP answer with
  | Some address => address_line (dns.Name q) time (record_type address) answer
  | None => cname_line (dns.Name q) answer
  end.

(** The failure modes of the codec: the name lacks the start tag, it
    does not have exactly one end tag, the text between the tags does not
    have three dash-separated fields, the first host is not hexadecimal, or
    the second host is neither hexadecimal nor [localhost] nor, with its
    dashes restored, a domain name. *)
Inductive failure_mode (qname : string) : Prop :=
| missing_start_tag :
    strings.HasPrefix (strings.Replace qname "--" "_") "s-" = false ->
    failure_mode qname
| missing_end_tag :
    length (strings.Split
              (strings.TrimPrefix (strings.Replace qname "--" "_") "s-") "-e.")
    <> 2%nat ->
    failure_mode qname
| wrong_field_count split1_0 domainSuffix :
    strings.Split (strings.TrimPrefix (strings.Replace qname "--" "_") "s-") "-e."
    = [split1_0; domainSuffix] ->
    length (strings.Split split1_0 "-") <> 3%nat ->
    failure_mode qname
| undecodable_first_host split1_0 domainSuffix split2_0 split2_1 split2_2 :
    strings.Split (strings.TrimPrefix (strings.Replace qname "--" "_") "s-") "-e."
    = [split1_0; domainSuffix] ->
    strings.Split split1_0 "-" = [split2_0; split2_1; split2_2] ->
    hex.DecodeString (strings.Cut split2_0 ".").1.1 = None ->
    failure_mode qname
| invalid_second_host split1_0 domainSuffix split2_0 split2_1 split2_2 :
    strings.Split (strings.TrimPrefix (strings.Replace qname "--" "_") "s-") "-e."
    = [split1_0; domainSuffix] ->
    strings.Split split1_0 "-" = [split2_0; split2_1; split2_2] ->
    hex.DecodeString (strings.Cut split2_0 ".").1.2 = None ->
    (strings.Cut split2_0 ".").1.2 <> "localhost" ->
    IsDomainName (strings.Replace (strings.Cut split2_0 ".").1.2 "_" "-") = false ->
    failure_mode qname.

(** The [Host] header is an encoded query of the multi-A strategy whose
    session is in the store and is more than three seconds old. *)
Definition ripe (dcss : DNSClientStateStore) (host : string) (now : time.Time)
    (name : DNSQuery.t) (p : ptr) (s : DNSClientState.t) : Prop :=
  NewDNSQuery host = (name, None) /\
  Sessions dcss !! DNSQuery.Session name = Some p /\
  Objects dcss !! p = Some s /\
  DNSQuery.DNSRebindingStrategy name = "ma" /\
  3 * time.Second < now - DNSClientState.FirstQueryTime s.

Definition step (appConfig : AppConfig.t) (dcss : DNSClientStateStore)
    (e : Event) : option DNSClientStateStore :=
  match e with
  | DNSRequest now remote intn r =>
      fst <$> MakeRebindDNSHandler appConfig dcss now remote intn r
  | RootRequest host now => fst <$> rootHandler dcss host now
  | Sweep duration clock => Some (ExpireOldEntries duration clock dcss)
  end.

(** The store after a run of events; [None] when a handler panicked. *)
Fixpoint run (appConfig : AppConfig.t) (dcss : DNSClientStateStore)
    (es : list Event) : option DNSClientStateStore :=
  match es with
  | [] => Some dcss
  | e :: es => dcss ← step appConfig dcss e; run appConfig dcss es
  end.

(** A history after every event of which the session is in the store:
    no sweep expired it. *)
Inductive history (appConfig : AppConfig.t) (session : string)
  : DNSClientStateStore -> list Event -> DNSClientStateStore -> Prop :=
| history_nil dcss : history appConfig session dcss [] dcss
| history_cons dcss e dcss1 es dcss2 :
    step appConfig dcss e = Some dcss1 ->
    is_Some (Sessions dcss1 !! session) ->
    history appConfig session dcss1 es dcss2 ->
    history appConfig session dcss (e :: es) dcss2.

(** A history after every event of which the session, if it is in the
    store, has not been answered: its last query time is the zero time. *)
Inductive unanswered (appConfig : AppConfig.t) (session : string)
  : DNSClientStateStore -> list Event -> DNSClientStateStore -> Prop :=
| unanswered_nil dcss : unanswered appConfig session dcss [] dcss
| unanswered_cons dcss e dcss1 es dcss2 :
    step appConfig dcss e = Some dcss1 ->
    (forall s, session_state dcss1 session = Some s ->
               DNSClientState.LastQueryTime s = time.zero) ->
    unanswered appConfig session dcss1 es dcss2 ->
    unanswered appConfig session dcss (e :: es) dcss2.

(** The observations of a run of events, one after the other. *)
Fixpoint observe (appConfig : AppConfig.t) (dcss : DNSClientStateStore)
    (es : list Event) : list (Observation RR) :=
  match es with
  | [] => []
  | DNSRequest now remote intn r :: es =>
      match MakeRebindDNSHandler appConfig dcss now remote intn r with
      | Some (dcss, reply) => Replied reply :: observe appConfig dcss es
      | None => [Panicked]
      end
  | RootRequest host now :: es =>
      match rootHandler dcss host now with
      | Some (dcss, route) => Routed route :: observe appConfig dcss es
      | None => [Panicked]
      end
  | Sweep duration clock :: es =>
      Swept :: observe appConfig (ExpireOldEntries duration clock dcss) es
  end.

End Vocabulary.

(** ** Concrete scenarios, run with the reference implementation *)

Module scenario.

Definition appConfig : AppConfig.t :=
  {| AppConfig.ResponseIPAddr := "203.0.113.5";
     AppConfig.RebindingFn := FnFirstThenSecond;
     AppConfig.ResponseReboundIPAddrtimeOut := 30;
     AppConfig.IgnoreDNSRequestFrom := [] |}.

Definition peer : Addr := UDPAddr [192; 0; 2; 1].

(** A time in the 21st century, in nanoseconds since the zero time. *)
Definition t0 : time.Time := 63900000000 * time.Second.

Definition seconds (n : Z) : time.Duration := n * time.Second.

Definition question (name : string) (qtype : Z) : dns.Question :=
  {| dns.Name := name; dns.Qtype := qtype; dns.Qclass := 1 |}.

Definition query (name : string) (qtype : Z) : dns.Msg :=
  {| dns.Opcode := dns.OpcodeQuery; dns.Questions := [question name qtype] |}.

Definition dns_request (now : time.Time) (name : string) (qtype : Z) : Event :=
  DNSRequest now peer 0 (query name qtype).

Definition record (name : string) (ttl : Z) (rrtype rdata : string) : reference.ZoneRR :=
  {| reference.Hdr_Name := name; reference.Hdr_Ttl := ttl;
     reference.Hdr_Rrtype := rrtype; reference.Rdata := rdata |}.

(** The store after the multi-A query of session [m1], before and after
    the HTTP dispatcher has set the firewall flag. *)
Definition multi_a (firewalled : bool) : DNSClientStateStore :=
  {| Sessions := {["m1" := 0%nat]};
     Objects := [DNSClientState.mk t0 t0 t0 "192.168.0.1" "127.0.0.1" 0 30 firewalled] |}.


End scenario.

(** * The rest of the source file

    The functions of [singularity.go] beside the DNS responder: the random
    token, the parser of an [Origin] header, and the store of HTTP servers
    with the handler of [/servers]. *)

(** ** Go [strconv] *)

Module strconv.

(** [strconv.Itoa(i)]. *)
Definition Itoa (i : Z) : string :=
  if i <? 0 then "-" +:+ net.itoa (- i) else net.itoa i.

(** [strconv.Atoi(s)] where [int] has 64 bits: an optional sign, then one
    or more decimal digits. [None] stands for a non-nil error (a syntax
    error, or a value out of the range of [int]). *)
Definition Atoi (s : string) : option Z :=
  let '(neg, digits) :=
    match s with
    | String c t =>
        if Ascii.eqb c "-" then (true, t)
        else if Ascii.eqb c "+" then (false, t)
        else (false, s)
    | EmptyString => (false, s)
    end in
  if (String.length digits =? 0)%nat
     || negb (reference.all_chars reference.is_digit digits)
  then None
  else
    let n := reference.decimal 0 digits in
    let i := if neg then - n else n in
    if (i <? - 2 ^ 63) || (2 ^ 63 - 1 <? i) then None else Some i.

End strconv.

(** ** The random token *)

(** [crand.Read(b)] fills [b] from the random source of the system, or
    fails. [entropy] is what the source delivers, [None] when reading it
    fails; a source that delivers less than [len(b)] bytes is a failure. *)
Definition crand_Read (entropy : option (list Z)) (b : list Z) : option (list Z) :=
  bytes ← entropy;
  if (length bytes <? length b)%nat then None else Some (take (length b) bytes).

(** [GenerateRandomString] returns a random string of hexadecimal digits;
    [None] stands for the result [("", err)]. *)
Definition GenerateRandomString (entropy : option (list Z)) : option string :=
  let c := 20%nat in
  let b := repeat 0 c in
  match crand_Read entropy b with
  | None => None
  | Some b => Some (hex.EncodeToString b)
  end.

(** ** The query of an [Origin] header *)

Section Origin.

Context `{External}.

(** [NewDNSQueryFromOrigin]; [None] is the panic of an index out of
    range. *)
Definition NewDNSQueryFromOrigin (origin : string)
  : option (DNSQuery.t * option ParseError) :=
  let s := strings.TrimPrefix origin "http://" in
  host ← strings.Split s ":" !! 0%nat;
  Some (NewDNSQuery host).

End Origin.

(** ** The store of HTTP servers *)

Module http.

(** An [http.Server], as far as the store looks at it: its address. *)
Record Server := { Addr : string }.

End http.

Module httpServerInfo.

Record t := { Port : string }.

(** [httpServerInfo{}]. *)
Definition zero : t := {| Port := "" |}.

End httpServerInfo.

(** [HTTPServersConfig] is returned to the JS client to inform about the
    HTTP ports and whether dynamic HTTP server allocation is allowed. *)
Module HTTPServersConfig.

Record t := {
  ServerInformation : list httpServerInfo.t;
  AllowDynamicHTTPServers : bool;
}.

End HTTPServersConfig.

(** [HTTPServerStoreHandler] holds the list of HTTP servers: many servers
    at startup and one dynamically instantiated server. An element of a
    slice of servers is a pointer, [None] being nil. *)
Module HTTPServerStoreHandler.

Record t := {
  AllowDynamicHTTPServers : bool;
  DynamicServers : list (option http.Server);
  StaticServers : list (option http.Server);
}.

End HTTPServerStoreHandler.

(** What a function does to a server beside the store: [s.Close()], and
    the goroutine that runs [s.Serve(l)]. *)
Inductive ServerEffect :=
| Close (s : http.Server)
| Serve (s : http.Server).

(** The body of a response of [/servers] before it is printed: the
    [json.Marshal] of an [httpServerInfo] or of an [HTTPServersConfig]. *)
Inductive ServersBody :=
| OfServerInfo (serverInfo : httpServerInfo.t)
| OfServersConfig (config : HTTPServersConfig.t).

Record ServersResponse := { Status : Z; Payload : ServersBody }.

(** [NewHTTPServer] configures an HTTP server: its address is the port on
    every interface. Its handler of ["/"] is [rootHandler]. *)
Definition NewHTTPServer (port : Z) : http.Server :=
  {| http.Addr := ":" +:+ strconv.Itoa port |}.

(** [StopHTTPServer] stops an HTTP server. *)
Definition StopHTTPServer (s : http.Server) (hss : HTTPServerStoreHandler.t)
  : list ServerEffect :=
  [Close s].

(** The loop of [StartHTTPServer] over the static servers. *)
Definition found_static (s : http.Server) (servers : list (option http.Server)) : bool :=
  existsb (fun v => match v with
                    | Some v => String.eqb (http.Addr v) (http.Addr s)
                    | None => false
                    end) servers.

(** The ports the handler of [/servers] lists for a slice of servers:
    [strings.Split(server.Addr, ":")[1]] for every server that is not nil.
    [None] is the panic of the index on an address without a colon. *)
Fixpoint server_ports (servers : list (option http.Server))
  : option (list httpServerInfo.t) :=
  match servers with
  | [] => Some []
  | None :: rest => server_ports rest
  | Some server :: rest =>
      port ← strings.Split (http.Addr server) ":" !! 1%nat;
      infos ← server_ports rest;
      Some ({| httpServerInfo.Port := port |} :: infos)
  end.

Section Servers.

(** [net.Listen("tcp", addr)] (and [ListenConfig.Listen] for a transparent
    proxy): whether the operating system grants the address. *)
Variable Listen : string -> bool.

(** [json.Unmarshal(body, &serverInfo)] on the zero [httpServerInfo];
    [None] stands for a non-nil error. *)
Variable json_Unmarshal : string -> option httpServerInfo.t.

(** [StartHTTPServer] starts an HTTP server and adds it to the dynamic (if
    [dynamic] is true) or static store. The boolean of the result is
    [err != nil]; [None] is the panic of [hss.DynamicServers[0]] on an empty
    slice. *)
Definition StartHTTPServer (s : http.Server) (hss : HTTPServerStoreHandler.t)
    (dynamic tproxy : bool)
  : option (HTTPServerStoreHandler.t * bool * list ServerEffect) :=
  if negb (Listen (http.Addr s)) then Some (hss, true, []) else
  hss ←
    (if dynamic then
       let found := found_static s (HTTPServerStoreHandler.StaticServers hss) in
       if negb found then
         match HTTPServerStoreHandler.DynamicServers hss with
         | [] => None
         | _ :: _ =>
             Some {| HTTPServerStoreHandler.AllowDynamicHTTPServers :=
                       HTTPServerStoreHandler.AllowDynamicHTTPServers hss;
                     HTTPServerStoreHandler.DynamicServers :=
                       <[0%nat := Some s]> (HTTPServerStoreHandler.DynamicServers hss);
                     HTTPServerStoreHandler.StaticServers :=
                       HTTPServerStoreHandler.StaticServers hss |}
         end
       else Some hss
     else
       Some {| HTTPServerStoreHandler.AllowDynamicHTTPServers :=
                 HTTPServerStoreHandler.AllowDynamicHTTPServers hss;
               HTTPServerStoreHandler.DynamicServers :=
                 HTTPServerStoreHandler.DynamicServers hss;
               HTTPServerStoreHandler.StaticServers :=
                 HTTPServerStoreHandler.StaticServers hss ++ [Some s] |});
  Some (hss, false, [Serve s]).

(** [HTTPServerStoreHandler.ServeHTTP], the handler of ["/servers"], on a
    request with the given method and body. [json.Marshal] does not fail
    on the two structures the handler prints, so the error branches after
    it are not reachable. [http.MaxBytesReader] makes the read fail on a
    body of more than 5000 bytes. [None] is a panic. *)
Definition HTTPServerStoreHandler_ServeHTTP (hss : HTTPServerStoreHandler.t)
    (Method Body : string)
  : option (HTTPServerStoreHandler.t * ServersResponse * list ServerEffect) :=
  let serverInfo := httpServerInfo.zero in
  let emptyResponse := OfServerInfo serverInfo in
  let bad := {| Status := 400; Payload := emptyResponse |} in
  if String.eqb Method "GET" then
    static ← server_ports (HTTPServerStoreHandler.StaticServers hss);
    dynamic ← server_ports (HTTPServerStoreHandler.DynamicServers hss);
    let myHTTPServersConfig :=
      {| HTTPServersConfig.ServerInformation := static ++ dynamic;
         HTTPServersConfig.AllowDynamicHTTPServers :=
           HTTPServerStoreHandler.AllowDynamicHTTPServers hss |} in
    Some (hss, {| Status := 200; Payload := OfServersConfig myHTTPServersConfig |}, [])
  else if String.eqb Method "PUT" then
    if negb (HTTPServerStoreHandler.AllowDynamicHTTPServers hss)
    then Some (hss, bad, []) else
    if (5000 <? String.length Body)%nat then Some (hss, bad, []) else
    match json_Unmarshal Body with
    | None => Some (hss, bad, [])
    | Some serverInfo =>
        match strconv.Atoi (httpServerInfo.Port serverInfo) with
        | None => Some (hss, bad, [])
        | Some port =>
            slot ← HTTPServerStoreHandler.DynamicServers hss !! 0%nat;
            let '(hss, stopped) :=
              match slot with
              | Some server =>
                  ({| HTTPServerStoreHandler.AllowDynamicHTTPServers :=
                        HTTPServerStoreHandler.AllowDynamicHTTPServers hss;
                      HTTPServerStoreHandler.DynamicServers :=
                        <[0%nat := None]> (HTTPServerStoreHandler.DynamicServers hss);
                      HTTPServerStoreHandler.StaticServers :=
                        HTTPServerStoreHandler.StaticServers hss |},
                   StopHTTPServer server hss)
              | None => (hss, [])
              end in
            let httpServer := NewHTTPServer port in
            '(hss, httpServerErr, started) ← StartHTTPServer httpServer hss true false;
            if (httpServerErr : bool)
            then Some (hss, bad, stopped ++ started)
            else Some (hss, {| Status := 200; Payload := OfServerInfo serverInfo |},
                       stopped ++ started)
        end
    end
  else Some (hss, bad, []).

End Servers.

(** * Vocabulary of the further properties *)

(** A byte. *)
Definition is_byte (x : Z) : Prop := 0 <= x < 256.

(** The text has no colon. *)
Definition colon_free (s : string) : Prop := strings.ContainsAny s ":" = false.

(** The text has no dash. *)
Definition dash_free (s : string) : Prop := strings.ContainsAny s "-" = false.

(** The IP address of a peer, when its address has one. *)
Definition peer_ip (addr : Addr) : option net.IP :=
  match addr with
  | TCPAddr ip | UDPAddr ip | IPAddr ip => Some ip
  | OtherAddr => None
  end.

(** The request is not one the responder answers with records: it is not
    a standard query, it has no question, or its first question asks for a
    type other than A and AAAA. *)
Definition not_address_request (r : dns.Msg) : Prop :=
  dns.Opcode r <> dns.OpcodeQuery \/
  match dns.Questions r with
  | [] => True
  | q :: _ => ~ is_address_query q
  end.

(** What a DNS request at the time [now] leaves of a state object: all of
    it but the round-robin cursor and the two time stamps of an answer,
    which are the old ones or [now]. *)
Definition stamped (now : time.Time) (s s' : DNSClientState.t) : Prop :=
  DNSClientState.FirstQueryTime s' = DNSClientState.FirstQueryTime s /\
  DNSClientState.ResponseIPAddr s' = DNSClientState.ResponseIPAddr s /\
  DNSClientState.ResponseReboundIPAddr s' = DNSClientState.ResponseReboundIPAddr s /\
  DNSClientState.ResponseReboundIPAddrtimeOut s'
  = DNSClientState.ResponseReboundIPAddrtimeOut s /\
  DNSClientState.FirewalledOnce s' = DNSClientState.FirewalledOnce s /\
  (DNSClientState.LastQueryTime s' = DNSClientState.LastQueryTime s \/
   DNSClientState.LastQueryTime s' = now) /\
  (DNSClientState.CurrentQueryTime s' = DNSClientState.CurrentQueryTime s \/
   DNSClientState.CurrentQueryTime s' = now).

(** The random index of every DNS request of the run is one [rand.Intn(2)]
    can return. *)
Definition drawn (e : Event) : Prop :=
  match e with
  | DNSRequest _ _ intn _ => (intn < 2)%nat
  | _ => True
  end.

(** No server of the dynamic slots listens on the address of a static
    server. *)
Definition compartments_disjoint (hss : HTTPServerStoreHandler.t) : Prop :=
  forall d s, In (Some d) (HTTPServerStoreHandler.DynamicServers hss) ->
              In (Some s) (HTTPServerStoreHandler.StaticServers hss) ->
              http.Addr s <> http.Addr d.

(** The store with other dynamic servers. *)
Definition set_DynamicServers (servers : list (option http.Server))
    (hss : HTTPServerStoreHandler.t) : HTTPServerStoreHandler.t :=
  {| HTTPServerStoreHandler.AllowDynamicHTTPServers :=
       HTTPServerStoreHandler.AllowDynamicHTTPServers hss;
     HTTPServerStoreHandler.DynamicServers := servers;
     HTTPServerStoreHandler.StaticServers := HTTPServerStoreHandler.StaticServers hss |}.

(** The response [http.Error(w, emptyResponseStr, 400)] of [/servers]. *)
Definition bad_request : ServersResponse :=
  {| Status := 400; Payload := OfServerInfo httpServerInfo.zero |}.

(** What stopping the server of a slot does: nothing for a nil slot. *)
Definition closes (slot : option http.Server) : list ServerEffect :=
  match slot with
  | Some server => [Close server]
  | None => []
  end.

(** A PUT request the handler of [/servers] acts on: dynamic servers are
    allowed, the body has at most 5000 bytes and is JSON for [serverInfo],
    whose port is the decimal text of [port]. *)
Definition accepted_put (json_Unmarshal : string -> option httpServerInfo.t)
    (hss : HTTPServerStoreHandler.t) (Body : string)
    (serverInfo : httpServerInfo.t) (port : Z) : Prop :=
  HTTPServerStoreHandler.AllowDynamicHTTPServers hss = true /\
  (String.length Body <= 5000)%nat /\
  json_Unmarshal Body = Some serverInfo /\
  strconv.Atoi (httpServerInfo.Port serverInfo) = Some port.

(** The servers [NewHTTPServer] makes for a slice of ports, [None] being
    a nil element. *)
Definition servers_on (ports : list (option Z)) : list (option http.Server) :=
  map (option_map NewHTTPServer) ports.

(** The entries of [ServerInformation] for a list of ports. *)
Definition port_infos (ports : list Z) : list httpServerInfo.t :=
  map (fun port => {| httpServerInfo.Port := strconv.Itoa port |}) ports.

(** The program of a session: its first query time, its two hosts and its
    timeout. *)
Definition same_program (s s' : DNSClientState.t) : Prop :=
  DNSClientState.FirstQueryTime s' = DNSClientState.FirstQueryTime s /\
  DNSClientState.ResponseIPAddr s' = DNSClientState.ResponseIPAddr s /\
  DNSClientState.ResponseReboundIPAddr s' = DNSClientState.ResponseReboundIPAddr s /\
  DNSClientState.ResponseReboundIPAddrtimeOut s'
  = DNSClientState.ResponseReboundIPAddrtimeOut s.

(** ** Concrete inputs of the further properties *)

Module further.

(** A configuration that ignores the DNS requests of one resolver. *)
Definition appConfig : AppConfig.t :=
  {| AppConfig.ResponseIPAddr := "203.0.113.5";
     AppConfig.RebindingFn := FnFirstThenSecond;
     AppConfig.ResponseReboundIPAddrtimeOut := 30;
     AppConfig.IgnoreDNSRequestFrom := [[192; 0; 2; 1]] |}.

(** The resolver, as a UDP peer with its address in the 16-byte form. *)
Definition ignored_peer : Addr := UDPAddr (net.v4InV6Prefix ++ [192; 0; 2; 1]).

(** The name of a multi-A query of session [m1], and the name of a query
    that carries the same session id with other hosts. *)
Definition multi_a_name : string := "s-c0a80001.7f000001-m1-ma-e.a.tld.".
Definition other_hosts_name : string := "s-0a000001.0a000002-m1-ma-e.a.tld.".

(** The store after the second of these queries, one second after the
    first: the state of the session and the object the handler allocated
    for the second request. *)
Definition requeried : DNSClientStateStore :=
  {| Sessions := {["m1" := 0%nat]};
     Objects :=
       [DNSClientState.mk scenario.t0 (scenario.t0 + scenario.seconds 1)
          (scenario.t0 + scenario.seconds 1) "192.168.0.1" "127.0.0.1" 0 30 false;
        DNSClientState.mk (scenario.t0 + scenario.seconds 1) time.zero
          (scenario.t0 + scenario.seconds 1) "10.0.0.1" "10.0.0.2" 0 30 false] |}.

(** Twenty-four bytes of a random source. *)
Definition entropy : list Z :=
  [222; 173; 190; 239; 0; 1; 2; 3; 4; 5; 6; 7; 8; 9; 10; 11; 12; 13; 14; 255;
   16; 17; 18; 19].

End further.

Module fleet.

Definition quote : string := String (ascii_of_nat 34) "".

(** The body of a PUT request of [/servers] for a port, a JSON object
    with the one member [Port]. *)
Definition body (port : string) : string :=
  "{" +:+ quote +:+ "Port" +:+ quote +:+ ":" +:+ quote +:+ port +:+ quote +:+ "}".

(** A decoder of the bodies of this form, to run the handler on concrete
    requests. *)
Definition json_Unmarshal (text : string) : option httpServerInfo.t :=
  let opening := "{" +:+ quote +:+ "Port" +:+ quote +:+ ":" +:+ quote in
  if strings.HasPrefix text opening
  then
    let '(port, closing, found) := strings.Cut (strings.TrimPrefix text opening) quote in
    if found && String.eqb closing "}"
    then Some {| httpServerInfo.Port := port |}
    else None
  else None.

(** A system that grants every address but port 9999. *)
Definition Listen (addr : string) : bool := negb (String.eqb addr ":9999").

(** A store with the static servers of the ports 8080 and 8081 and a
    dynamic server on port 3129. *)
Definition store : HTTPServerStoreHandler.t :=
  {| HTTPServerStoreHandler.AllowDynamicHTTPServers := true;
     HTTPServerStoreHandler.DynamicServers := servers_on [Some 3129];
     HTTPServerStoreHandler.StaticServers := servers_on [Some 8080; Some 8081] |}.

End fleet.

(** Neither a dash nor a dot. *)
Definition plain (c : ascii) : bool :=
  negb (Ascii.eqb c "-") && negb (Ascii.eqb c ".").

(** A session id or a strategy tag as a client writes it: a text of one
    character or more, without dashes and dots. *)
Definition label (s : string) : Prop :=
  s <> "" /\ reference.all_chars plain s = true.

(** A query name of the format the comment of [NewDNSQuery] gives,
    [s-hexstring1.hexstring2-session-method-e.attackerdomain], for two hosts
    given by their bytes. *)
Definition encoded_name (host1 host2 : list Z) (session method domain : string)
  : string :=
  "s-" +:+ (hex.EncodeToString host1 +:+ "." +:+ hex.EncodeToString host2)
       +:+ "-" +:+ session +:+ "-" +:+ method +:+ "-e." +:+ domain.

(** * Properties *)

(** ** The store *)

Lemma store_object_Some p f d d' :
  store_object p f d = Some d' ->
  exists s, Objects d !! p = Some s /\
            d' = {| Sessions := Sessions d; Objects := <[p := f s]> (Objects d) |}.
Proof.
  unfold store_object. intros Hs.
  destruct (Objects d !! p) as [s|] eqn:Hp; simpl in Hs; [|discriminate].
  exists s. split; [reflexivity|]. congruence.
Qed.

Lemma store_object_lookup p f d s :
  Objects d !! p = Some s ->
  store_object p f d
  = Some {| Sessions := Sessions d; Objects := <[p := f s]> (Objects d) |}.
Proof. unfold store_object. intros ->. reflexivity. Qed.

Lemma store_session_lookup session f d p s :
  Sessions d !! session = Some p ->
  Objects d !! p = Some s ->
  store_session session f d
  = Some {| Sessions := Sessions d; Objects := <[p := f s]> (Objects d) |}.
Proof.
  unfold store_session. intros -> Hp. simpl. by apply store_object_lookup.
Qed.

Lemma session_state_Some d session s :
  session_state d session = Some s <->
  exists p, Sessions d !! session = Some p /\ Objects d !! p = Some s.
Proof.
  unfold session_state. split.
  - destruct (Sessions d !! session) as [p|]; simpl; [|discriminate]. eauto.
  - intros (p & -> & Hp). exact Hp.
Qed.

(** The state of a session after an assignment through its pointer. *)
Lemma session_state_stored d session p s s' :
  Sessions d !! session = Some p ->
  Objects d !! p = Some s ->
  session_state {| Sessions := Sessions d; Objects := <[p := s']> (Objects d) |} session
  = Some s'.
Proof.
  intros Hs Hp. apply session_state_Some. exists p. simpl. split; [done|].
  apply list_lookup_insert_eq. by eapply lookup_lt_Some.
Qed.

(** An assignment to the handler's own object, the last one allocated. *)
Lemma store_object_last S l x f :
  store_object (length l) f {| Sessions := S; Objects := l ++ [x] |}
  = Some {| Sessions := S; Objects := l ++ [f x] |}.
Proof.
  unfold store_object. simpl.
  rewrite lookup_app_r, Nat.sub_diag by lia. simpl.
  rewrite insert_app_r_alt, Nat.sub_diag by lia. reflexivity.
Qed.

Lemma untouched_session_state dcss dcss' session s :
  untouched dcss dcss' ->
  session_state dcss session = Some s ->
  session_state dcss' session = Some s.
Proof.
  intros [HS [c HO]] (p & Hp & Hs)%session_state_Some.
  apply session_state_Some. exists p. rewrite HS, HO. split; [done|].
  by apply lookup_app_l_Some.
Qed.

Lemma untouched_allocate dcss object :
  untouched dcss {| Sessions := Sessions dcss; Objects := Objects dcss ++ [object] |}.
Proof. split; [reflexivity|]. by eexists. Qed.

(** ** The codec *)

(** Replacing the doubled dashes cannot create the start tag. *)
Lemma Replace_start_tag (qname : string) :
  strings.HasPrefix qname "s-" = false ->
  strings.HasPrefix (strings.Replace qname "--" "_") "s-" = false.
Proof.
  unfold strings.Replace.
  destruct qname as [|c0 [|c1 t]]; simpl; try done.
  - destruct (Ascii.eqb_spec c0 "-") as [->|]; simpl; [done|].
    by rewrite andb_false_r.
  - destruct (Ascii.eqb_spec c0 "-") as [->|]; simpl.
    + destruct (Ascii.eqb_spec c1 "-") as [->|]; simpl; done.
    + destruct (Ascii.eqb_spec c0 "s") as [->|]; simpl; [|done].
      destruct (Ascii.eqb_spec c1 "-") as [->|]; simpl; [done|].
      intros _. destruct t as [|c2 t]; simpl;
        destruct (Ascii.eqb_spec c1 "-"); done.
Qed.

Section Codec.

Context `{External}.

Lemma NewDNSQuery_start_tag qname :
  strings.HasPrefix qname "s-" = false ->
  NewDNSQuery qname = (DNSQuery.zero, Some ErrStartTag).
Proof.
  intros Hp. unfold NewDNSQuery. by rewrite (Replace_start_tag _ Hp).
Qed.

(** A name the codec accepts carries the start tag. *)
Lemma NewDNSQuery_accepts_start_tag qname name :
  NewDNSQuery qname = (name, None) -> strings.HasPrefix qname "s-" = true.
Proof.
  intros Hq. destruct (strings.HasPrefix qname "s-") eqn:Hp; [done|].
  rewrite (NewDNSQuery_start_tag _ Hp) in Hq. discriminate.
Qed.

(** Every error but the one for an empty session id comes with the
    record as [new(DNSQuery)] left it. *)
Lemma NewDNSQuery_error_record qname name err :
  NewDNSQuery qname = (name, Some err) ->
  err <> ErrSession ->
  name = DNSQuery.zero.
Proof.
  unfold NewDNSQuery. intros Hq Herr.
  repeat case_match; simplify_eq; done.
Qed.

(** The failure modes of the codec, each with its error. *)
Lemma NewDNSQuery_failure_modes qname :
  let tagged := strings.Replace qname "--" "_" in
  let split1 := strings.Split (strings.TrimPrefix tagged "s-") "-e." in
  (strings.HasPrefix tagged "s-" = false ->
   NewDNSQuery qname = (DNSQuery.zero, Some ErrStartTag)) /\
  (strings.HasPrefix tagged "s-" = true -> length split1 <> 2%nat ->
   NewDNSQuery qname = (DNSQuery.zero, Some ErrEndTag)) /\
  (forall split1_0 domainSuffix,
      strings.HasPrefix tagged "s-" = true ->
      split1 = [split1_0; domainSuffix] ->
      ((String.length domainSuffix <? 3)%nat
       && negb (strings.ContainsAny domainSuffix ".")) = false ->
      (length (strings.Split split1_0 "-") <> 3%nat ->
       NewDNSQuery qname = (DNSQuery.zero, Some ErrStart)) /\
      (forall split2_0 split2_1 split2_2 eleme0 eleme1,
          strings.Split split1_0 "-" = [split2_0; split2_1; split2_2] ->
          strings.Cut split2_0 "." = (eleme0, eleme1, true) ->
          (hex.DecodeString eleme0 = None ->
           NewDNSQuery qname = (DNSQuery.zero, Some ErrFirstHost)) /\
          (is_Some (hex.DecodeString eleme0) ->
           hex.DecodeString eleme1 = None ->
           eleme1 <> "localhost" ->
           IsDomainName (strings.Replace eleme1 "_" "-") = false ->
           NewDNSQuery qname = (DNSQuery.zero, Some ErrCNAME)))).
Proof.
  intros tagged split1. unfold NewDNSQuery. fold tagged. fold split1.
  split; [by intros ->|]. split.
  - intros -> Hlen. simpl.
    destruct split1 as [|? [|? [|? ?]]]; simpl in Hlen; done.
  - intros split1_0 domainSuffix -> -> ->. simpl. split.
    + intros Hlen.
      destruct (strings.Split split1_0 "-") as [|? [|? [|? [|? ?]]]];
        simpl in Hlen; done.
    + intros split2_0 split2_1 split2_2 eleme0 eleme1 -> ->. simpl. split.
      * by intros ->.
      * intros [elem0 ->] -> Hlocal ->.
        by destruct (String.eqb_spec eleme1 "localhost").
Qed.

(** A name with one of the failure modes is rejected, and the record that
    comes with the error is the empty one. *)
Lemma failure_mode_rejected qname :
  failure_mode qname ->
  exists err, NewDNSQuery qname = (DNSQuery.zero, Some err).
Proof.
  unfold NewDNSQuery.
  intros [Htag|Hend|split1_0 domainSuffix Hsplit1 Hfields
          |split1_0 domainSuffix split2_0 split2_1 split2_2 Hsplit1 Hsplit2 Hhex
          |split1_0 domainSuffix split2_0 split2_1 split2_2 Hsplit1 Hsplit2 Hhex
             Hlocal Hdomain].
  - rewrite Htag. by eexists.
  - destruct (negb _); [by eexists|].
    destruct (strings.Split _ "-e.") as [|? [|? [|? ?]]]; simpl in Hend;
      try done; by eexists.
  - destruct (negb _); [by eexists|]. rewrite Hsplit1.
    destruct (_ && _); [by eexists|].
    destruct (strings.Split split1_0 "-") as [|? [|? [|? [|? ?]]]];
      simpl in Hfields; try done; by eexists.
  - destruct (negb _); [by eexists|]. rewrite Hsplit1.
    destruct (_ && _); [by eexists|]. rewrite Hsplit2.
    destruct (strings.Cut split2_0 ".") as [[eleme0 eleme1] found]. simpl in Hhex.
    destruct (negb found); [by eexists|]. rewrite Hhex. by eexists.
  - destruct (negb _); [by eexists|]. rewrite Hsplit1.
    destruct (_ && _); [by eexists|]. rewrite Hsplit2.
    destruct (strings.Cut split2_0 ".") as [[eleme0 eleme1] found].
    simpl in Hhex, Hlocal, Hdomain.
    destruct (negb found); [by eexists|].
    destruct (hex.DecodeString eleme0); [|by eexists].
    rewrite Hhex, Hdomain.
    destruct (String.eqb_spec eleme1 "localhost"); [done|]. by eexists.
Qed.

(** C7 (amended). Codec suffix rule. For a name with the start tag and
    exactly one end tag, the codec rejects the suffix, with the error
    "cannot parse domain in DNS query", exactly when the suffix is shorter
    than 3 bytes and also contains no dot; a suffix of 3 bytes or more, or
    one with a dot, passes the suffix check. *)
Theorem suffix_rule qname split1_0 domainSuffix :
  strings.HasPrefix (strings.Replace qname "--" "_") "s-" = true ->
  strings.Split (strings.TrimPrefix (strings.Replace qname "--" "_") "s-") "-e."
    = [split1_0; domainSuffix] ->
  (NewDNSQuery qname).2 = Some ErrDomain <->
  (String.length domainSuffix < 3)%nat /\ strings.ContainsAny domainSuffix "." = false.
Proof.
  intros Hp Hs. unfold NewDNSQuery. rewrite Hp, Hs. simpl negb. cbv iota.
  destruct (Nat.ltb_spec (String.length domainSuffix) 3) as [Hlt|Hge];
    destruct (strings.ContainsAny domainSuffix ".") eqn:Hdot; simpl.
  - split; [|intros [_ ?]; done]. intros Hq; exfalso; revert Hq.
    repeat case_match; simpl; congruence.
  - split; [done|]. intros _. reflexivity.
  - split; [|intros [? _]; lia]. intros Hq; exfalso; revert Hq.
    repeat case_match; simpl; congruence.
  - split; [|intros [? _]; lia]. intros Hq; exfalso; revert Hq.
    repeat case_match; simpl; congruence.
Qed.

End Codec.

(** ** The DNS responder *)

Lemma is_address_query_test q :
  is_address_query q ->
  negb ((dns.Qtype q =? dns.TypeA) || (dns.Qtype q =? dns.TypeAAAA)) = false.
Proof. intros [-> | ->]; reflexivity. Qed.

Section Responder.

Context `{External}.

(** On a standard query the handler runs the loop body on the first
    question and then writes the reply. *)
Lemma MakeRebindDNSHandler_question appConfig dcss now remote intn r q rest :
  dns.Opcode r = dns.OpcodeQuery ->
  dns.Questions r = q :: rest ->
  MakeRebindDNSHandler appConfig dcss now remote intn r =
  flow ← serve_question appConfig now remote intn (new_DNSClientState dcss).1 q
                        (new_DNSClientState dcss).2 [];
  Some match flow with
       | Continue dcss' answer => (dcss', WriteMsg answer)
       | Return dcss' reply => (dcss', reply)
       end.
Proof.
  intros Hop Hq. unfold MakeRebindDNSHandler, SetReply_Question.
  rewrite Hop, Hq. simpl.
  destruct (serve_question _ _ _ _ _ _ _ _) as [[]|]; reflexivity.
Qed.

(** The encoded-query path, run by the handler on its fresh object. *)
Lemma encoded_new appConfig now intn q dcss answer :
  encoded appConfig now intn (new_DNSClientState dcss).1 q
          (new_DNSClientState dcss).2 answer =
  match NewDNSQuery (strings.ToLower (dns.Name q)) with
  | (name, Some _) =>
      Some (Return
              {| Sessions := Sessions dcss;
                 Objects := Objects dcss ++
                   [DNSClientState.mk now time.zero now "" "" 0
                      (AppConfig.ResponseReboundIPAddrtimeOut appConfig) false] |}
              NoReply)
  | (name, None) =>
      '(answers, dcss') ← call (strategy_of appConfig name) intn
                            (DNSQuery.Session name)
                            (dispatch_store appConfig now name dcss) q;
      match serialize q answers with
      | OutOfRange => None
      | Mismatch => Some (Return dcss' (WriteMsg answer))
      | Lines response =>
          dcss' ← store_session (DNSQuery.Session name)
                    (DNSClientState.set_CurrentQueryTime now) dcss';
          dcss' ← store_session (DNSQuery.Session name)
                    (DNSClientState.set_LastQueryTime now) dcss';
          Some (Continue dcss' (answer ++ omap NewRR response))
      end
  end.
Proof.
  unfold encoded, new_DNSClientState. cbn [fst snd].
  rewrite store_object_last. cbn [mbind option_bind].
  rewrite store_object_last. cbn [mbind option_bind].
  rewrite store_object_last. cbn [mbind option_bind].
  destruct (NewDNSQuery _) as [name [err|]]; [reflexivity|].
  rewrite store_object_last. cbn [mbind option_bind].
  rewrite store_object_last. cbn [mbind option_bind].
  unfold dispatch_store, strategy_of, new_session. cbn.
  destruct (Sessions dcss !! DNSQuery.Session name); reflexivity.
Qed.

Lemma minimization_eq appConfig q dcss answer :
  minimization appConfig q dcss answer =
  match ParseIP (AppConfig.ResponseIPAddr appConfig) with
  | None => Some (Return dcss NoReply)
  | Some address =>
      match NewRR (minimization_line appConfig q address) with
      | Some rr => Some (Return dcss (WriteMsg (answer ++ [rr])))
      | None => None
      end
  end.
Proof.
  unfold minimization, minimization_line, record_type.
  destruct (ParseIP _) as [address|]; [|done].
  destruct (net.To4 address); reflexivity.
Qed.

(** C6. QNAME-minimization fallback. An A or AAAA query from a peer that
    is not on the ignore list, whose lower-cased name does not begin with
    [s-], is answered with exactly one record: the line
    [<name> 0 IN A <response_ip>] when [response_ip] is an IPv4 address,
    [<name> 0 IN AAAA <response_ip>] when it is IPv6, as the DNS library
    parses it. When [response_ip] does not parse as an IP nothing is
    written. In every case the sessions of the store are left alone. *)
Theorem minimization_fallback appConfig dcss now remote intn r q rest :
  dns.Opcode r = dns.OpcodeQuery ->
  dns.Questions r = q :: rest ->
  is_address_query q ->
  addrInIPAddressList remote (AppConfig.IgnoreDNSRequestFrom appConfig) = false ->
  strings.HasPrefix (strings.ToLower (dns.Name q)) "s-" = false ->
  exists dcss' reply,
    MakeRebindDNSHandler appConfig dcss now remote intn r = Some (dcss', reply) /\
    untouched dcss dcss' /\
    match ParseIP (AppConfig.ResponseIPAddr appConfig) with
    | None => reply = NoReply
    | Some address =>
        match NewRR (dns.Name q +:+ " 0 IN " +:+ record_type address +:+ " "
                       +:+ AppConfig.ResponseIPAddr appConfig) with
        | Some rr => reply = WriteMsg [rr]
        | None => reply = NoReply
        end
    end.
Proof.
  intros Hop Hq Hty Hpeer Hpre.
  rewrite (MakeRebindDNSHandler_question _ _ _ _ _ _ _ _ Hop Hq).
  unfold serve_question.
  rewrite (is_address_query_test _ Hty), Hpeer, Hpre. simpl negb. cbv iota.
  rewrite minimization_eq.
  destruct (ParseIP _) as [address|].
  - change (dns.Name q +:+ " 0 IN " +:+ record_type address +:+ " "
              +:+ AppConfig.ResponseIPAddr appConfig)
      with (minimization_line appConfig q address).
    destruct (NewRR _) as [rr|].
    + simpl. eexists _, _. split; [reflexivity|].
      split; [apply untouched_allocate|reflexivity].
    + rewrite encoded_new, (NewDNSQuery_start_tag _ Hpre). simpl.
      eexists _, _. split; [reflexivity|].
      split; [apply untouched_allocate|reflexivity].
  - simpl. eexists _, _. split; [reflexivity|].
    split; [apply untouched_allocate|reflexivity].
Qed.

(** A call of a strategy reads the state of the session. The round-robin
    strategy writes the cursor of that state, and it is then 1 or 2; the
    other strategies write nothing. *)
Lemma call_effect fn intn session dcss q answers dcss' :
  call fn intn session dcss q = Some (answers, dcss') ->
  exists p s,
    Sessions dcss !! session = Some p /\ Objects dcss !! p = Some s /\
    (dcss' = dcss \/
     exists i,
       (i = 1 \/ i = 2) /\
       dcss' = {| Sessions := Sessions dcss;
                  Objects := <[p := DNSClientState.set_LastResponseReboundIPAddr i s]>
                               (Objects dcss) |}).
Proof.
  intros Hc.
  destruct (session_state dcss session) as [s|] eqn:Hs.
  2:{ destruct fn; unfold call, DNSRebindFromQueryRoundRobin,
        DNSRebindFromQueryFirstThenSecond, DNSRebindFromQueryRandom,
        DNSRebindFromQueryMultiA, dnsRebindFirst in Hc;
      rewrite Hs in Hc; discriminate. }
  apply session_state_Some in Hs as Hs'. destruct Hs' as (p & Hp & Hob).
  exists p, s. split; [done|]. split; [done|].
  destruct fn; unfold call in Hc.
  - right. unfold DNSRebindFromQueryRoundRobin in Hc. rewrite Hs in Hc.
    cbn [mbind option_bind] in Hc.
    rewrite (store_session_lookup _ _ _ _ _ Hp Hob) in Hc.
    cbn [mbind option_bind] in Hc.
    eexists. split; [|destruct (if _ <? 0 then _ else _); simplify_eq/=; reflexivity].
    revert Hc. generalize (DNSClientState.LastResponseReboundIPAddr s). intros i.
    destruct (Z.eqb_spec i 0); [lia|]. destruct (Z.eqb_spec i 1); [lia|].
    destruct (Z.eqb_spec i 2); [lia|].
    destruct (Z.ltb_spec i 0); [done|].
    destruct (Z.to_nat i) as [|[|[|k]]] eqn:Hi; [lia..|done].
  - left. destruct (DNSRebindFromQueryFirstThenSecond _ _ _); by simplify_eq/=.
  - left. destruct (DNSRebindFromQueryRandom _ _ _ _); by simplify_eq/=.
  - left. destruct (DNSRebindFromQueryMultiA _ _ _); by simplify_eq/=.
  - left. destruct (dnsRebindFirst _ _ _); by simplify_eq/=.
Qed.

(** The serialization fails only on a single answer that is an IP address
    of the family the question did not ask for. *)
Lemma serialize_Mismatch q answers :
  serialize q answers = Mismatch ->
  exists answer address,
    answers = [answer] /\ ParseIP answer = Some address /\
    match net.To4 address with
    | Some _ => dns.Qtype q <> dns.TypeA
    | None => dns.Qtype q <> dns.TypeAAAA
    end.
Proof.
  unfold serialize, respond. intros Hs.
  destruct answers as [|a0 [|a1 rest]]; [done| |].
  - exists a0. destruct (ParseIP a0) as [address|]; [|done].
    exists address. split; [done|]. split; [done|].
    destruct (net.To4 address); simpl in Hs.
    + destruct (Z.eqb_spec (dns.Qtype q) dns.TypeA); [done|done].
    + destruct (Z.eqb_spec (dns.Qtype q) dns.TypeAAAA); [done|done].
  - exfalso. revert Hs.
    destruct (ParseIP a0), (ParseIP a1); repeat case_match; simplify_eq/=; done.
Qed.

End Responder.

(** ** Expiry *)

(** A session whose last query time is the zero time is retained. *)
Lemma ExpireOldEntries_zero duration clock dcss session s :
  session_state dcss session = Some s ->
  DNSClientState.LastQueryTime s = time.zero ->
  session_state (ExpireOldEntries duration clock dcss) session = Some s.
Proof.
  intros (p & Hp & Hs)%session_state_Some Hz.
  apply session_state_Some. exists p. split; [|exact Hs].
  unfold ExpireOldEntries. simpl.
  apply map_lookup_filter_Some_2; [done|]. simpl.
  unfold expired. rewrite Hs, Hz. reflexivity.
Qed.


(** A sweep removes exactly the sessions whose non-zero last query time
    is older than the duration. *)
Lemma ExpireOldEntries_lookup duration clock dcss session p :
  Sessions (ExpireOldEntries duration clock dcss) !! session = Some p <->
  Sessions dcss !! session = Some p /\
  expired duration clock (Objects dcss) session p = false.
Proof. unfold ExpireOldEntries. simpl. by rewrite map_lookup_filter_Some. Qed.

Section Rejection.

Context `{External}.

(** When the codec rejects the lower-cased name of an A or AAAA query, the
    handler inserts and modifies no session. It writes nothing, except for
    a name without the start tag, which the QNAME-minimization fallback
    answers with its one record when [response_ip] parses and the DNS
    library accepts the line. *)
Lemma rejected_query appConfig dcss now remote intn r q rest name err :
  dns.Opcode r = dns.OpcodeQuery ->
  dns.Questions r = q :: rest ->
  is_address_query q ->
  NewDNSQuery (strings.ToLower (dns.Name q)) = (name, Some err) ->
  exists dcss' reply,
    MakeRebindDNSHandler appConfig dcss now remote intn r = Some (dcss', reply) /\
    untouched dcss dcss' /\
    (reply = NoReply \/
     strings.HasPrefix (strings.ToLower (dns.Name q)) "s-" = false /\
     exists address rr,
       ParseIP (AppConfig.ResponseIPAddr appConfig) = Some address /\
       NewRR (minimization_line appConfig q address) = Some rr /\
       reply = WriteMsg [rr]).
Proof.
  intros Hop Hq Hty Herr.
  rewrite (MakeRebindDNSHandler_question _ _ _ _ _ _ _ _ Hop Hq).
  unfold serve_question. rewrite (is_address_query_test _ Hty).
  destruct (addrInIPAddressList _ _).
  { simpl. eexists _, _. split; [reflexivity|].
    split; [apply untouched_allocate|]. by left. }
  destruct (strings.HasPrefix (strings.ToLower (dns.Name q)) "s-") eqn:Hpre;
    simpl negb; cbv iota.
  - rewrite encoded_new, Herr. simpl.
    eexists _, _. split; [reflexivity|]. split; [apply untouched_allocate|]. by left.
  - rewrite minimization_eq.
    destruct (ParseIP _) as [address|] eqn:Hip.
    + destruct (NewRR _) as [rr|] eqn:Hrr.
      * simpl. eexists _, _. split; [reflexivity|].
        split; [apply untouched_allocate|].
        right. split; [done|]. by exists address, rr.
      * rewrite encoded_new, Herr. simpl.
        eexists _, _. split; [reflexivity|].
        split; [apply untouched_allocate|]. by left.
    + simpl. eexists _, _. split; [reflexivity|].
      split; [apply untouched_allocate|]. by left.
Qed.

(** C8 (amended). Codec rejection. For an A or AAAA query whose
    lower-cased name has one of the listed failure modes, the codec returns
    an error together with the empty record, and the handler inserts and
    modifies no session. It writes nothing, except for a name without the
    start tag, which the QNAME-minimization fallback answers with its one
    record when [response_ip] parses and the DNS library accepts the
    line. *)
Theorem codec_rejection appConfig dcss now remote intn r q rest :
  dns.Opcode r = dns.OpcodeQuery ->
  dns.Questions r = q :: rest ->
  is_address_query q ->
  failure_mode (strings.ToLower (dns.Name q)) ->
  (exists err,
      NewDNSQuery (strings.ToLower (dns.Name q)) = (DNSQuery.zero, Some err)) /\
  exists dcss' reply,
    MakeRebindDNSHandler appConfig dcss now remote intn r = Some (dcss', reply) /\
    untouched dcss dcss' /\
    (reply = NoReply \/
     strings.HasPrefix (strings.ToLower (dns.Name q)) "s-" = false /\
     exists address rr,
       ParseIP (AppConfig.ResponseIPAddr appConfig) = Some address /\
       NewRR (minimization_line appConfig q address) = Some rr /\
       reply = WriteMsg [rr]).
Proof.
  intros Hop Hq Hty Hmode.
  destruct (failure_mode_rejected _ Hmode) as [err Herr].
  split; [by exists err|]. by eapply rejected_query.
Qed.


End Rejection.

Section Serialization.

Context `{External}.

Lemma respond_additional q time answer :
  respond q (dns.Name q) time answer true = Some (record_line q time answer).
Proof.
  unfold respond, record_line, record_type.
  destruct (ParseIP answer) as [address|]; [|done].
  destruct (net.To4 address); simpl; by case_match.
Qed.

Lemma respond_single q time answer res :
  respond q (dns.Name q) time answer false = Some res ->
  res = record_line q time answer.
Proof.
  unfold respond, record_line, record_type.
  destruct (ParseIP answer) as [address|]; [|congruence].
  destruct (net.To4 address); simpl; case_match; congruence.
Qed.

(** C5 (amended). TTL policy of the serialization. In a multi-answer
    response the first record has TTL 10 and the second record has TTL 0
    when its answer parses as an IP; a single answer that parses as an IP
    has TTL 0; an answer that does not parse as an IP is a CNAME record
    targeting [<answer>.] with TTL 10, in every position, the second record
    of a multi-answer response included. *)
Theorem ttl_policy (q : dns.Question) :
  (forall answers_0 answers_1 rest,
      serialize q (answers_0 :: answers_1 :: rest)
      = Lines [record_line q "10" answers_0; record_line q "0" answers_1]) /\
  (forall answer response,
      serialize q [answer] = Lines response ->
      response = [record_line q "0" answer]) /\
  (forall time answer address,
      ParseIP answer = Some address ->
      record_line q time answer
      = dns.Name q +:+ " " +:+ time +:+ " IN " +:+ record_type address
                   +:+ " " +:+ answer) /\
  (forall time answer,
      ParseIP answer = None ->
      record_line q time answer = dns.Name q +:+ " 10 IN CNAME " +:+ answer +:+ ".").
Proof.
  split; [|split; [|split]].
  - intros a0 a1 rest. unfold serialize. by rewrite !respond_additional.
  - intros a response. unfold serialize.
    destruct (respond q (dns.Name q) "0" a false) as [res|] eqn:Hr; [|done].
    intros [= <-]. by rewrite (respond_single _ _ _ _ Hr).
  - intros time a address Hip. unfold record_line. by rewrite Hip.
  - intros time a Hip. unfold record_line. by rewrite Hip.
Qed.

End Serialization.

Section Answered.

Context `{External}.

(** After a call of a strategy the session is still in the store. *)
Lemma call_session_state fn intn session dcss q answers dcss' :
  call fn intn session dcss q = Some (answers, dcss') ->
  exists p s, Sessions dcss' !! session = Some p /\ Objects dcss' !! p = Some s.
Proof.
  intros (p & s & Hp & Hs & [-> | (i & _ & ->)])%call_effect.
  - eauto.
  - exists p. eexists. simpl. split; [done|].
    apply list_lookup_insert_eq. by eapply lookup_lt_Some.
Qed.

(** An encoded query that is answered: the reply carries the records the
    DNS library parses from the lines of the serialization, and the handler
    stamps the session with the time of the query, [CurrentQueryTime] and
    [LastQueryTime] alike. *)
Lemma answered_query appConfig dcss now remote intn r q rest name answers dcss1
    response :
  dns.Opcode r = dns.OpcodeQuery ->
  dns.Questions r = q :: rest ->
  is_address_query q ->
  addrInIPAddressList remote (AppConfig.IgnoreDNSRequestFrom appConfig) = false ->
  NewDNSQuery (strings.ToLower (dns.Name q)) = (name, None) ->
  call (strategy_of appConfig name) intn (DNSQuery.Session name)
       (dispatch_store appConfig now name dcss) q = Some (answers, dcss1) ->
  serialize q answers = Lines response ->
  exists dcss' s,
    MakeRebindDNSHandler appConfig dcss now remote intn r
    = Some (dcss', WriteMsg (omap NewRR response)) /\
    session_state dcss1 (DNSQuery.Session name) = Some s /\
    session_state dcss' (DNSQuery.Session name)
    = Some (DNSClientState.set_LastQueryTime now
              (DNSClientState.set_CurrentQueryTime now s)).
Proof.
  intros Hop Hq Hty Hpeer Hname Hcall Hser.
  destruct (call_session_state _ _ _ _ _ _ _ Hcall) as (p & s & Hp & Hs).
  rewrite (MakeRebindDNSHandler_question _ _ _ _ _ _ _ _ Hop Hq).
  unfold serve_question. rewrite (is_address_query_test _ Hty), Hpeer.
  rewrite (NewDNSQuery_accepts_start_tag _ _ Hname). simpl negb. cbv iota.
  rewrite encoded_new, Hname, Hcall. cbn [mbind option_bind]. rewrite Hser.
  rewrite (store_session_lookup _ _ _ _ _ Hp Hs). cbn [mbind option_bind].
  assert (<[p := DNSClientState.set_CurrentQueryTime now s]> (Objects dcss1) !! p
          = Some (DNSClientState.set_CurrentQueryTime now s)) as Hs1
    by (apply list_lookup_insert_eq; by eapply lookup_lt_Some).
  rewrite (store_session_lookup _ _
             {| Sessions := Sessions dcss1;
                Objects := <[p := DNSClientState.set_CurrentQueryTime now s]>
                             (Objects dcss1) |} _ _ Hp Hs1).
  cbn [mbind option_bind]. eexists _, s. split; [reflexivity|]. split.
  - apply session_state_Some. eauto.
  - apply session_state_Some. exists p. simpl. split; [done|].
    apply list_lookup_insert_eq. rewrite length_insert. by eapply lookup_lt_Some.
Qed.

End Answered.

(** ** How the handlers derive the store *)

Lemma derives_store_session session f dcss dcss' :
  (forall s, assigned s (f s)) ->
  store_session session f dcss = Some dcss' ->
  derives dcss dcss'.
Proof.
  intros Hf. unfold store_session.
  destruct (Sessions dcss !! session) as [p|]; [|done]. simpl.
  intros (s & Hp & ->)%store_object_Some. by eapply derives_assigned.
Qed.

Section Derivation.

Context `{External}.

Lemma derives_dispatch_store appConfig now name dcss :
  derives dcss (dispatch_store appConfig now name dcss).
Proof.
  unfold dispatch_store.
  destruct (Sessions dcss !! DNSQuery.Session name) eqn:Hn.
  - by apply derives_allocate.
  - by apply derives_session.
Qed.

Lemma derives_call fn intn session dcss q answers dcss' :
  call fn intn session dcss q = Some (answers, dcss') ->
  derives dcss dcss'.
Proof.
  intros (p & s & Hp & Hs & [-> | (i & Hi & ->)])%call_effect.
  - apply derives_refl.
  - eapply derives_assigned; [done|]. by apply assigned_cursor.
Qed.

Lemma derives_encoded appConfig now intn q dcss answer flow :
  encoded appConfig now intn (new_DNSClientState dcss).1 q
          (new_DNSClientState dcss).2 answer = Some flow ->
  derives dcss match flow with Continue d _ | Return d _ => d end.
Proof.
  rewrite encoded_new.
  destruct (NewDNSQuery _) as [name [err|]].
  { intros [= <-]. by apply derives_allocate. }
  destruct (call _ _ _ _ _) as [[answers d1]|] eqn:Hcall; [|done].
  cbn [mbind option_bind].
  assert (derives dcss d1) as Hd1.
  { eapply derives_trans; [apply derives_dispatch_store|].
    by eapply derives_call. }
  destruct (serialize q answers) as [| |response]; [done| |].
  { by intros [= <-]. }
  destruct (store_session _ _ d1) as [d2|] eqn:H2; [|done].
  cbn [mbind option_bind].
  destruct (store_session _ _ d2) as [d3|] eqn:H3; [|done].
  cbn [mbind option_bind]. intros [= <-].
  eapply derives_trans; [exact Hd1|].
  eapply derives_trans; (eapply derives_store_session; [|eassumption]);
    intros s; constructor.
Qed.

Lemma derives_serve_question appConfig now remote intn q dcss answer flow :
  serve_question appConfig now remote intn (new_DNSClientState dcss).1 q
                 (new_DNSClientState dcss).2 answer = Some flow ->
  derives dcss match flow with Continue d _ | Return d _ => d end.
Proof.
  unfold serve_question.
  destruct (negb _). { intros [= <-]. by apply derives_allocate. }
  destruct (addrInIPAddressList _ _). { intros [= <-]. by apply derives_allocate. }
  destruct (negb _); [|apply derives_encoded].
  rewrite minimization_eq.
  destruct (ParseIP _); [destruct (NewRR _)|].
  - intros [= <-]. by apply derives_allocate.
  - apply derives_encoded.
  - intros [= <-]. by apply derives_allocate.
Qed.

Lemma derives_MakeRebindDNSHandler appConfig dcss now remote intn r dcss' reply :
  MakeRebindDNSHandler appConfig dcss now remote intn r = Some (dcss', reply) ->
  derives dcss dcss'.
Proof.
  unfold MakeRebindDNSHandler, SetReply_Question.
  destruct (new_DNSClientState dcss) as [clientState d0] eqn:Hnew.
  destruct (dns.Opcode r =? dns.OpcodeQuery).
  2:{ intros [= <- _]. injection Hnew as _ <-. by apply derives_allocate. }
  destruct (dns.Questions r) as [|q rest]; simpl.
  { intros [= <- _]. injection Hnew as _ <-. by apply derives_allocate. }
  destruct (serve_question _ _ _ _ _ _ _ _) as [flow|] eqn:Hq; [|done].
  replace clientState with (new_DNSClientState dcss).1 in Hq by by rewrite Hnew.
  replace d0 with (new_DNSClientState dcss).2 in Hq by by rewrite Hnew.
  apply derives_serve_question in Hq.
  simpl. destruct flow; intros [= <- _]; exact Hq.
Qed.

Lemma derives_rootHandler dcss host now dcss' route :
  rootHandler dcss host now = Some (dcss', route) ->
  derives dcss dcss'.
Proof.
  unfold rootHandler.
  destruct (NewDNSQuery host) as [name [err|]].
  { intros [= <- _]. apply derives_refl. }
  destruct (Sessions dcss !! DNSQuery.Session name).
  2:{ intros [= <- _]. apply derives_refl. }
  destruct (session_state _ _) as [s|]; [|done]. cbn [mbind option_bind].
  destruct (_ && _).
  - destruct (store_session _ _ _) as [d1|] eqn:H1; [|done].
    cbn [mbind option_bind]. intros [= <- _].
    eapply derives_store_session; [|eassumption]. intros s'. constructor.
  - intros [= <- _]. apply derives_refl.
Qed.

(** A step of the servers is a derivation or a sweep. *)
Lemma step_cases appConfig dcss e dcss' :
  step appConfig dcss e = Some dcss' ->
  derives dcss dcss' \/
  exists duration clock, dcss' = ExpireOldEntries duration clock dcss.
Proof.
  destruct e as [now remote intn r|host now|duration clock]; simpl.
  - destruct (MakeRebindDNSHandler _ _ _ _ _ _) as [[d reply]|] eqn:Hh; [|done].
    intros [= <-]. left. by eapply derives_MakeRebindDNSHandler.
  - destruct (rootHandler _ _ _) as [[d route]|] eqn:Hh; [|done].
    intros [= <-]. left. by eapply derives_rootHandler.
  - intros [= <-]. right. eauto.
Qed.

End Derivation.

(** ** What a derivation preserves *)

Lemma assigned_latched s s' : assigned s s' -> latched s s'.
Proof. destruct 1; by split. Qed.

Lemma latched_refl s : latched s s.
Proof. by split. Qed.

Lemma latched_trans s1 s2 s3 : latched s1 s2 -> latched s2 s3 -> latched s1 s3.
Proof. intros [? ?] [? ?]. split; [congruence|auto]. Qed.

(** A derivation keeps every session on its object and respects the latch
    on every object. *)
Lemma derives_evolves dcss dcss' : derives dcss dcss' -> evolves dcss dcss'.
Proof.
  induction 1 as [dcss|dcss object _|dcss session object _ Hn|dcss p s s' Hp Ha
                 |d1 d2 d3 _ [HS1 HO1] _ [HS2 HO2]].
  - split; [done|]. intros p s Hp. exists s. split; [done|apply latched_refl].
  - split; [done|]. simpl. intros p s Hp. exists s.
    split; [by apply lookup_app_l_Some|apply latched_refl].
  - split; simpl.
    + intros session' p Hp. rewrite lookup_insert_ne; [done|]. congruence.
    + intros p s Hp. exists s.
      split; [by apply lookup_app_l_Some|apply latched_refl].
  - split; [done|]. simpl. intros p' s0 Hp'.
    destruct (decide (p = p')) as [<-|Hne].
    + exists s'. rewrite list_lookup_insert_eq by (by eapply lookup_lt_Some).
      split; [done|]. apply assigned_latched. congruence.
    + exists s0. rewrite list_lookup_insert_ne by done.
      split; [done|apply latched_refl].
  - split; [auto|]. intros p s Hp.
    destruct (HO1 _ _ Hp) as (s' & Hp' & Hl).
    destruct (HO2 _ _ Hp') as (s'' & Hp'' & Hl'). exists s''.
    split; [done|]. by eapply latched_trans.
Qed.

(** A derivation keeps the cursor of every object in 0, 1, 2. *)
Lemma derives_cursors_ok dcss dcss' :
  derives dcss dcss' -> cursors_ok dcss -> cursors_ok dcss'.
Proof.
  unfold cursors_ok.
  induction 1 as [dcss|dcss object Ho|dcss session object Ho Hn|dcss p s s' Hp Ha
                 |d1 d2 d3 _ IH1 _ IH2]; simpl; intros Hok.
  - done.
  - apply Forall_app. split; [done|]. apply Forall_singleton. by left.
  - apply Forall_app. split; [done|]. apply Forall_singleton. by left.
  - apply Forall_insert; [done|].
    assert (cursor_ok s) as Hs by (by eapply Forall_lookup_1).
    destruct Ha as [s i [-> | ->]| | |]; unfold cursor_ok in *; simpl; auto.
  - auto.
Qed.

(** A derivation keeps every session on an object. *)
Lemma derives_wf dcss dcss' : derives dcss dcss' -> wf dcss -> wf dcss'.
Proof.
  induction 1 as [dcss|dcss object _|dcss session object _ Hn|dcss p s s' Hp Ha
                 |d1 d2 d3 _ IH1 _ IH2]; intros Hwf.
  - done.
  - intros session p Hp. simpl in *. apply lookup_lt_is_Some_2.
    rewrite length_app. apply Hwf, lookup_lt_is_Some_1 in Hp. lia.
  - intros session' p Hp. simpl in *. apply lookup_lt_is_Some_2.
    rewrite length_app. simpl.
    destruct (decide (session = session')) as [<-|Hne].
    + rewrite lookup_insert_eq in Hp. injection Hp as <-. lia.
    + rewrite lookup_insert_ne in Hp by done.
      apply Hwf, lookup_lt_is_Some_1 in Hp. lia.
  - intros session p' Hp'. simpl in *. apply lookup_lt_is_Some_2.
    rewrite length_insert. by apply lookup_lt_is_Some_1, (Hwf session).
  - auto.
Qed.

Lemma wf_ExpireOldEntries duration clock dcss :
  wf dcss -> wf (ExpireOldEntries duration clock dcss).
Proof.
  intros Hwf session p Hp. simpl in *.
  apply map_lookup_filter_Some_1_1 in Hp. by eapply Hwf.
Qed.

Lemma wf_empty_store : wf empty_store.
Proof. intros session p Hp. simpl in Hp. by rewrite lookup_empty in Hp. Qed.

Section Reachable.

Context `{External}.

(** In every store the servers reach from a well-formed one, every
    session points to an object, and the cursors stay in 0, 1, 2. *)
Lemma run_invariant appConfig dcss es dcss' :
  run appConfig dcss es = Some dcss' ->
  wf dcss /\ cursors_ok dcss -> wf dcss' /\ cursors_ok dcss'.
Proof.
  revert dcss. induction es as [|e es IH]; intros dcss; simpl.
  { by intros [= <-]. }
  destruct (step appConfig dcss e) as [d1|] eqn:Hstep; [|done].
  cbn [mbind option_bind]. intros Hrun [Hwf Hok]. apply (IH _ Hrun).
  destruct (step_cases _ _ _ _ Hstep) as [Hd | (duration & clock & ->)].
  - split; [by eapply derives_wf|by eapply derives_cursors_ok].
  - split; [by apply wf_ExpireOldEntries|done].
Qed.

Lemma reachable_invariant appConfig es dcss :
  run appConfig empty_store es = Some dcss -> wf dcss /\ cursors_ok dcss.
Proof.
  intros Hrun. apply (run_invariant _ _ _ _ Hrun).
  split; [apply wf_empty_store|]. unfold cursors_ok. simpl. constructor.
Qed.

End Reachable.

(** ** The round-robin strategy *)

(** Round-robin strategy, one call, for a session whose cursor is 0, 1
    or 2. *)
Lemma round_robin_call session dcss q s :
  session_state dcss session = Some s ->
  cursor_ok s ->
  exists dcss',
    DNSRebindFromQueryRoundRobin session dcss q
    = Some ([if rr_next (DNSClientState.LastResponseReboundIPAddr s) =? 1
             then DNSClientState.ResponseIPAddr s
             else DNSClientState.ResponseReboundIPAddr s], dcss') /\
    session_state dcss' session
    = Some (DNSClientState.set_LastResponseReboundIPAddr
              (rr_next (DNSClientState.LastResponseReboundIPAddr s)) s).
Proof.
  intros Hs Hi. apply session_state_Some in Hs as Hs'.
  destruct Hs' as (p & Hp & Hob).
  unfold DNSRebindFromQueryRoundRobin. rewrite Hs. cbn [mbind option_bind].
  rewrite (store_session_lookup _ _ _ _ _ Hp Hob). cbn [mbind option_bind].
  destruct Hi as [Hi | [Hi | Hi]]; rewrite Hi; simpl;
    (eexists; split; [reflexivity|]); by eapply session_state_stored.
Qed.

(** C4. Round-robin strategy. In every store the servers reach from the
    empty one, the cursor of every session is 0, 1 or 2; a call of the
    strategy moves it along the cycle 0 -> 1 -> 2 -> 1 -> 2 ..., stores
    the new cursor in the session, and answers with the attacker address
    when the new cursor is 1 and with the rebound target when it is 2.
    Three successive queries [s-0a000001.0a000002-xyz-rr-e.a.tld.] for a
    new session are answered with 10.0.0.1, 10.0.0.2 and 10.0.0.1. *)
Theorem round_robin :
  (forall (E : External) appConfig es dcss session q s,
      run appConfig empty_store es = Some dcss ->
      session_state dcss session = Some s ->
      cursor_ok s /\
      exists dcss',
        DNSRebindFromQueryRoundRobin session dcss q
        = Some ([if rr_next (DNSClientState.LastResponseReboundIPAddr s) =? 1
                 then DNSClientState.ResponseIPAddr s
                 else DNSClientState.ResponseReboundIPAddr s], dcss') /\
        session_state dcss' session
        = Some (DNSClientState.set_LastResponseReboundIPAddr
                  (rr_next (DNSClientState.LastResponseReboundIPAddr s)) s)) /\
  rr_next 0 = 1 /\ rr_next 1 = 2 /\ rr_next 2 = 1 /\
  @observe reference.go scenario.appConfig empty_store
    [scenario.dns_request scenario.t0
       "s-0a000001.0a000002-xyz-rr-e.a.tld." dns.TypeA;
     scenario.dns_request (scenario.t0 + scenario.seconds 1)
       "s-0a000001.0a000002-xyz-rr-e.a.tld." dns.TypeA;
     scenario.dns_request (scenario.t0 + scenario.seconds 2)
       "s-0a000001.0a000002-xyz-rr-e.a.tld." dns.TypeA]
  = [Replied (WriteMsg [scenario.record "s-0a000001.0a000002-xyz-rr-e.a.tld."
                          0 "A" "10.0.0.1"]);
     Replied (WriteMsg [scenario.record "s-0a000001.0a000002-xyz-rr-e.a.tld."
                          0 "A" "10.0.0.2"]);
     Replied (WriteMsg [scenario.record "s-0a000001.0a000002-xyz-rr-e.a.tld."
                          0 "A" "10.0.0.1"])].
Proof.
  split.
  - intros E appConfig es dcss session q s Hrun Hs.
    assert (cursor_ok s) as Hc.
    { apply reachable_invariant in Hrun as [_ Hok].
      apply session_state_Some in Hs as (p & _ & Hs).
      by eapply Forall_lookup_1. }
    split; [exact Hc|]. by apply round_robin_call.
  - repeat (split; [reflexivity|]). vm_compute. reflexivity.
Qed.

(** ** The firewall latch *)

Section Latch.

Context `{External}.

Lemma step_latched appConfig session dcss e dcss' p s :
  step appConfig dcss e = Some dcss' ->
  is_Some (Sessions dcss' !! session) ->
  Sessions dcss !! session = Some p ->
  Objects dcss !! p = Some s ->
  Sessions dcss' !! session = Some p /\
  exists s', Objects dcss' !! p = Some s' /\ latched s s'.
Proof.
  intros Hstep Halive Hp Hs.
  destruct (step_cases _ _ _ _ Hstep) as [Hd | (duration & clock & ->)].
  - apply derives_evolves in Hd as [HS HO]. auto.
  - destruct Halive as [p' Hp']. apply ExpireOldEntries_lookup in Hp' as [Hp' Hkeep].
    assert (p' = p) as -> by congruence. split.
    + by apply ExpireOldEntries_lookup.
    + exists s. split; [done|apply latched_refl].
Qed.

Lemma history_latched appConfig session dcss es dcss' p s :
  history appConfig session dcss es dcss' ->
  Sessions dcss !! session = Some p ->
  Objects dcss !! p = Some s ->
  Sessions dcss' !! session = Some p /\
  exists s', Objects dcss' !! p = Some s' /\ latched s s'.
Proof.
  induction 1 as [dcss|dcss e dcss1 es dcss2 Hstep Halive _ IH] in s |- *;
    intros Hp Hs.
  - split; [done|]. exists s. split; [done|apply latched_refl].
  - destruct (step_latched _ _ _ _ _ _ _ Hstep Halive Hp Hs) as (Hp1 & s1 & Hs1 & Hl1).
    destruct (IH _ Hp1 Hs1) as (Hp2 & s2 & Hs2 & Hl2).
    split; [done|]. exists s2. split; [done|]. by eapply latched_trans.
Qed.

(** C1. Firewall latch. For a session in the store the multi-A strategy
    answers with the rebound target alone when [FirewalledOnce] is set,
    and with the attacker address followed by the rebound target when it
    is not. Once the flag is set, after any history of DNS requests, HTTP
    requests and expiry sweeps in which the session stays in the store,
    the strategy answers with exactly the rebound target. *)
Theorem firewall_latch appConfig session dcss q s :
  session_state dcss session = Some s ->
  DNSRebindFromQueryMultiA session dcss q
  = Some (if DNSClientState.FirewalledOnce s
          then [DNSClientState.ResponseReboundIPAddr s]
          else [DNSClientState.ResponseIPAddr s;
                DNSClientState.ResponseReboundIPAddr s]) /\
  (DNSClientState.FirewalledOnce s = true ->
   forall es dcss' q',
     history appConfig session dcss es dcss' ->
     DNSRebindFromQueryMultiA session dcss' q'
     = Some [DNSClientState.ResponseReboundIPAddr s]).
Proof.
  intros Hs. split.
  - unfold DNSRebindFromQueryMultiA. rewrite Hs. simpl.
    by destruct (DNSClientState.FirewalledOnce s).
  - intros Hf es dcss' q' Hh.
    apply session_state_Some in Hs as (p & Hp & Hs).
    destruct (history_latched _ _ _ _ _ _ _ Hh Hp Hs) as (Hp' & s' & Hs' & Hr & Hl).
    unfold DNSRebindFromQueryMultiA.
    assert (session_state dcss' session = Some s') as ->
      by (apply session_state_Some; eauto).
    simpl. rewrite (Hl Hf), Hr. reflexivity.
Qed.

End Latch.

(** ** The catch-all HTTP route *)

Lemma Sub_exceeds now t :
  (time.mul time.Second 3 <? time.Sub now t) = true <-> 3 * time.Second < now - t.
Proof.
  change (time.mul time.Second 3) with 3000000000.
  unfold time.Sub, time.minDuration, time.maxDuration, time.Second.
  change (2 ^ 63) with 9223372036854775808.
  rewrite Z.ltb_lt. repeat case_match; lia.
Qed.

Section Root.

Context `{External}.

(** C2. HTTP catch-all trigger. A request on the catch-all route sets
    [FirewalledOnce] of the session and goes to the packet-filter hijack
    handler exactly when the [Host] header parses as an encoded query, its
    session is in the store, its strategy tag is [ma] and more than three
    seconds have passed since the first query time of the session. In
    every other case the request goes to the default-headers handler, in
    front of the file server, and the store is unchanged. *)
Theorem root_trigger dcss host now :
  wf dcss ->
  (exists name p s,
      ripe dcss host now name p s /\
      rootHandler dcss host now
      = Some ({| Sessions := Sessions dcss;
                 Objects := <[p := DNSClientState.set_FirewalledOnce true s]>
                              (Objects dcss) |}, IPTables)) \/
  ((forall name p s, ~ ripe dcss host now name p s) /\
   rootHandler dcss host now = Some (dcss, DefaultHeaders)).
Proof.
  intros Hwf. unfold rootHandler.
  destruct (NewDNSQuery host) as [name [err|]] eqn:Hq.
  { right. split; [|done]. intros name' p s (Hq' & _). congruence. }
  destruct (Sessions dcss !! DNSQuery.Session name) as [p|] eqn:Hp.
  2:{ right. split; [|done]. intros name' p s (Hq' & Hp' & _). congruence. }
  destruct (Hwf _ _ Hp) as [s Hs].
  assert (session_state dcss (DNSQuery.Session name) = Some s) as ->
    by (apply session_state_Some; eauto).
  cbn [mbind option_bind].
  destruct (String.eqb_spec (DNSQuery.DNSRebindingStrategy name) "ma") as [Hma|Hma].
  - destruct (time.mul time.Second 3 <? time.Sub now _) eqn:Hel; simpl.
    + left. exists name, p, s. split.
      * repeat split; try done. by apply Sub_exceeds.
      * by rewrite (store_session_lookup _ _ _ _ _ Hp Hs).
    + right. split; [|done]. intros name' p' s' (Hq' & Hp' & Hs' & _ & Hlt).
      assert (name' = name) as -> by congruence.
      assert (p' = p) as -> by congruence.
      assert (s' = s) as -> by congruence.
      apply Sub_exceeds in Hlt. congruence.
  - right. split; [|done]. intros name' p' s' (Hq' & _ & _ & Hma' & _).
    congruence.
Qed.

End Root.

(** ** The first-then-second strategy *)

(** First-then-second strategy, one call: the rebound target when
    [CurrentQueryTime - LastQueryTime] is below the timeout, the attacker
    address otherwise. *)
Lemma first_then_second_call session dcss q s :
  session_state dcss session = Some s ->
  DNSRebindFromQueryFirstThenSecond session dcss q
  = Some [if time.Sub (DNSClientState.CurrentQueryTime s) (DNSClientState.LastQueryTime s)
             <? time.mul time.Second (DNSClientState.ResponseReboundIPAddrtimeOut s)
          then DNSClientState.ResponseReboundIPAddr s
          else DNSClientState.ResponseIPAddr s].
Proof.
  intros Hs. unfold DNSRebindFromQueryFirstThenSecond. rewrite Hs. simpl.
  by case_match.
Qed.

Lemma Sub_diag t : time.Sub t t = 0.
Proof. unfold time.Sub. by rewrite Z.sub_diag. Qed.

(** On a session whose two time stamps are equal, which is how the handler
    leaves every session it answers, the elapsed time is zero whatever the
    time of the query. *)
Lemma first_then_second_stamped session dcss q s :
  session_state dcss session = Some s ->
  DNSClientState.CurrentQueryTime s = DNSClientState.LastQueryTime s ->
  DNSRebindFromQueryFirstThenSecond session dcss q
  = Some [if 0 <? time.mul time.Second (DNSClientState.ResponseReboundIPAddrtimeOut s)
          then DNSClientState.ResponseReboundIPAddr s
          else DNSClientState.ResponseIPAddr s].
Proof.
  intros Hs Ht. rewrite (first_then_second_call _ _ _ _ Hs), Ht, Sub_diag.
  reflexivity.
Qed.

(** The state in which [answered_query] shows the handler leaves a
    session it answers: the next call of the strategy does not depend on
    the time of the next query. *)
Lemma first_then_second_after_answer session dcss q now s :
  session_state dcss session
  = Some (DNSClientState.set_LastQueryTime now
            (DNSClientState.set_CurrentQueryTime now s)) ->
  DNSRebindFromQueryFirstThenSecond session dcss q
  = Some [if 0 <? time.mul time.Second (DNSClientState.ResponseReboundIPAddrtimeOut s)
          then DNSClientState.ResponseReboundIPAddr s
          else DNSClientState.ResponseIPAddr s].
Proof. intros Hs. by rewrite (first_then_second_stamped _ _ _ _ Hs). Qed.

(** C3. First-then-second strategy: what the claim says of one call of the
    strategy holds, what it says of the responder does not. With a rebound
    timeout of 30 seconds, the query for a new session is answered with the
    attacker address and the same query 60 seconds later, after the
    timeout, is answered with the rebound target: the handler stamps
    [CurrentQueryTime] and [LastQueryTime] with the same time after each
    answer and does not stamp [CurrentQueryTime] of an existing session
    before it calls the strategy, so the strategy sees an elapsed time of
    zero. *)
Theorem first_then_second_after_timeout :
  AppConfig.ResponseReboundIPAddrtimeOut scenario.appConfig = 30 /\
  @observe reference.go scenario.appConfig empty_store
    [scenario.dns_request scenario.t0
       "s-c0a80001.7f000001-abc-fs-e.attacker.tld." dns.TypeA;
     scenario.dns_request (scenario.t0 + scenario.seconds 60)
       "s-c0a80001.7f000001-abc-fs-e.attacker.tld." dns.TypeA]
  = [Replied (WriteMsg [scenario.record "s-c0a80001.7f000001-abc-fs-e.attacker.tld."
                          0 "A" "192.168.0.1"]);
     Replied (WriteMsg [scenario.record "s-c0a80001.7f000001-abc-fs-e.attacker.tld."
                          0 "A" "127.0.0.1"])].
Proof. split; [reflexivity|]. vm_compute. reflexivity. Qed.

(** ** The client information handler *)

(** On a GET request the handler answers with the two halves of the
    remote address. *)
Lemma client_info_get hcih RemoteAddr host port rest :
  strings.Split RemoteAddr ":" = host :: port :: rest ->
  HTTPClientInfoHandler_ServeHTTP hcih "GET" RemoteAddr
  = Some (HTTPClientInfoHandler.mk host port,
          {| StatusCode := 200;
             Body := JObject [("IPAddress", host); ("Port", port)] |}).
Proof. unfold HTTPClientInfoHandler_ServeHTTP. by intros ->. Qed.

(** On any other method the body is the encoding of the handler as the
    request found it. *)
Lemma client_info_other hcih Method RemoteAddr host port rest :
  Method <> "GET" ->
  strings.Split RemoteAddr ":" = host :: port :: rest ->
  HTTPClientInfoHandler_ServeHTTP hcih Method RemoteAddr
  = Some (HTTPClientInfoHandler.mk host port,
          {| StatusCode := 400; Body := json_Marshal hcih |}).
Proof.
  unfold HTTPClientInfoHandler_ServeHTTP. intros Hm ->. simpl.
  by destruct (String.eqb_spec Method "GET").
Qed.

(** C9. The client information handler: a request with another method
    than GET is answered with status 400, but its body is the encoding of
    the handler object as the previous request left it, which is the empty
    object only before the first request. After a GET request from
    192.0.2.7:5555, a POST request from 198.51.100.9:4444 is answered with
    the address and port of the first peer. *)
Theorem client_info_other_method_body :
  exists hcih,
    HTTPClientInfoHandler_ServeHTTP HTTPClientInfoHandler.zero "GET" "192.0.2.7:5555"
    = Some (hcih, {| StatusCode := 200;
                     Body := JObject [("IPAddress", "192.0.2.7"); ("Port", "5555")] |}) /\
    HTTPClientInfoHandler_ServeHTTP hcih "POST" "198.51.100.9:4444"
    = Some (HTTPClientInfoHandler.mk "198.51.100.9" "4444",
            {| StatusCode := 400;
               Body := JObject [("IPAddress", "192.0.2.7"); ("Port", "5555")] |}) /\
    JObject [("IPAddress", "192.0.2.7"); ("Port", "5555")]
    <> json_Marshal HTTPClientInfoHandler.zero.
Proof.
  eexists. split; [reflexivity|]. split; [reflexivity|]. discriminate.
Qed.


(** ** The handlers do not panic *)

Section Total.

Context `{External}.

Lemma dispatch_store_session appConfig now name dcss :
  wf dcss -> cursors_ok dcss ->
  exists p s,
    Sessions (dispatch_store appConfig now name dcss) !! DNSQuery.Session name = Some p /\
    Objects (dispatch_store appConfig now name dcss) !! p = Some s /\
    cursor_ok s.
Proof.
  intros Hwf Hok. unfold dispatch_store. simpl.
  destruct (Sessions dcss !! DNSQuery.Session name) as [p|] eqn:Hp.
  - destruct (Hwf _ _ Hp) as [s Hs]. exists p, s. split; [done|].
    split; [by apply lookup_app_l_Some|]. by eapply Forall_lookup_1.
  - exists (length (Objects dcss)), (new_session appConfig now name).
    rewrite lookup_insert_eq. split; [done|].
    rewrite lookup_app_r, Nat.sub_diag by lia. split; [done|]. by left.
Qed.

(** A strategy called on a session of the store, with a cursor in 0, 1, 2
    and a random index below the number of hosts, returns one or two
    answers. *)
Lemma call_total fn intn session dcss q p s :
  Sessions dcss !! session = Some p ->
  Objects dcss !! p = Some s ->
  cursor_ok s ->
  (intn < 2)%nat ->
  exists answers dcss',
    call fn intn session dcss q = Some (answers, dcss') /\ answers <> [].
Proof.
  intros Hp Hs Hc Hn.
  assert (session_state dcss session = Some s) as Hstate
    by (apply session_state_Some; eauto).
  destruct fn; simpl.
  - destruct (round_robin_call _ _ q _ Hstate Hc) as (dcss' & -> & _).
    by eexists _, _.
  - rewrite (first_then_second_call _ _ _ _ Hstate). simpl. by eexists _, _.
  - unfold DNSRebindFromQueryRandom. rewrite Hstate. simpl.
    destruct intn as [|[|intn]]; [| |lia]; simpl; by eexists _, _.
  - unfold DNSRebindFromQueryMultiA. rewrite Hstate. simpl.
    destruct (DNSClientState.FirewalledOnce s); simpl; by eexists _, _.
  - unfold dnsRebindFirst. rewrite Hstate. simpl. by eexists _, _.
Qed.

Lemma serialize_total q answers : answers <> [] -> serialize q answers <> OutOfRange.
Proof.
  unfold serialize. destruct answers as [|a0 [|a1 rest]]; [done| |]; intros _.
  - by destruct (respond _ _ _ _ _).
  - destruct (respond q (dns.Name q) "10" a0 true); [|done].
    by destruct (respond q (dns.Name q) "0" a1 true).
Qed.

(** On a well-formed store with cursors in 0, 1, 2 the DNS handler returns:
    no field is read through a nil pointer and no index is out of range. *)
Lemma MakeRebindDNSHandler_total appConfig dcss now remote intn r :
  wf dcss -> cursors_ok dcss -> (intn < 2)%nat ->
  is_Some (MakeRebindDNSHandler appConfig dcss now remote intn r).
Proof.
  intros Hwf Hok Hn. unfold MakeRebindDNSHandler, SetReply_Question.
  destruct (new_DNSClientState dcss) as [clientState d0] eqn:Hnew.
  destruct (dns.Opcode r =? dns.OpcodeQuery); [|by eexists].
  destruct (dns.Questions r) as [|q rest]; simpl; [by eexists|].
  assert (is_Some (serve_question appConfig now remote intn clientState q d0 []))
    as [flow ->]; [|destruct flow; by eexists].
  assert (is_Some (encoded appConfig now intn clientState q d0 [])) as Henc.
  { injection Hnew as <- <-.
    change (is_Some (encoded appConfig now intn (new_DNSClientState dcss).1 q
                       (new_DNSClientState dcss).2 [])).
    rewrite encoded_new.
    destruct (NewDNSQuery _) as [name [err|]]; [by eexists|].
    destruct (dispatch_store_session appConfig now name dcss Hwf Hok)
      as (p & s & Hp & Hs & Hc).
    destruct (call_total (strategy_of appConfig name) intn _ _ q _ _ Hp Hs Hc Hn)
      as (answers & d1 & Hcall & Hne).
    rewrite Hcall. cbn [mbind option_bind].
    destruct (call_session_state _ _ _ _ _ _ _ Hcall) as (p1 & s1 & Hp1 & Hs1).
    pose proof (serialize_total q answers Hne) as Hser.
    destruct (serialize q answers) as [| |response]; [done|by eexists|].
    rewrite (store_session_lookup _ _ _ _ _ Hp1 Hs1). cbn [mbind option_bind].
    erewrite store_session_lookup; [by eexists|exact Hp1|].
    simpl. apply list_lookup_insert_eq. by eapply lookup_lt_Some. }
  unfold serve_question.
  destruct (negb _); [by eexists|].
  destruct (addrInIPAddressList _ _); [by eexists|].
  destruct (negb _); [|exact Henc].
  rewrite minimization_eq.
  destruct (ParseIP _); [destruct (NewRR _)|]; [by eexists|exact Henc|by eexists].
Qed.

(** On a well-formed store the catch-all HTTP handler returns. *)
Lemma rootHandler_total dcss host now :
  wf dcss -> is_Some (rootHandler dcss host now).
Proof.
  intros Hwf. unfold rootHandler.
  destruct (NewDNSQuery host) as [name [err|]]; [by eexists|].
  destruct (Sessions dcss !! DNSQuery.Session name) as [p|] eqn:Hp; [|by eexists].
  destruct (Hwf _ _ Hp) as [s Hs].
  assert (session_state dcss (DNSQuery.Session name) = Some s) as ->
    by (apply session_state_Some; eauto).
  cbn [mbind option_bind]. destruct (_ && _); [|by eexists].
  rewrite (store_session_lookup _ _ _ _ _ Hp Hs). by eexists.
Qed.

End Total.

Section Unanswered.

Context `{External}.

(** A session that no reply has stamped stays in the store through every
    history of DNS requests, HTTP requests and sweeps, until a query for it
    is answered. *)
Lemma unanswered_session_stays appConfig session dcss es dcss' s :
  unanswered appConfig session dcss es dcss' ->
  session_state dcss session = Some s ->
  DNSClientState.LastQueryTime s = time.zero ->
  is_Some (session_state dcss' session).
Proof.
  induction 1 as [dcss|dcss e dcss1 es dcss2 Hstep Hquiet _ IH] in s |- *;
    intros Hs Hz; [by eexists|].
  assert (exists s1, session_state dcss1 session = Some s1) as [s1 Hs1].
  { destruct (step_cases _ _ _ _ Hstep) as [Hd | (duration & clock & ->)].
    - apply derives_evolves in Hd as [HS HO].
      apply session_state_Some in Hs as (p & Hp & Hs).
      destruct (HO _ _ Hs) as (s1 & Hs1 & _). exists s1.
      apply session_state_Some. eauto.
    - exists s. by apply ExpireOldEntries_zero. }
  eapply IH; [exact Hs1|]. by apply Hquiet.
Qed.

End Unanswered.

(** ** The scenarios of the multi-A strategy

    A multi-A query is answered with the attacker address (TTL 10) and the
    rebound target (TTL 0). An HTTP request on the catch-all route four
    seconds later goes to the hijack handler, and from then on the query is
    answered with the rebound target alone, also after a sweep that keeps
    the session. A sweep that expires the session ends it: the next query
    creates a new session, whose flag is clear. *)
Example multi_a_scenario :
  @observe reference.go scenario.appConfig empty_store
    [scenario.dns_request scenario.t0 "s-c0a80001.7f000001-m1-ma-e.a.tld." dns.TypeA;
     RootRequest "s-c0a80001.7f000001-m1-ma-e.a.tld:8080"
       (scenario.t0 + scenario.seconds 4);
     scenario.dns_request (scenario.t0 + scenario.seconds 5)
       "s-c0a80001.7f000001-m1-ma-e.a.tld." dns.TypeA;
     Sweep (scenario.seconds 10) (fun _ => scenario.t0 + scenario.seconds 6);
     scenario.dns_request (scenario.t0 + scenario.seconds 7)
       "s-c0a80001.7f000001-m1-ma-e.a.tld." dns.TypeA;
     Sweep (scenario.seconds 10) (fun _ => scenario.t0 + scenario.seconds 60);
     scenario.dns_request (scenario.t0 + scenario.seconds 61)
       "s-c0a80001.7f000001-m1-ma-e.a.tld." dns.TypeA]
  = [Replied (WriteMsg
       [scenario.record "s-c0a80001.7f000001-m1-ma-e.a.tld." 10 "A" "192.168.0.1";
        scenario.record "s-c0a80001.7f000001-m1-ma-e.a.tld." 0 "A" "127.0.0.1"]);
     Routed IPTables;
     Replied (WriteMsg
       [scenario.record "s-c0a80001.7f000001-m1-ma-e.a.tld." 0 "A" "127.0.0.1"]);
     Swept;
     Replied (WriteMsg
       [scenario.record "s-c0a80001.7f000001-m1-ma-e.a.tld." 0 "A" "127.0.0.1"]);
     Swept;
     Replied (WriteMsg
       [scenario.record "s-c0a80001.7f000001-m1-ma-e.a.tld." 10 "A" "192.168.0.1";
        scenario.record "s-c0a80001.7f000001-m1-ma-e.a.tld." 0 "A" "127.0.0.1"])].
Proof. vm_compute. reflexivity. Qed.

(** An aborted reply, then a sweep of duration zero long after, then the
    query the browser sends for the other address family: the session is
    still there, and it is answered with the attacker address. *)
Example aborted_scenario :
  @observe reference.go scenario.appConfig empty_store
    [scenario.dns_request scenario.t0
       "s-c0a80001.7f000001-abc-fs-e.attacker.tld." dns.TypeAAAA;
     Sweep 0 (fun _ => scenario.t0 + scenario.seconds 6000);
     scenario.dns_request (scenario.t0 + scenario.seconds 7000)
       "s-c0a80001.7f000001-abc-fs-e.attacker.tld." dns.TypeA]
  = [Replied (WriteMsg []);
     Swept;
     Replied (WriteMsg
       [scenario.record "s-c0a80001.7f000001-abc-fs-e.attacker.tld." 0 "A"
          "192.168.0.1"])].
Proof. vm_compute. reflexivity. Qed.

(** ** Inputs on which the claims as stated fail *)

(** C5, as stated, fails: in the two-record response to a multi-A query
    whose rebound target is [localhost], the second record is a CNAME with
    TTL 10, not TTL 0. *)
Lemma ttl_second_record_cname :
  @observe reference.go scenario.appConfig empty_store
    [scenario.dns_request scenario.t0 "s-c0a80001.localhost-m1-ma-e.a.tld." dns.TypeA]
  = [Replied (WriteMsg
       [scenario.record "s-c0a80001.localhost-m1-ma-e.a.tld." 10 "A" "192.168.0.1";
        scenario.record "s-c0a80001.localhost-m1-ma-e.a.tld." 10 "CNAME" "localhost."])]
  /\ reference.Hdr_Ttl
       (scenario.record "s-c0a80001.localhost-m1-ma-e.a.tld." 10 "CNAME" "localhost.")
     <> 0.
Proof. split; [vm_compute; reflexivity|discriminate]. Qed.

(** C7, as stated, fails: the codec accepts a suffix without a dot ([tld])
    and a suffix shorter than 3 bytes ([a.]). *)
Lemma suffix_without_dot_accepted :
  @NewDNSQuery reference.go "s-c0a80001.7f000001-abc-fs-e.tld"
  = (DNSQuery.mk "192.168.0.1" "127.0.0.1" "abc" "fs" ".tld", None)
  /\ strings.ContainsAny "tld" "." = false
  /\ @NewDNSQuery reference.go "s-c0a80001.7f000001-abc-fs-e.a."
     = (DNSQuery.mk "192.168.0.1" "127.0.0.1" "abc" "fs" ".a.", None)
  /\ (String.length "a." < 3)%nat.
Proof.
  split; [vm_compute; reflexivity|]. split; [reflexivity|].
  split; [vm_compute; reflexivity|]. simpl. lia.
Qed.

(** C8, as stated, fails: the name [tld.] lacks the start tag and the
    codec rejects it, but the responder does not drop the query: it
    answers it with the QNAME-minimization record. *)
Lemma rejected_name_is_answered :
  @NewDNSQuery reference.go (strings.ToLower "tld.")
  = (DNSQuery.zero, Some ErrStartTag)
  /\ @observe reference.go scenario.appConfig empty_store
       [scenario.dns_request scenario.t0 "tld." dns.TypeA]
     = [Replied (WriteMsg [scenario.record "tld." 0 "A" "203.0.113.5"])].
Proof. split; vm_compute; reflexivity. Qed.


(** ** The theorems at concrete inputs *)

Lemma firewall_latch_witness :
  DNSRebindFromQueryMultiA "m1" (scenario.multi_a true)
    (scenario.question "s-c0a80001.7f000001-m1-ma-e.a.tld." dns.TypeA)
  = Some ["127.0.0.1"] /\
  forall es dcss' q',
    @history reference.go scenario.appConfig "m1" (scenario.multi_a true) es dcss' ->
    DNSRebindFromQueryMultiA "m1" dcss' q' = Some ["127.0.0.1"].
Proof.
  assert (Hs : session_state (scenario.multi_a true) "m1"
               = Some (DNSClientState.mk scenario.t0 scenario.t0 scenario.t0
                         "192.168.0.1" "127.0.0.1" 0 30 true))
    by (vm_compute; reflexivity).
  destruct (@firewall_latch reference.go scenario.appConfig "m1" (scenario.multi_a true)
              (scenario.question "s-c0a80001.7f000001-m1-ma-e.a.tld." dns.TypeA) _ Hs)
    as [Hnow Hlater].
  split; [exact Hnow|]. exact (Hlater eq_refl).
Defined.

Lemma root_trigger_witness :
  wf (scenario.multi_a false) /\
  ((exists name p s,
       @ripe reference.go (scenario.multi_a false)
         "s-c0a80001.7f000001-m1-ma-e.a.tld:8080"
         (scenario.t0 + scenario.seconds 4) name p s /\
       @rootHandler reference.go (scenario.multi_a false)
         "s-c0a80001.7f000001-m1-ma-e.a.tld:8080" (scenario.t0 + scenario.seconds 4)
       = Some ({| Sessions := Sessions (scenario.multi_a false);
                  Objects := <[p := DNSClientState.set_FirewalledOnce true s]>
                               (Objects (scenario.multi_a false)) |}, IPTables)) \/
   ((forall name p s,
        ~ @ripe reference.go (scenario.multi_a false)
            "s-c0a80001.7f000001-m1-ma-e.a.tld:8080"
            (scenario.t0 + scenario.seconds 4) name p s) /\
    @rootHandler reference.go (scenario.multi_a false)
      "s-c0a80001.7f000001-m1-ma-e.a.tld:8080" (scenario.t0 + scenario.seconds 4)
    = Some (scenario.multi_a false, DefaultHeaders))).
Proof.
  assert (Hwf : wf (scenario.multi_a false)).
  { intros session p Hp. unfold scenario.multi_a in Hp. simpl in Hp.
    apply lookup_singleton_Some in Hp as [_ <-].
    eexists. reflexivity. }
  split; [exact Hwf|].
  exact (@root_trigger reference.go (scenario.multi_a false)
           "s-c0a80001.7f000001-m1-ma-e.a.tld:8080"
           (scenario.t0 + scenario.seconds 4) Hwf).
Defined.

Lemma round_robin_witness :
  cursor_ok (DNSClientState.mk scenario.t0 scenario.t0 scenario.t0
               "10.0.0.1" "10.0.0.2" 1 30 false) /\
  exists dcss',
    DNSRebindFromQueryRoundRobin "xyz"
      {| Sessions := {["xyz" := 0%nat]};
         Objects := [DNSClientState.mk scenario.t0 scenario.t0 scenario.t0
                       "10.0.0.1" "10.0.0.2" 1 30 false] |}
      (scenario.question "s-0a000001.0a000002-xyz-rr-e.a.tld." dns.TypeA)
    = Some (["10.0.0.2"], dcss') /\
    session_state dcss' "xyz"
    = Some (DNSClientState.mk scenario.t0 scenario.t0 scenario.t0
              "10.0.0.1" "10.0.0.2" 2 30 false).
Proof.
  assert (Hrun :
    @run reference.go scenario.appConfig empty_store
      [scenario.dns_request scenario.t0 "s-0a000001.0a000002-xyz-rr-e.a.tld." dns.TypeA]
    = Some {| Sessions := {["xyz" := 0%nat]};
              Objects := [DNSClientState.mk scenario.t0 scenario.t0 scenario.t0
                            "10.0.0.1" "10.0.0.2" 1 30 false] |})
    by (vm_compute; reflexivity).
  assert (Hs :
    session_state {| Sessions := {["xyz" := 0%nat]};
                     Objects := [DNSClientState.mk scenario.t0 scenario.t0 scenario.t0
                                   "10.0.0.1" "10.0.0.2" 1 30 false] |} "xyz"
    = Some (DNSClientState.mk scenario.t0 scenario.t0 scenario.t0
              "10.0.0.1" "10.0.0.2" 1 30 false))
    by (vm_compute; reflexivity).
  exact (proj1 round_robin reference.go scenario.appConfig _ _ "xyz"
           (scenario.question "s-0a000001.0a000002-xyz-rr-e.a.tld." dns.TypeA)
           _ Hrun Hs).
Defined.

Lemma ttl_policy_witness :
  @serialize reference.go
    (scenario.question "s-c0a80001.7f000001-m1-ma-e.a.tld." dns.TypeA)
    ["192.168.0.1"; "127.0.0.1"]
  = Lines ["s-c0a80001.7f000001-m1-ma-e.a.tld. 10 IN A 192.168.0.1";
           "s-c0a80001.7f000001-m1-ma-e.a.tld. 0 IN A 127.0.0.1"].
Proof.
  exact (proj1 (@ttl_policy reference.go
                  (scenario.question "s-c0a80001.7f000001-m1-ma-e.a.tld." dns.TypeA))
               "192.168.0.1" "127.0.0.1" []).
Defined.

Lemma minimization_fallback_witness :
  exists dcss' reply,
    @MakeRebindDNSHandler reference.go scenario.appConfig empty_store scenario.t0
      scenario.peer 0 (scenario.query "tld." dns.TypeA) = Some (dcss', reply) /\
    untouched empty_store dcss' /\
    reply = WriteMsg [scenario.record "tld." 0 "A" "203.0.113.5"].
Proof.
  exact (@minimization_fallback reference.go scenario.appConfig empty_store
           scenario.t0 scenario.peer 0 (scenario.query "tld." dns.TypeA)
           (scenario.question "tld." dns.TypeA) []
           eq_refl eq_refl (or_introl eq_refl) eq_refl eq_refl).
Defined.

Lemma suffix_rule_witness :
  (@NewDNSQuery reference.go "s-c0a80001.7f000001-abc-fs-e.a").2 = Some ErrDomain <->
  (String.length "a" < 3)%nat /\ strings.ContainsAny "a" "." = false.
Proof.
  exact (@suffix_rule reference.go "s-c0a80001.7f000001-abc-fs-e.a"
           "c0a80001.7f000001-abc-fs" "a" eq_refl eq_refl).
Defined.

Lemma codec_rejection_witness :
  (exists err,
      @NewDNSQuery reference.go (strings.ToLower "s-zz.7f000001-abc-fs-e.a.tld.")
      = (DNSQuery.zero, Some err)) /\
  exists dcss' reply,
    @MakeRebindDNSHandler reference.go scenario.appConfig empty_store scenario.t0
      scenario.peer 0 (scenario.query "s-zz.7f000001-abc-fs-e.a.tld." dns.TypeA)
    = Some (dcss', reply) /\
    untouched empty_store dcss' /\
    (reply = NoReply \/
     strings.HasPrefix (strings.ToLower "s-zz.7f000001-abc-fs-e.a.tld.") "s-" = false /\
     exists address rr,
       @ParseIP reference.go (AppConfig.ResponseIPAddr scenario.appConfig) = Some address /\
       @NewRR reference.go
         (minimization_line scenario.appConfig
            (scenario.question "s-zz.7f000001-abc-fs-e.a.tld." dns.TypeA) address)
       = Some rr /\
       reply = WriteMsg [rr]).
Proof.
  exact (@codec_rejection reference.go scenario.appConfig empty_store scenario.t0
           scenario.peer 0 (scenario.query "s-zz.7f000001-abc-fs-e.a.tld." dns.TypeA)
           (scenario.question "s-zz.7f000001-abc-fs-e.a.tld." dns.TypeA) []
           eq_refl eq_refl (or_introl eq_refl)
           (@undecodable_first_host reference.go "s-zz.7f000001-abc-fs-e.a.tld."
              "zz.7f000001-abc-fs" "a.tld." "zz.7f000001" "abc" "fs"
              eq_refl eq_refl eq_refl)).
Defined.


(** * Further properties *)

(** ** Splitting at a one-character separator *)

Lemma Split_char_app (c : ascii) (a b : string) :
  strings.ContainsAny a (String c "") = false ->
  strings.Split (a +:+ String c b) (String c "")
  = a :: strings.Split b (String c "").
Proof.
  unfold strings.Split. induction a as [|x a IH]; simpl; intros Ha.
  - rewrite Ascii.eqb_refl. reflexivity.
  - apply orb_false_iff in Ha as [Hx Ha]. apply orb_false_iff in Hx as [Hx _].
    rewrite Hx. simpl. rewrite (IH Ha). reflexivity.
Qed.

Lemma Split_char_none (c : ascii) (a : string) :
  strings.ContainsAny a (String c "") = false ->
  strings.Split a (String c "") = [a].
Proof.
  unfold strings.Split. induction a as [|x a IH]; simpl; intros Ha; [done|].
  apply orb_false_iff in Ha as [Hx Ha]. apply orb_false_iff in Hx as [Hx _].
  rewrite Hx. simpl. rewrite (IH Ha). reflexivity.
Qed.

(** No piece of a split contains the separator. *)
Lemma Split_char_pieces (c : ascii) (s : string) :
  Forall (fun piece => strings.ContainsAny piece (String c "") = false)
         (strings.Split s (String c "")).
Proof.
  unfold strings.Split. induction s as [|x s IH]; simpl.
  - by repeat constructor.
  - destruct (Ascii.eqb x c) eqn:Hx; simpl.
    + by constructor.
    + destruct (strings.split_from (String c "") 0 s) as [|piece rest].
      * repeat constructor. simpl. by rewrite Hx.
      * apply Forall_cons in IH as [Hp Hr]. constructor; [|done].
        simpl. by rewrite Hx, Hp.
Qed.

(** ** Hexadecimal text *)

Lemma fromHexChar_hexdigit (d : Z) :
  0 <= d < 16 -> hex.fromHexChar (hex.hexdigit d) = Some d.
Proof.
  intros Hd.
  assert (d = 0 \/ d = 1 \/ d = 2 \/ d = 3 \/ d = 4 \/ d = 5 \/ d = 6 \/ d = 7 \/
          d = 8 \/ d = 9 \/ d = 10 \/ d = 11 \/ d = 12 \/ d = 13 \/ d = 14 \/ d = 15)
    as Hcases by lia.
  repeat (destruct Hcases as [-> | Hcases]; [reflexivity|]). by subst.
Qed.

(** Decoding undoes encoding. *)
Lemma DecodeString_EncodeToString (b : list Z) :
  Forall is_byte b -> hex.DecodeString (hex.EncodeToString b) = Some b.
Proof.
  induction 1 as [|x b Hx _ IH]; [done|].
  cbn [hex.EncodeToString hex.DecodeString]. unfold is_byte in Hx.
  rewrite !fromHexChar_hexdigit, IH.
  - f_equal. f_equal. pose proof (Z.div_mod x 16). lia.
  - apply Z.mod_pos_bound. lia.
  - split; [apply Z.div_pos; lia|apply Z.div_lt_upper_bound; lia].
Qed.

Lemma EncodeToString_length (b : list Z) :
  String.length (hex.EncodeToString b) = (2 * length b)%nat.
Proof. induction b as [|x b IH]; simpl; [done|]. rewrite IH. lia. Qed.

(** X1. The random token. When the random source delivers bytes,
    [GenerateRandomString] returns a text of 40 characters (two
    hexadecimal digits for each of its 20 random bytes), and decoding the
    text gives the 20 bytes back. *)
Theorem GenerateRandomString_token (bytes : list Z) :
  Forall is_byte bytes ->
  (20 <= length bytes)%nat ->
  exists token,
    GenerateRandomString (Some bytes) = Some token /\
    String.length token = 40%nat /\
    hex.DecodeString token = Some (take 20 bytes).
Proof.
  intros Hb Hlen. unfold GenerateRandomString, crand_Read.
  cbn [mbind option_bind]. rewrite repeat_length.
  destruct (Nat.ltb_spec (length bytes) 20); [lia|].
  eexists. split; [reflexivity|]. split.
  - rewrite EncodeToString_length, length_take. lia.
  - apply DecodeString_EncodeToString. by apply Forall_take.
Qed.

(** A random source that fails, or runs dry before 20 bytes, gives no
    token. *)
Lemma GenerateRandomString_error (entropy : option (list Z)) :
  GenerateRandomString entropy = None <->
  entropy = None \/ exists bytes, entropy = Some bytes /\ (length bytes < 20)%nat.
Proof.
  unfold GenerateRandomString, crand_Read.
  destruct entropy as [bytes|]; cbn [mbind option_bind].
  - rewrite repeat_length. destruct (Nat.ltb_spec (length bytes) 20); split.
    + intros _. right. eauto.
    + done.
    + done.
    + intros [?|(b & [= <-] & ?)]; [done|lia].
  - split; [by left|done].
Qed.

(** ** The query of an [Origin] header *)

Section OriginProperties.

Context `{External}.

(** X2. [NewDNSQueryFromOrigin] strips the scheme [http://] and the port:
    for a host name without a colon, the origin [http://<host>:<port>] and
    the origin [http://<host>] parse as the host name itself does. The
    index into the split does not panic. *)
Theorem NewDNSQueryFromOrigin_host (host port : string) :
  colon_free host ->
  NewDNSQueryFromOrigin ("http://" +:+ host +:+ ":" +:+ port)
  = Some (NewDNSQuery host) /\
  NewDNSQueryFromOrigin ("http://" +:+ host) = Some (NewDNSQuery host).
Proof.
  intros Hhost. unfold NewDNSQueryFromOrigin, colon_free in *.
  change (strings.TrimPrefix ("http://" +:+ host +:+ ":" +:+ port) "http://")
    with (host +:+ String ":" port).
  change (strings.TrimPrefix ("http://" +:+ host) "http://") with host.
  rewrite (Split_char_app ":" host port Hhost), (Split_char_none ":" host Hhost).
  split; reflexivity.
Qed.

(** X3. Only the scheme [http://] is stripped: an origin of the scheme
    [https] is split at the colon of the scheme, the codec is given the
    text [https], and the origin is rejected for its missing start tag,
    whatever its host. *)
Theorem NewDNSQueryFromOrigin_https (rest : string) :
  NewDNSQueryFromOrigin ("https://" +:+ rest)
  = Some (DNSQuery.zero, Some ErrStartTag).
Proof.
  unfold NewDNSQueryFromOrigin.
  change (strings.TrimPrefix ("https://" +:+ rest) "http://")
    with ("https" +:+ String ":" ("//" +:+ rest)).
  rewrite (Split_char_app ":" "https" ("//" +:+ rest) eq_refl).
  cbn [lookup list_lookup mbind option_bind].
  by rewrite NewDNSQuery_start_tag.
Qed.

End OriginProperties.

(** ** The handler of [/clientinfo] *)

(** X4. The fields of the client information are the first two pieces of
    the remote address split at every colon. For a peer [<host>:<port>]
    with a host without a colon (an IPv4 peer) they are the host and the
    port. For a remote address with more colons (an IPv6 peer, written
    [[2001:db8::1]:443]) they are the text before the first colon and the
    text between the first two colons. A GET request is answered with
    status 200 and these fields; every method stores them in the
    handler. *)
Theorem client_info_fields (hcih : HTTPClientInfoHandler.t) (a b tail : string) :
  colon_free a -> colon_free b ->
  HTTPClientInfoHandler_ServeHTTP hcih "GET" (a +:+ ":" +:+ b)
  = Some (HTTPClientInfoHandler.mk a b,
          {| StatusCode := 200; Body := JObject [("IPAddress", a); ("Port", b)] |}) /\
  HTTPClientInfoHandler_ServeHTTP hcih "GET" (a +:+ ":" +:+ b +:+ ":" +:+ tail)
  = Some (HTTPClientInfoHandler.mk a b,
          {| StatusCode := 200; Body := JObject [("IPAddress", a); ("Port", b)] |}) /\
  forall Method,
    fst <$> HTTPClientInfoHandler_ServeHTTP hcih Method (a +:+ ":" +:+ b)
    = Some (HTTPClientInfoHandler.mk a b).
Proof.
  intros Ha Hb. unfold HTTPClientInfoHandler_ServeHTTP, colon_free in *.
  change (a +:+ ":" +:+ b) with (a +:+ String ":" b).
  change (a +:+ ":" +:+ b +:+ ":" +:+ tail) with (a +:+ String ":" (b +:+ String ":" tail)).
  rewrite !(Split_char_app ":" a _ Ha), (Split_char_app ":" b _ Hb),
    (Split_char_none ":" b Hb).
  split; [reflexivity|]. split; [reflexivity|].
  intros Method. cbn [lookup list_lookup mbind option_bind].
  by destruct (String.eqb Method "GET").
Qed.

(** X5. On a remote address without a colon the handler panics, whatever
    the method: the index [splitted[1]] is out of range. *)
Theorem client_info_no_colon (hcih : HTTPClientInfoHandler.t)
    (Method RemoteAddr : string) :
  colon_free RemoteAddr ->
  HTTPClientInfoHandler_ServeHTTP hcih Method RemoteAddr = None.
Proof.
  intros Hc. unfold HTTPClientInfoHandler_ServeHTTP.
  by rewrite (Split_char_none ":" RemoteAddr Hc).
Qed.

(** ** The expiry sweep *)

Lemma expired_false duration clock objects sk sv s :
  objects !! sv = Some s ->
  expired duration clock objects sk sv = false <->
  DNSClientState.LastQueryTime s = time.zero \/
  time.Sub (clock sk) (DNSClientState.LastQueryTime s) <= duration.
Proof.
  intros Hs. unfold expired, time.IsZero, time.zero. rewrite Hs.
  destruct (Z.eqb_spec (DNSClientState.LastQueryTime s) 0) as [Hz|Hz]; simpl.
  - split; [by left|done].
  - destruct (Z.ltb_spec duration
                (time.Sub (clock sk) (DNSClientState.LastQueryTime s))).
    + split; [done|]. intros [?|?]; [done|lia].
    + split; [by right|done].
Qed.

(** X6. What a sweep leaves. A session has a state after
    [ExpireOldEntries] exactly when it had this state before and has never
    been answered (its last query time is the zero time) or the time since
    its last query, as [time.Since] reads it when the loop visits the
    session, is at most the duration. The sweep deletes keys only: it adds
    no session and changes no state. *)
Theorem ExpireOldEntries_survivors duration clock dcss session s :
  session_state (ExpireOldEntries duration clock dcss) session = Some s <->
  session_state dcss session = Some s /\
  (DNSClientState.LastQueryTime s = time.zero \/
   time.Sub (clock session) (DNSClientState.LastQueryTime s) <= duration).
Proof.
  rewrite !session_state_Some. split.
  - intros (p & [Hp Hex]%ExpireOldEntries_lookup & Hs). simpl in Hs.
    split; [eauto|]. by eapply expired_false.
  - intros [(p & Hp & Hs) Hkeep]. exists p. split; [|done].
    apply ExpireOldEntries_lookup. split; [done|]. by eapply expired_false.
Qed.

(** X7. Two sweeps by the same clock are one sweep with the shorter
    duration; so a sweep repeated with the same duration and clock changes
    nothing more. *)
Theorem ExpireOldEntries_twice d1 d2 clock dcss :
  ExpireOldEntries d2 clock (ExpireOldEntries d1 clock dcss)
  = ExpireOldEntries (Z.min d1 d2) clock dcss /\
  ExpireOldEntries d1 clock (ExpireOldEntries d1 clock dcss)
  = ExpireOldEntries d1 clock dcss.
Proof.
  assert (forall a b,
            ExpireOldEntries b clock (ExpireOldEntries a clock dcss)
            = ExpireOldEntries (Z.min a b) clock dcss) as Hmin.
  { intros a b. unfold ExpireOldEntries at 1 3. f_equal.
    apply map_eq. intros session. apply option_eq. intros p.
    change (Objects (ExpireOldEntries a clock dcss)) with (Objects dcss).
    rewrite !map_lookup_filter_Some. cbn [fst snd].
    rewrite ExpireOldEntries_lookup. unfold expired.
    destruct (Objects dcss !! p) as [s|]; [|tauto].
    destruct (negb _); simpl; [|tauto].
    destruct (Z.ltb_spec a (time.Sub (clock session) (DNSClientState.LastQueryTime s))),
      (Z.ltb_spec b (time.Sub (clock session) (DNSClientState.LastQueryTime s))),
      (Z.ltb_spec (Z.min a b)
         (time.Sub (clock session) (DNSClientState.LastQueryTime s)));
      try lia; tauto. }
  split; [apply Hmin|]. by rewrite Hmin, Z.min_id.
Qed.

(** ** The ignore list *)

Lemma bytes_eqb_refl (a : list Z) : net.bytes_eqb a a = true.
Proof.
  unfold net.bytes_eqb. rewrite Nat.eqb_refl. simpl.
  induction a as [|x a IH]; simpl; [done|]. by rewrite Z.eqb_refl.
Qed.

(** X8. [addrInIPAddressList] finds the address of a TCP, UDP or IP peer
    when the list holds it, in the same form or in the other of the two
    forms of an IPv4 address (4 bytes, or 16 bytes with the IPv4-in-IPv6
    prefix). A peer of another kind of address is never found, and nothing
    is found in an empty list. *)
Theorem addrInIPAddressList_listed (remote : Addr) (ips : list net.IP) (ip : net.IP) :
  In ip ips ->
  (peer_ip remote = Some ip \/
   (length ip = 4%nat /\ peer_ip remote = Some (net.v4InV6Prefix ++ ip)) \/
   (exists ip4, length ip4 = 4%nat /\ ip = net.v4InV6Prefix ++ ip4 /\
                peer_ip remote = Some ip4)) ->
  addrInIPAddressList remote ips = true /\
  addrInIPAddressList OtherAddr ips = false /\
  addrInIPAddressList remote [] = false.
Proof.
  intros Hin Hpeer. split; [|split; [done|by destruct remote]].
  assert (exists addrIP, peer_ip remote = Some addrIP /\ net.Equal ip addrIP = true)
    as (addrIP & Hremote & Heq).
  { destruct Hpeer as [Hp | [[Hlen Hp] | (ip4 & Hlen & -> & Hp)]].
    - exists ip. split; [done|]. unfold net.Equal.
      by rewrite Nat.eqb_refl, bytes_eqb_refl.
    - eexists. split; [done|]. unfold net.Equal.
      rewrite length_app, Hlen. simpl. rewrite drop_0. apply bytes_eqb_refl.
    - eexists. split; [done|]. unfold net.Equal.
      rewrite length_app, Hlen. simpl. rewrite drop_0. apply bytes_eqb_refl. }
  assert (addrInIPAddressList remote ips
          = existsb (fun ip => net.Equal ip addrIP) ips) as ->.
  { destruct remote; simpl in Hremote; by simplify_eq. }
  apply existsb_exists. eauto.
Qed.

Section Dropped.

Context `{External}.

(** X9. An A or AAAA query from a peer on the ignore list is dropped:
    the handler writes no reply, whatever the name, and leaves the sessions
    alone. *)
Theorem ignored_peer_dropped appConfig dcss now remote intn r q rest :
  dns.Opcode r = dns.OpcodeQuery ->
  dns.Questions r = q :: rest ->
  is_address_query q ->
  addrInIPAddressList remote (AppConfig.IgnoreDNSRequestFrom appConfig) = true ->
  exists dcss',
    MakeRebindDNSHandler appConfig dcss now remote intn r = Some (dcss', NoReply) /\
    untouched dcss dcss'.
Proof.
  intros Hop Hq Hty Hpeer.
  rewrite (MakeRebindDNSHandler_question _ _ _ _ _ _ _ _ Hop Hq).
  unfold serve_question. rewrite (is_address_query_test _ Hty), Hpeer. simpl.
  eexists. split; [reflexivity|]. apply untouched_allocate.
Qed.

(** X10. A request that is not a standard query, has no question, or
    whose first question asks for a type other than A and AAAA is answered
    with an empty answer section; the sessions are left alone. The ignore
    list is not consulted: a peer on it gets this reply too. *)
Theorem not_address_request_empty_reply appConfig dcss now remote intn r :
  not_address_request r ->
  exists dcss',
    MakeRebindDNSHandler appConfig dcss now remote intn r
    = Some (dcss', WriteMsg []) /\
    untouched dcss dcss'.
Proof.
  intros Hr. unfold MakeRebindDNSHandler, SetReply_Question.
  destruct (new_DNSClientState dcss) as [clientState d0] eqn:Hnew.
  injection Hnew as _ <-.
  destruct (Z.eqb_spec (dns.Opcode r) dns.OpcodeQuery) as [Hop|Hop].
  2:{ eexists. split; [reflexivity|]. apply untouched_allocate. }
  destruct Hr as [Hr|Hr]; [done|].
  destruct (dns.Questions r) as [|q rest]; simpl.
  { eexists. split; [reflexivity|]. apply untouched_allocate. }
  unfold serve_question.
  destruct (Z.eqb_spec (dns.Qtype q) dns.TypeA) as [Ha|Ha].
  { exfalso. apply Hr. by left. }
  destruct (Z.eqb_spec (dns.Qtype q) dns.TypeAAAA) as [Hb|Hb].
  { exfalso. apply Hr. by right. }
  simpl. eexists. split; [reflexivity|]. apply untouched_allocate.
Qed.

End Dropped.

(** ** What a DNS request changes in the store *)

Lemma stamped_refl now s : stamped now s s.
Proof. unfold stamped. tauto. Qed.

Lemma stamped_cursor now s s1 i :
  stamped now s s1 ->
  stamped now s (DNSClientState.set_LastResponseReboundIPAddr i s1).
Proof. unfold stamped. simpl. tauto. Qed.

Lemma stamped_answered now s s1 :
  stamped now s s1 ->
  stamped now s (DNSClientState.set_LastQueryTime now
                   (DNSClientState.set_CurrentQueryTime now s1)).
Proof. unfold stamped. simpl. tauto. Qed.

Lemma omap_length_le {A B} (f : A -> option B) (l : list A) :
  (length (omap f l) <= length l)%nat.
Proof.
  induction l as [|x l IH]; simpl; [done|].
  destruct (f x); simpl; change (list_omap A B f l) with (omap f l); lia.
Qed.

Section Frame.

Context `{External}.

Lemma serialize_Lines_length q answers response :
  serialize q answers = Lines response -> (length response <= 2)%nat.
Proof.
  unfold serialize. destruct answers as [|a0 [|a1 rest]]; [done| |].
  - destruct (respond _ _ _ _ _); [|done]. intros [= <-]. simpl. lia.
  - destruct (respond q (dns.Name q) "10" a0 true); [|done].
    destruct (respond q (dns.Name q) "0" a1 true); [|done].
    intros [= <-]. simpl. lia.
Qed.

(** The store the encoded-query path leaves, and its answer section. *)
Lemma encoded_shape appConfig now intn q dcss flow :
  encoded appConfig now intn (new_DNSClientState dcss).1 q
          (new_DNSClientState dcss).2 [] = Some flow ->
  let dcss' := match flow with Continue d _ | Return d _ => d end in
  (forall answer, flow = Continue dcss' answer \/ flow = Return dcss' (WriteMsg answer) ->
                  (length answer <= 2)%nat) /\
  (untouched dcss dcss' \/
   exists name p s s',
     NewDNSQuery (strings.ToLower (dns.Name q)) = (name, None) /\
     Sessions (dispatch_store appConfig now name dcss) !! DNSQuery.Session name
     = Some p /\
     Objects (dispatch_store appConfig now name dcss) !! p = Some s /\
     stamped now s s' /\
     dcss' = {| Sessions := Sessions (dispatch_store appConfig now name dcss);
                Objects := <[p := s']>
                             (Objects (dispatch_store appConfig now name dcss)) |}).
Proof.
  rewrite encoded_new.
  destruct (NewDNSQuery _) as [name [err|]] eqn:Hname.
  { intros [= <-]. simpl. split; [by intros answer [?|?]|].
    left. apply untouched_allocate. }
  destruct (call _ _ _ _ _) as [[answers d1]|] eqn:Hcall; [|done].
  cbn [mbind option_bind].
  destruct (call_effect _ _ _ _ _ _ _ Hcall) as (p & s & Hp & Hs & Hd1).
  set (D := dispatch_store appConfig now name dcss) in *.
  assert (exists s1, stamped now s s1 /\
                     d1 = {| Sessions := Sessions D;
                             Objects := <[p := s1]> (Objects D) |})
    as (s1 & Hst1 & ->).
  { destruct Hd1 as [-> | (i & _ & ->)].
    - exists s. split; [apply stamped_refl|].
      rewrite list_insert_id by done. by destruct D.
    - eexists. split; [|reflexivity]. apply stamped_cursor, stamped_refl. }
  assert (<[p := s1]> (Objects D) !! p = Some s1) as Hs1
    by (apply list_lookup_insert_eq; by eapply lookup_lt_Some).
  destruct (serialize q answers) as [| |response] eqn:Hser; [done| |].
  { intros [= <-]. simpl. split.
    - intros answer [?|?]; simplify_eq/=. lia.
    - right. by exists name, p, s, s1. }
  erewrite store_session_lookup; [|exact Hp|exact Hs1].
  cbn [mbind option_bind].
  erewrite store_session_lookup; [|exact Hp|].
  2:{ simpl. apply list_lookup_insert_eq. rewrite length_insert.
      by eapply lookup_lt_Some. }
  cbn [mbind option_bind]. intros [= <-]. simpl. split.
  - intros answer [?|?]; simplify_eq/=.
    etrans; [apply omap_length_le|]. by eapply serialize_Lines_length.
  - right. exists name, p, s. eexists. split; [done|]. split; [done|].
    split; [done|]. split; [by apply stamped_answered|].
    by rewrite !list_insert_insert_eq.
Qed.

(** The store the handler leaves, and its reply. *)
Lemma MakeRebindDNSHandler_shape appConfig dcss now remote intn r dcss' reply :
  MakeRebindDNSHandler appConfig dcss now remote intn r = Some (dcss', reply) ->
  (forall answer, reply = WriteMsg answer -> (length answer <= 2)%nat) /\
  (untouched dcss dcss' \/
   exists q rest name p s s',
     dns.Questions r = q :: rest /\
     NewDNSQuery (strings.ToLower (dns.Name q)) = (name, None) /\
     Sessions (dispatch_store appConfig now name dcss) !! DNSQuery.Session name
     = Some p /\
     Objects (dispatch_store appConfig now name dcss) !! p = Some s /\
     stamped now s s' /\
     dcss' = {| Sessions := Sessions (dispatch_store appConfig now name dcss);
                Objects := <[p := s']>
                             (Objects (dispatch_store appConfig now name dcss)) |}).
Proof.
  unfold MakeRebindDNSHandler, SetReply_Question.
  destruct (new_DNSClientState dcss) as [clientState d0] eqn:Hnew.
  assert (untouched dcss d0) as Hd0.
  { injection Hnew as _ <-. apply untouched_allocate. }
  destruct (dns.Opcode r =? dns.OpcodeQuery).
  2:{ intros [= <- <-]. split; [|by left]. intros answer [= <-]. simpl. lia. }
  destruct (dns.Questions r) as [|q rest]; simpl.
  { intros [= <- <-]. split; [|by left]. intros answer [= <-]. simpl. lia. }
  destruct (serve_question _ _ _ _ _ _ _ _) as [flow|] eqn:Hq; [|done]. simpl.
  assert (encoded appConfig now intn clientState q d0 [] = Some flow ->
          (forall answer,
              flow = Continue match flow with Continue d _ | Return d _ => d end answer \/
              flow = Return match flow with Continue d _ | Return d _ => d end
                            (WriteMsg answer) ->
              (length answer <= 2)%nat) /\
          (untouched dcss match flow with Continue d _ | Return d _ => d end \/
           exists name p s s',
             NewDNSQuery (strings.ToLower (dns.Name q)) = (name, None) /\
             Sessions (dispatch_store appConfig now name dcss) !! DNSQuery.Session name
             = Some p /\
             Objects (dispatch_store appConfig now name dcss) !! p = Some s /\
             stamped now s s' /\
             match flow with Continue d _ | Return d _ => d end
             = {| Sessions := Sessions (dispatch_store appConfig now name dcss);
                  Objects := <[p := s']>
                               (Objects (dispatch_store appConfig now name dcss)) |}))
    as Henc.
  { injection Hnew as <- <-. apply encoded_shape. }
  assert ((forall answer,
              flow = Continue match flow with Continue d _ | Return d _ => d end answer \/
              flow = Return match flow with Continue d _ | Return d _ => d end
                            (WriteMsg answer) ->
              (length answer <= 2)%nat) /\
          (untouched dcss match flow with Continue d _ | Return d _ => d end \/
           exists name p s s',
             NewDNSQuery (strings.ToLower (dns.Name q)) = (name, None) /\
             Sessions (dispatch_store appConfig now name dcss) !! DNSQuery.Session name
             = Some p /\
             Objects (dispatch_store appConfig now name dcss) !! p = Some s /\
             stamped now s s' /\
             match flow with Continue d _ | Return d _ => d end
             = {| Sessions := Sessions (dispatch_store appConfig now name dcss);
                  Objects := <[p := s']>
                               (Objects (dispatch_store appConfig now name dcss)) |}))
    as [Hlen Hstore].
  { revert Hq. unfold serve_question.
    destruct (negb _).
    { intros [= <-]. split; [|by left]. intros answer [?|?]; simplify_eq/=; lia. }
    destruct (addrInIPAddressList _ _).
    { intros [= <-]. split; [|by left]. by intros answer [?|?]. }
    destruct (negb _); [|exact Henc].
    rewrite minimization_eq.
    destruct (ParseIP _); [destruct (NewRR _)|]; [|exact Henc|].
    - intros [= <-]. split; [|by left]. intros answer [?|?]; simplify_eq/=; lia.
    - intros [= <-]. split; [|by left]. by intros answer [?|?]. }
  destruct flow as [d answer|d reply0]; intros [= <- <-]; simpl in *.
  - split; [intros a [= <-]; apply Hlen; by left|].
    destruct Hstore as [?|(name & p & s & s' & ?)]; [by left|].
    right. by exists q, rest, name, p, s, s'.
  - split; [intros a ->; apply Hlen; by right|].
    destruct Hstore as [?|(name & p & s & s' & ?)]; [by left|].
    right. by exists q, rest, name, p, s, s'.
Qed.

(** X11. No reply of the DNS handler carries more than two records. *)
Theorem reply_at_most_two_records appConfig dcss now remote intn r dcss' answer :
  MakeRebindDNSHandler appConfig dcss now remote intn r
  = Some (dcss', WriteMsg answer) ->
  (length answer <= 2)%nat.
Proof. intros Hh. by eapply (MakeRebindDNSHandler_shape _ _ _ _ _ _ _ _ Hh). Qed.

(** A DNS request keeps the sessions of the store and stamps their states. *)
Lemma MakeRebindDNSHandler_stamped appConfig dcss now remote intn r dcss' reply
    session s :
  MakeRebindDNSHandler appConfig dcss now remote intn r = Some (dcss', reply) ->
  session_state dcss session = Some s ->
  exists s', session_state dcss' session = Some s' /\ stamped now s s'.
Proof.
  intros Hh Hs.
  destruct (MakeRebindDNSHandler_shape _ _ _ _ _ _ _ _ Hh) as [_ Hshape].
  destruct Hshape as [Hun|(q & rest & name & p & s0 & s' & _ & _ & Hp & Hs0 & Hst & ->)].
  { exists s. split; [by eapply untouched_session_state|apply stamped_refl]. }
  apply session_state_Some in Hs as (p0 & Hp0 & Hs00).
  assert (Sessions (dispatch_store appConfig now name dcss) !! session = Some p0) as HD.
  { unfold dispatch_store. simpl.
    destruct (Sessions dcss !! DNSQuery.Session name) eqn:Hn; [done|].
    rewrite lookup_insert_ne; [done|]. congruence. }
  assert (Objects (dispatch_store appConfig now name dcss) !! p0 = Some s) as HO
    by (by apply lookup_app_l_Some).
  destruct (decide (p = p0)) as [->|Hne].
  - exists s'. split; [|congruence].
    by eapply session_state_stored.
  - exists s. split; [|apply stamped_refl].
    apply session_state_Some. exists p0. simpl. split; [done|].
    by rewrite list_lookup_insert_ne.
Qed.

(** X12. A DNS request keeps every session of the store, and of the
    state of a session it changes at most the round-robin cursor and the
    two time stamps of an answer: the first query time, the two hosts, the
    timeout and the firewall flag are the ones the session was created
    with (a later query with the same session id and other hosts does not
    change the hosts; the DNS handler neither sets nor clears the flag),
    and the last and the current query time are the old ones or the time
    of the request. *)
Theorem dns_request_keeps_sessions appConfig dcss now remote intn r dcss' reply
    session s :
  MakeRebindDNSHandler appConfig dcss now remote intn r = Some (dcss', reply) ->
  session_state dcss session = Some s ->
  exists s', session_state dcss' session = Some s' /\ stamped now s s'.
Proof. apply MakeRebindDNSHandler_stamped. Qed.

(** X13. A DNS request adds at most one session: the session of the
    lower-cased name of its first question, which the codec accepted. The
    new session has the hosts of the name, the timeout of the
    configuration, the time of the request as its first query time, and a
    clear firewall flag. *)
Theorem dns_request_new_session appConfig dcss now remote intn r dcss' reply
    session s' :
  MakeRebindDNSHandler appConfig dcss now remote intn r = Some (dcss', reply) ->
  Sessions dcss !! session = None ->
  session_state dcss' session = Some s' ->
  exists q rest name,
    dns.Questions r = q :: rest /\
    NewDNSQuery (strings.ToLower (dns.Name q)) = (name, None) /\
    session = DNSQuery.Session name /\
    stamped now (new_session appConfig now name) s'.
Proof.
  intros Hh Hnone Hs'.
  destruct (MakeRebindDNSHandler_shape _ _ _ _ _ _ _ _ Hh) as [_ Hshape].
  apply session_state_Some in Hs' as (p' & Hp' & Hs').
  destruct Hshape as [[HS _]|(q & rest & name & p & s0 & s1 & Hq & Hname & Hp & Hs0
                               & Hst & ->)].
  { rewrite HS in Hp'. congruence. }
  exists q, rest, name. split; [done|]. split; [done|].
  simpl in Hp', Hs', Hp, Hs0.
  destruct (Sessions dcss !! DNSQuery.Session name) eqn:Hn; [congruence|].
  destruct (decide (DNSQuery.Session name = session)) as [<-|Hne].
  2:{ rewrite lookup_insert_ne in Hp' by done. congruence. }
  split; [done|].
  rewrite lookup_insert_eq in Hp, Hp'. simplify_eq.
  rewrite lookup_app_r, Nat.sub_diag in Hs0 by lia. simpl in Hs0.
  rewrite list_lookup_insert_eq in Hs' by (rewrite length_app; simpl; lia).
  by simplify_eq.
Qed.

End Frame.

(** ** The strategies *)

Section Strategies.

Context `{External}.

(** X14. Every strategy answers with one or two hosts, and each is one
    of the two hosts of the session: the placeholder at index 0 of the
    round-robin table is never an answer. Only the round-robin strategy
    writes to the store. *)
Theorem strategies_answer_session_hosts fn intn session dcss q answers dcss' :
  call fn intn session dcss q = Some (answers, dcss') ->
  exists s,
    session_state dcss session = Some s /\
    (1 <= length answers <= 2)%nat /\
    Forall (fun answer => answer = DNSClientState.ResponseIPAddr s \/
                          answer = DNSClientState.ResponseReboundIPAddr s) answers /\
    (fn <> FnRoundRobin -> dcss' = dcss).
Proof.
  intros Hc.
  destruct (session_state dcss session) as [s|] eqn:Hs.
  2:{ destruct fn; unfold call, DNSRebindFromQueryRoundRobin,
        DNSRebindFromQueryFirstThenSecond, DNSRebindFromQueryRandom,
        DNSRebindFromQueryMultiA, dnsRebindFirst in Hc;
      rewrite Hs in Hc; discriminate. }
  exists s. split; [done|].
  destruct fn; unfold call in Hc.
  - unfold DNSRebindFromQueryRoundRobin in Hc. rewrite Hs in Hc.
    cbn [mbind option_bind] in Hc.
    destruct (store_session _ _ _) as [d1|]; [|done].
    cbn [mbind option_bind] in Hc.
    revert Hc. generalize (DNSClientState.LastResponseReboundIPAddr s). intros i.
    assert (forall host : string,
               host = DNSClientState.ResponseIPAddr s \/
               host = DNSClientState.ResponseReboundIPAddr s ->
               Some ([host], d1) = Some (answers, dcss') ->
               (1 <= length answers <= 2)%nat /\
               Forall (fun answer => answer = DNSClientState.ResponseIPAddr s \/
                                     answer = DNSClientState.ResponseReboundIPAddr s)
                      answers /\
               (FnRoundRobin <> FnRoundRobin -> dcss' = dcss)) as Hone.
    { intros host Hhost [= <- <-]. split; [simpl; lia|]. split; [|done].
      by apply Forall_singleton. }
    destruct (Z.eqb_spec i 0); [simpl; apply Hone; auto|].
    destruct (Z.eqb_spec i 1); [simpl; apply Hone; auto|].
    destruct (Z.eqb_spec i 2); [simpl; apply Hone; auto|].
    destruct (Z.ltb_spec i 0); [done|].
    destruct (Z.to_nat i) as [|[|[|k]]] eqn:Hi; [lia..|done].
  - rewrite (first_then_second_call _ _ _ _ Hs) in Hc. simpl in Hc.
    injection Hc as <- <-. split; [simpl; lia|]. split; [|done].
    apply Forall_singleton. destruct (_ <? _); auto.
  - unfold DNSRebindFromQueryRandom in Hc. rewrite Hs in Hc. simpl in Hc.
    destruct intn as [|[|intn]]; simpl in Hc; [| |done]; injection Hc as <- <-;
      (split; [simpl; lia|]); (split; [|done]); apply Forall_singleton; auto.
  - unfold DNSRebindFromQueryMultiA in Hc. rewrite Hs in Hc. simpl in Hc.
    destruct (DNSClientState.FirewalledOnce s); simpl in Hc; injection Hc as <- <-;
      (split; [simpl; lia|]); (split; [|done]);
      repeat (apply Forall_cons; split; [auto|]); done.
  - unfold dnsRebindFirst in Hc. rewrite Hs in Hc. simpl in Hc.
    injection Hc as <- <-. split; [simpl; lia|]. split; [|done].
    apply Forall_singleton. auto.
Qed.

End Strategies.

(** ** Runs of the servers *)

Section Runs.

Context `{External}.

Lemma step_total appConfig dcss e :
  wf dcss -> cursors_ok dcss -> drawn e ->
  exists dcss', step appConfig dcss e = Some dcss' /\ wf dcss' /\ cursors_ok dcss'.
Proof.
  intros Hwf Hok He.
  assert (is_Some (step appConfig dcss e)) as [dcss' Hstep].
  { destruct e as [now remote intn r|host now|duration clock]; simpl in *.
    - destruct (MakeRebindDNSHandler_total appConfig dcss now remote intn r Hwf Hok He)
        as [[d reply] ->]. by eexists.
    - destruct (rootHandler_total dcss host now Hwf) as [[d route] ->]. by eexists.
    - by eexists. }
  exists dcss'. split; [done|].
  apply (run_invariant appConfig dcss [e] dcss'); [|done].
  simpl. by rewrite Hstep.
Qed.

(** X15. The servers do not panic. From the empty store, every run of
    DNS requests, HTTP requests on the catch-all route and expiry sweeps
    goes through: no handler reads a field through the nil pointer of a
    missing session and no strategy indexes its table out of range, as long
    as [rand.Intn(2)] returns 0 or 1. *)
Theorem run_never_panics appConfig es :
  Forall drawn es ->
  is_Some (run appConfig empty_store es).
Proof.
  assert (forall dcss, wf dcss -> cursors_ok dcss -> Forall drawn es ->
                       is_Some (run appConfig dcss es)) as Hrun.
  { induction es as [|e es IH]; intros dcss Hwf Hok Hes; simpl; [by eexists|].
    apply Forall_cons in Hes as [He Hes].
    destruct (step_total appConfig dcss e Hwf Hok He) as (d1 & -> & Hwf1 & Hok1).
    cbn [mbind option_bind]. by apply IH. }
  apply Hrun; [apply wf_empty_store|]. unfold cursors_ok. simpl. constructor.
Qed.

(** X16. In every store the servers reach from the empty one, every
    session id of the map has a state (its pointer is not dangling), and
    the round-robin cursor of the state is 0, 1 or 2. *)
Theorem reachable_sessions_have_state appConfig es dcss session :
  run appConfig empty_store es = Some dcss ->
  is_Some (Sessions dcss !! session) ->
  exists s, session_state dcss session = Some s /\ cursor_ok s.
Proof.
  intros [Hwf Hok]%reachable_invariant [p Hp].
  destruct (Hwf _ _ Hp) as [s Hs]. exists s. split.
  - apply session_state_Some. eauto.
  - by eapply Forall_lookup_1.
Qed.

(** ** The catch-all HTTP route and the store *)

(** What the handler of ["/"] does to the store. *)
Lemma rootHandler_flag dcss host now dcss' route :
  rootHandler dcss host now = Some (dcss', route) ->
  Sessions dcss' = Sessions dcss /\
  (route = DefaultHeaders -> dcss' = dcss) /\
  forall session s,
    session_state dcss session = Some s ->
    session_state dcss' session = Some s \/
    session_state dcss' session = Some (DNSClientState.set_FirewalledOnce true s).
Proof.
  unfold rootHandler.
  destruct (NewDNSQuery host) as [name [err|]].
  { intros [= <- <-]. auto. }
  destruct (Sessions dcss !! DNSQuery.Session name) as [p|] eqn:Hp.
  2:{ intros [= <- <-]. auto. }
  destruct (session_state _ _) as [s0|] eqn:Hs0; [|done]. cbn [mbind option_bind].
  destruct (_ && _).
  2:{ intros [= <- <-]. auto. }
  unfold store_session. rewrite Hp. cbn [mbind option_bind].
  destruct (store_object _ _ _) as [d1|] eqn:H1; [|done].
  cbn [mbind option_bind]. intros [= <- <-].
  apply store_object_Some in H1 as (s1 & Hs1 & ->). simpl.
  split; [done|]. split; [done|].
  intros session s (p0 & Hp0 & Hs)%session_state_Some.
  destruct (decide (p = p0)) as [<-|Hne].
  - right. simplify_eq. by eapply session_state_stored.
  - left. apply session_state_Some. exists p0. simpl. split; [done|].
    by rewrite list_lookup_insert_ne.
Qed.

(** X17. The handler of ["/"] adds no session and removes none, and of
    the state of a session it changes nothing but the firewall flag, which
    it sets and never clears. When it routes to the default-headers handler
    it leaves the store as it found it. *)
Theorem rootHandler_frame dcss host now dcss' route :
  rootHandler dcss host now = Some (dcss', route) ->
  Sessions dcss' = Sessions dcss /\
  (route = DefaultHeaders -> dcss' = dcss) /\
  forall session s,
    session_state dcss session = Some s ->
    session_state dcss' session = Some s \/
    session_state dcss' session = Some (DNSClientState.set_FirewalledOnce true s).
Proof. apply rootHandler_flag. Qed.

End Runs.

(** ** What the codec accepts *)

Section Accepted.

Context `{External}.

(** X19. The record of an accepted name. The session id is not empty;
    neither the session id nor the strategy tag contains a dash; the first
    host is the text of the bytes its field decodes to; the second host is
    the text of decoded bytes, or [localhost], or a name that passes the
    domain-name check; the domain is a dot followed by the suffix, which
    has three characters or more, or a dot. *)
Theorem NewDNSQuery_accepted qname name :
  NewDNSQuery qname = (name, None) ->
  DNSQuery.Session name <> "" /\
  dash_free (DNSQuery.Session name) /\
  dash_free (DNSQuery.DNSRebindingStrategy name) /\
  (exists elem0, DNSQuery.ResponseIPAddr name = net.String elem0) /\
  ((exists elem1, DNSQuery.ResponseReboundIPAddr name = net.String elem1) \/
   DNSQuery.ResponseReboundIPAddr name = "localhost" \/
   IsDomainName (DNSQuery.ResponseReboundIPAddr name) = true) /\
  exists domainSuffix,
    DNSQuery.Domain name = "." +:+ domainSuffix /\
    ((3 <= String.length domainSuffix)%nat \/
     strings.ContainsAny domainSuffix "." = true).
Proof.
  unfold NewDNSQuery. intros Hq.
  destruct (negb _); [done|].
  destruct (strings.Split _ "-e.") as [|split1_0 [|domainSuffix [|? ?]]]; try done.
  destruct (_ && _) eqn:Hsuffix; [done|].
  pose proof (Split_char_pieces "-" split1_0) as Hpieces.
  destruct (strings.Split split1_0 "-") as [|split2_0 [|split2_1 [|split2_2 [|? ?]]]];
    try done.
  apply Forall_cons in Hpieces as [_ Hpieces].
  apply Forall_cons in Hpieces as [Hsession Hpieces].
  apply Forall_cons in Hpieces as [Hstrategy _].
  destruct (strings.Cut split2_0 ".") as [[eleme0 eleme1] found].
  destruct (negb found); [done|].
  destruct (hex.DecodeString eleme0) as [elem0|]; [|done].
  destruct (hex.DecodeString eleme1) as [elem1|];
    [|destruct (String.eqb_spec eleme1 "localhost") as [->|];
      [|destruct (IsDomainName _) eqn:Hd; [|done]]];
    (cbn [DNSQuery.Session] in Hq;
     destruct (Nat.eqb_spec (String.length split2_1) 0) as [|Hlen]; [done|];
     injection Hq as <-; cbn;
     split; [intros ->; by apply Hlen|];
     split; [done|]; split; [done|]; split; [eauto|];
     split; [first [by left; eauto | by right; left | by right; right]|];
     exists domainSuffix; split; [done|];
     apply andb_false_iff in Hsuffix as [Hshort|Hdot];
     [left; apply Nat.ltb_ge in Hshort; lia|right; by apply negb_false_iff]).
Qed.

End Accepted.

(** ** Decimal text *)

Lemma decimal_of_uint_acc (d : Decimal.uint) (p : positive) :
  reference.decimal (Z.pos p) (NilEmpty.string_of_uint d)
  = Z.pos (Pos.of_uint_acc d p).
Proof.
  revert p. induction d as [|d IH|d IH|d IH|d IH|d IH|d IH|d IH|d IH|d IH|d IH];
    intros p; [reflexivity|..];
    cbn [NilEmpty.string_of_uint reference.decimal Pos.of_uint_acc];
    rewrite <- IH; f_equal; cbn; lia.
Qed.

Lemma decimal_of_uint (d : Decimal.uint) :
  reference.decimal 0 (NilEmpty.string_of_uint d) = Z.of_N (Pos.of_uint d).
Proof.
  induction d as [|d IH|d IH|d IH|d IH|d IH|d IH|d IH|d IH|d IH|d IH];
    [reflexivity|exact IH|..];
    cbn [NilEmpty.string_of_uint reference.decimal Pos.of_uint];
    cbn [Z.of_N]; rewrite <- decimal_of_uint_acc; reflexivity.
Qed.

Lemma digits_of_uint (d : Decimal.uint) :
  reference.all_chars reference.is_digit (NilEmpty.string_of_uint d) = true.
Proof.
  induction d as [|d IH|d IH|d IH|d IH|d IH|d IH|d IH|d IH|d IH|d IH];
    [reflexivity|..]; cbn [NilEmpty.string_of_uint reference.all_chars];
    rewrite IH; reflexivity.
Qed.

Lemma itoa_string_of_uint (n : Z) :
  exists d, d <> Decimal.Nil /\
            net.itoa n = NilEmpty.string_of_uint d /\
            Z.of_N (Pos.of_uint d) = Z.of_N (Z.to_N n).
Proof.
  unfold net.itoa. exists (N.to_uint (Z.to_N n)).
  assert (N.to_uint (Z.to_N n) <> Decimal.Nil) as Hnil.
  { destruct (Z.to_N n) as [|p]; [done|]. apply DecimalPos.Unsigned.to_uint_nonnil. }
  split; [done|]. split.
  - by destruct (N.to_uint (Z.to_N n)).
  - change (Pos.of_uint (N.to_uint (Z.to_N n))) with (N.of_uint (N.to_uint (Z.to_N n))).
    by rewrite DecimalN.Unsigned.of_to.
Qed.

Lemma digit_not_sign (c : ascii) :
  reference.is_digit c = true ->
  Ascii.eqb c "-" = false /\ Ascii.eqb c "+" = false /\ Ascii.eqb c ":" = false.
Proof.
  intros Hc. repeat split.
  - by destruct (Ascii.eqb_spec c "-") as [->|].
  - by destruct (Ascii.eqb_spec c "+") as [->|].
  - by destruct (Ascii.eqb_spec c ":") as [->|].
Qed.

Lemma digits_colon_free (s : string) :
  reference.all_chars reference.is_digit s = true -> colon_free s.
Proof.
  unfold colon_free. induction s as [|c s IH]; simpl; [done|].
  intros [Hc Hs]%andb_true_iff.
  destruct (digit_not_sign c Hc) as (_ & _ & ->). simpl. by apply IH.
Qed.

(** [Atoi] reads back what [Itoa] prints. *)
Lemma Atoi_Itoa (n : Z) :
  - 2 ^ 63 <= n <= 2 ^ 63 - 1 -> strconv.Atoi (strconv.Itoa n) = Some n.
Proof.
  intros Hn. unfold strconv.Itoa.
  assert (forall m, 0 <= m ->
            (String.length (net.itoa m) =? 0)%nat
            || negb (reference.all_chars reference.is_digit (net.itoa m)) = false /\
            reference.decimal 0 (net.itoa m) = m /\
            exists c t, net.itoa m = String c t /\ reference.is_digit c = true)
    as Hitoa.
  { intros m Hm. destruct (itoa_string_of_uint m) as (d & Hnil & -> & Hval).
    rewrite digits_of_uint, decimal_of_uint, Hval, Z2N.id by done.
    pose proof (digits_of_uint d) as Hd.
    destruct (NilEmpty.string_of_uint d) as [|c t] eqn:Hs.
    { by destruct d. }
    simpl in Hd. apply andb_true_iff in Hd as [Hc _].
    split; [done|]. split; [done|]. eauto. }
  destruct (Z.ltb_spec n 0) as [Hneg|Hpos].
  - destruct (Hitoa (- n)) as (Hok & Hval & _); [lia|].
    change ("-" +:+ net.itoa (- n)) with (String "-" (net.itoa (- n))).
    unfold strconv.Atoi. change (Ascii.eqb "-" "-") with true. cbv beta iota zeta.
    rewrite Hok, Hval.
    destruct (Z.ltb_spec (- - n) (- 2 ^ 63)); [lia|].
    destruct (Z.ltb_spec (2 ^ 63 - 1) (- - n)); [lia|].
    simpl. f_equal. lia.
  - destruct (Hitoa n Hpos) as (Hok & Hval & c & t & Hs & Hc).
    unfold strconv.Atoi. rewrite Hs.
    destruct (digit_not_sign c Hc) as (-> & -> & _). rewrite <- Hs.
    cbv beta iota zeta. rewrite Hok, Hval.
    destruct (Z.ltb_spec n (- 2 ^ 63)); [lia|].
    destruct (Z.ltb_spec (2 ^ 63 - 1) n); [lia|]. reflexivity.
Qed.

Lemma Itoa_port (n : Z) :
  strings.Split (":" +:+ strconv.Itoa n) ":" !! 1%nat = Some (strconv.Itoa n).
Proof.
  change (":" +:+ strconv.Itoa n) with ("" +:+ String ":" (strconv.Itoa n)).
  rewrite (Split_char_app ":" "" _ eq_refl).
  assert (colon_free (strconv.Itoa n)) as Hc.
  { unfold strconv.Itoa.
    assert (forall m, colon_free (net.itoa m)) as Hi.
    { intros m. destruct (itoa_string_of_uint m) as (d & _ & -> & _).
      apply digits_colon_free, digits_of_uint. }
    destruct (n <? 0); [|apply Hi]. unfold colon_free. cbn. apply Hi. }
  by rewrite (Split_char_none ":" _ Hc).
Qed.

(** ** The store of HTTP servers and the handler of [/servers] *)

Lemma found_static_false (s : http.Server) (servers : list (option http.Server)) :
  found_static s servers = false ->
  forall v, In (Some v) servers -> http.Addr v <> http.Addr s.
Proof.
  unfold found_static. intros Hf v Hv Heq.
  assert (existsb (fun v => match v with
                            | Some v => String.eqb (http.Addr v) (http.Addr s)
                            | None => false
                            end) servers = true) as Ht; [|congruence].
  apply existsb_exists. exists (Some v). split; [done|]. by apply String.eqb_eq.
Qed.

Lemma server_ports_servers_on (ports : list (option Z)) :
  server_ports (servers_on ports) = Some (port_infos (omap id ports)).
Proof.
  unfold servers_on, port_infos. induction ports as [|[port|] ports IH].
  - done.
  - cbn [map option_map server_ports].
    change (http.Addr (NewHTTPServer port)) with (":" +:+ strconv.Itoa port).
    rewrite Itoa_port. cbn [mbind option_bind].
    rewrite IH. reflexivity.
  - exact IH.
Qed.

Section ServersProperties.

Variable Listen : string -> bool.
Variable json_Unmarshal : string -> option httpServerInfo.t.

(** What a dynamic start does to the store. *)
Lemma StartHTTPServer_dynamic s hss tproxy slot others :
  HTTPServerStoreHandler.DynamicServers hss = slot :: others ->
  StartHTTPServer Listen s hss true tproxy =
  Some (if Listen (http.Addr s)
        then (if found_static s (HTTPServerStoreHandler.StaticServers hss)
              then hss else set_DynamicServers (Some s :: others) hss,
              false, [Serve s])
        else (hss, true, [])).
Proof.
  intros Hd. unfold StartHTTPServer, set_DynamicServers.
  destruct (Listen (http.Addr s)); [|done]. simpl.
  destruct (found_static s _); [done|]. simpl. by rewrite Hd.
Qed.

(** The accepted PUT request, step by step. *)
Lemma ServeHTTP_put hss Body serverInfo port slot others :
  accepted_put json_Unmarshal hss Body serverInfo port ->
  HTTPServerStoreHandler.DynamicServers hss = slot :: others ->
  HTTPServerStoreHandler_ServeHTTP Listen json_Unmarshal hss "PUT" Body =
  Some (if Listen (http.Addr (NewHTTPServer port))
        then (set_DynamicServers
                ((if found_static (NewHTTPServer port)
                       (HTTPServerStoreHandler.StaticServers hss)
                  then None else Some (NewHTTPServer port)) :: others) hss,
              {| Status := 200; Payload := OfServerInfo serverInfo |},
              closes slot ++ [Serve (NewHTTPServer port)])
        else (set_DynamicServers (None :: others) hss, bad_request, closes slot)).
Proof.
  intros (Hallow & Hlen & Hjson & Hport) Hd.
  destruct hss as [allow dynamic static]. simpl in Hallow, Hd. subst allow dynamic.
  unfold HTTPServerStoreHandler_ServeHTTP.
  change (String.eqb "PUT" "GET") with false.
  change (String.eqb "PUT" "PUT") with true. cbv iota.
  cbn [HTTPServerStoreHandler.AllowDynamicHTTPServers
       HTTPServerStoreHandler.DynamicServers HTTPServerStoreHandler.StaticServers].
  rewrite Hjson, Hport. simpl negb. cbv iota.
  destruct (Nat.ltb_spec 5000 (String.length Body)); [lia|].
  cbn [lookup list_lookup mbind option_bind].
  destruct slot as [server|]; cbn [list_insert insert].
  - erewrite StartHTTPServer_dynamic by reflexivity.
    unfold set_DynamicServers, bad_request, closes, StopHTTPServer. simpl.
    destruct (Listen _); [|done].
    by destruct (found_static _ _).
  - erewrite StartHTTPServer_dynamic by reflexivity.
    unfold set_DynamicServers, bad_request, closes. simpl.
    destruct (Listen _); [|done].
    by destruct (found_static _ _).
Qed.

(** X20. A request of [/servers] that is neither a GET nor an accepted
    PUT (dynamic servers are not allowed, the body is longer than 5000
    bytes, the body is not JSON for a server, or its port is not a decimal
    number) is answered with status 400 and the JSON of the empty server
    information; the store is left as it is and no server is stopped or
    started. *)
Theorem servers_rejected hss Method Body :
  Method <> "GET" ->
  (Method = "PUT" ->
   forall serverInfo port, ~ accepted_put json_Unmarshal hss Body serverInfo port) ->
  HTTPServerStoreHandler_ServeHTTP Listen json_Unmarshal hss Method Body
  = Some (hss, bad_request, []).
Proof.
  intros Hget Hput. unfold HTTPServerStoreHandler_ServeHTTP, bad_request.
  destruct (String.eqb_spec Method "GET"); [done|].
  destruct (String.eqb_spec Method "PUT") as [Hm|]; [|done].
  specialize (Hput Hm). unfold accepted_put in Hput.
  destruct (HTTPServerStoreHandler.AllowDynamicHTTPServers hss); [|done]. simpl.
  destruct (Nat.ltb_spec 5000 (String.length Body)); [done|].
  destruct (json_Unmarshal Body) as [serverInfo|]; [|done].
  destruct (strconv.Atoi _) as [port|] eqn:Hport; [|done].
  exfalso. apply (Hput serverInfo port). repeat split; [lia|done].
Qed.

(** X21. An accepted PUT request for a port on which the system grants
    the listener, and on whose address no static server listens, replaces
    the dynamic server: the server of slot 0 is closed if there is one, the
    new server is started and stored in slot 0, and the reply has status
    200 and echoes the server information of the request. The other slots
    and the static servers stay. *)
Theorem servers_put_replaces hss Body serverInfo port slot others :
  accepted_put json_Unmarshal hss Body serverInfo port ->
  HTTPServerStoreHandler.DynamicServers hss = slot :: others ->
  Listen (http.Addr (NewHTTPServer port)) = true ->
  found_static (NewHTTPServer port) (HTTPServerStoreHandler.StaticServers hss) = false ->
  HTTPServerStoreHandler_ServeHTTP Listen json_Unmarshal hss "PUT" Body
  = Some (set_DynamicServers (Some (NewHTTPServer port) :: others) hss,
          {| Status := 200; Payload := OfServerInfo serverInfo |},
          closes slot ++ [Serve (NewHTTPServer port)]).
Proof.
  intros Hput Hd Hl Hf. by rewrite (ServeHTTP_put _ _ _ _ _ _ Hput Hd), Hl, Hf.
Qed.

(** X22. An accepted PUT request whose listener the system refuses is
    answered with status 400, and it is not undone: the dynamic server
    that was running has been closed and slot 0 is left empty. *)
Theorem servers_put_listen_fails hss Body serverInfo port slot others :
  accepted_put json_Unmarshal hss Body serverInfo port ->
  HTTPServerStoreHandler.DynamicServers hss = slot :: others ->
  Listen (http.Addr (NewHTTPServer port)) = false ->
  HTTPServerStoreHandler_ServeHTTP Listen json_Unmarshal hss "PUT" Body
  = Some (set_DynamicServers (None :: others) hss, bad_request, closes slot).
Proof.
  intros Hput Hd Hl. by rewrite (ServeHTTP_put _ _ _ _ _ _ Hput Hd), Hl.
Qed.

(** X23. An accepted PUT request for the address of a static server, when
    the system grants the listener all the same, is answered with status
    200 although no server is stored: the server of slot 0 is closed, the
    new server is started, and slot 0 is left empty. *)
Theorem servers_put_static_address hss Body serverInfo port slot others :
  accepted_put json_Unmarshal hss Body serverInfo port ->
  HTTPServerStoreHandler.DynamicServers hss = slot :: others ->
  Listen (http.Addr (NewHTTPServer port)) = true ->
  found_static (NewHTTPServer port) (HTTPServerStoreHandler.StaticServers hss) = true ->
  HTTPServerStoreHandler_ServeHTTP Listen json_Unmarshal hss "PUT" Body
  = Some (set_DynamicServers (None :: others) hss,
          {| Status := 200; Payload := OfServerInfo serverInfo |},
          closes slot ++ [Serve (NewHTTPServer port)]).
Proof.
  intros Hput Hd Hl Hf. by rewrite (ServeHTTP_put _ _ _ _ _ _ Hput Hd), Hl, Hf.
Qed.

(** X24. What every request of [/servers] keeps. The handler changes
    neither the flag nor the static servers nor the number of dynamic
    slots, and of the dynamic slots it changes slot 0 only: a store with
    one dynamic slot never holds more than one dynamic server. If no
    dynamic server had the address of a static server before the request,
    none has after it. *)
Theorem servers_invariant hss Method Body hss' response effects :
  HTTPServerStoreHandler_ServeHTTP Listen json_Unmarshal hss Method Body
  = Some (hss', response, effects) ->
  HTTPServerStoreHandler.AllowDynamicHTTPServers hss'
  = HTTPServerStoreHandler.AllowDynamicHTTPServers hss /\
  HTTPServerStoreHandler.StaticServers hss' = HTTPServerStoreHandler.StaticServers hss /\
  length (HTTPServerStoreHandler.DynamicServers hss')
  = length (HTTPServerStoreHandler.DynamicServers hss) /\
  drop 1 (HTTPServerStoreHandler.DynamicServers hss')
  = drop 1 (HTTPServerStoreHandler.DynamicServers hss) /\
  (compartments_disjoint hss -> compartments_disjoint hss').
Proof.
  intros Hserve.
  assert (hss' = hss \/
          exists serverInfo port slot others,
            accepted_put json_Unmarshal hss Body serverInfo port /\
            HTTPServerStoreHandler.DynamicServers hss = slot :: others /\
            Method = "PUT") as [->|(serverInfo & port & slot & others & Hput & Hd & ->)].
  { revert Hserve. unfold HTTPServerStoreHandler_ServeHTTP.
    destruct (String.eqb_spec Method "GET").
    { destruct (server_ports (HTTPServerStoreHandler.StaticServers hss));
        cbn [mbind option_bind]; [|done].
      destruct (server_ports (HTTPServerStoreHandler.DynamicServers hss));
        cbn [mbind option_bind]; [|done].
      intros [= <- _ _]. by left. }
    destruct (String.eqb_spec Method "PUT") as [->|]; [|intros [= <- _ _]; by left].
    destruct (HTTPServerStoreHandler.AllowDynamicHTTPServers hss) eqn:Hallow;
      [|intros [= <- _ _]; by left]. simpl.
    destruct (Nat.ltb_spec 5000 (String.length Body)); [intros [= <- _ _]; by left|].
    destruct (json_Unmarshal Body) as [serverInfo|] eqn:Hjson;
      [|intros [= <- _ _]; by left].
    destruct (strconv.Atoi _) as [port|] eqn:Hport; [|intros [= <- _ _]; by left].
    destruct (HTTPServerStoreHandler.DynamicServers hss) as [|slot others] eqn:Hd;
      [done|].
    intros _. right. exists serverInfo, port, slot, others.
    repeat split; [done|lia|done|done]. }
  { done. }
  rewrite (ServeHTTP_put _ _ _ _ _ _ Hput Hd) in Hserve.
  assert (exists slot',
             hss' = set_DynamicServers (slot' :: others) hss /\
             (forall d, slot' = Some d ->
                        forall v, In (Some v) (HTTPServerStoreHandler.StaticServers hss) ->
                                  http.Addr v <> http.Addr d))
    as (slot' & -> & Hslot).
  { destruct (Listen _).
    - destruct (found_static _ _) eqn:Hf; injection Hserve as <- _ _.
      + by exists None.
      + eexists. split; [done|]. intros d [= <-]. by apply found_static_false.
    - injection Hserve as <- _ _. by exists None. }
  simpl. rewrite Hd. split; [done|]. split; [done|]. split; [done|]. split; [done|].
  unfold compartments_disjoint. simpl. rewrite Hd.
  intros Hdis d s [Hin|Hin] Hs.
  - by apply (Hslot d).
  - apply Hdis; [by right|done].
Qed.

(** The GET request on a store of servers that [NewHTTPServer] made. *)
Lemma ServeHTTP_get (allow : bool) (static dynamic : list (option Z)) (Body : string) :
  let hss := {| HTTPServerStoreHandler.AllowDynamicHTTPServers := allow;
                HTTPServerStoreHandler.DynamicServers := servers_on dynamic;
                HTTPServerStoreHandler.StaticServers := servers_on static |} in
  HTTPServerStoreHandler_ServeHTTP Listen json_Unmarshal hss "GET" Body
  = Some (hss,
          {| Status := 200;
             Payload := OfServersConfig
               {| HTTPServersConfig.ServerInformation :=
                    port_infos (omap id static ++ omap id dynamic);
                  HTTPServersConfig.AllowDynamicHTTPServers := allow |} |},
          []).
Proof.
  intros hss. unfold HTTPServerStoreHandler_ServeHTTP.
  change (String.eqb "GET" "GET") with true. cbv iota. unfold hss. simpl.
  rewrite !server_ports_servers_on. cbn [mbind option_bind].
  unfold port_infos. by rewrite map_app.
Qed.

(** X25. A GET request of [/servers] lists the ports of the servers that
    [NewHTTPServer] made, the static servers first and the dynamic ones
    after them, each port in decimal, together with the flag; nil elements
    are skipped, the index into the split address does not panic, the
    store is left as it is and no server is stopped or started. *)
Theorem servers_get (allow : bool) (static dynamic : list (option Z)) (Body : string) :
  let hss := {| HTTPServerStoreHandler.AllowDynamicHTTPServers := allow;
                HTTPServerStoreHandler.DynamicServers := servers_on dynamic;
                HTTPServerStoreHandler.StaticServers := servers_on static |} in
  HTTPServerStoreHandler_ServeHTTP Listen json_Unmarshal hss "GET" Body
  = Some (hss,
          {| Status := 200;
             Payload := OfServersConfig
               {| HTTPServersConfig.ServerInformation :=
                    port_infos (omap id static ++ omap id dynamic);
                  HTTPServersConfig.AllowDynamicHTTPServers := allow |} |},
          []).
Proof. apply ServeHTTP_get. Qed.

(** X26. A port that was put is the port that is listed. After an
    accepted PUT request that replaces the dynamic server of a store with
    one dynamic slot, a GET request lists the ports of the static servers
    and then the new port, printed in decimal whatever the spelling of the
    request was. *)
Theorem servers_put_then_get (allow : bool) (static : list (option Z))
    (slot : option Z) (Body Body' : string) serverInfo port :
  let hss := {| HTTPServerStoreHandler.AllowDynamicHTTPServers := allow;
                HTTPServerStoreHandler.DynamicServers := servers_on [slot];
                HTTPServerStoreHandler.StaticServers := servers_on static |} in
  accepted_put json_Unmarshal hss Body serverInfo port ->
  Listen (http.Addr (NewHTTPServer port)) = true ->
  found_static (NewHTTPServer port) (servers_on static) = false ->
  exists hss' effects,
    HTTPServerStoreHandler_ServeHTTP Listen json_Unmarshal hss "PUT" Body
    = Some (hss', {| Status := 200; Payload := OfServerInfo serverInfo |}, effects) /\
    HTTPServerStoreHandler_ServeHTTP Listen json_Unmarshal hss' "GET" Body'
    = Some (hss',
            {| Status := 200;
               Payload := OfServersConfig
                 {| HTTPServersConfig.ServerInformation :=
                      port_infos (omap id static ++ [port]);
                    HTTPServersConfig.AllowDynamicHTTPServers := allow |} |},
            []).
Proof.
  intros hss Hput Hl Hf.
  rewrite (ServeHTTP_put hss Body serverInfo port (option_map NewHTTPServer slot) []
             Hput eq_refl).
  rewrite Hl. simpl HTTPServerStoreHandler.StaticServers. rewrite Hf.
  eexists _, _. split; [reflexivity|].
  apply (ServeHTTP_get allow static [Some port] Body').
Qed.

End ServersProperties.

(** ** The program of a session *)

Section Program.

Context `{External}.

Lemma step_same_program appConfig session dcss e dcss' s :
  step appConfig dcss e = Some dcss' ->
  is_Some (Sessions dcss' !! session) ->
  session_state dcss session = Some s ->
  exists s', session_state dcss' session = Some s' /\ same_program s s'.
Proof.
  intros Hstep [p' Hp'] Hs.
  destruct e as [now remote intn r|host now|duration clock]; simpl in Hstep.
  - destruct (MakeRebindDNSHandler _ _ _ _ _ _) as [[d reply]|] eqn:Hh; [|done].
    injection Hstep as <-.
    destruct (MakeRebindDNSHandler_stamped _ _ _ _ _ _ _ _ _ _ Hh Hs)
      as (s' & Hs' & Hst).
    exists s'. split; [done|]. unfold stamped, same_program in *. tauto.
  - destruct (rootHandler _ _ _) as [[d route]|] eqn:Hh; [|done].
    injection Hstep as <-.
    destruct (rootHandler_flag _ _ _ _ _ Hh) as (_ & _ & Hflag).
    destruct (Hflag _ _ Hs) as [Hs'|Hs']; eexists; (split; [exact Hs'|]);
      by unfold same_program.
  - injection Hstep as <-. exists s. split; [|by unfold same_program].
    apply ExpireOldEntries_lookup in Hp' as [Hp' Hkept].
    apply session_state_Some in Hs as (p & Hp & Hs).
    rewrite Hp in Hp'. injection Hp' as <-.
    apply session_state_Some. exists p. split; [|done].
    by apply ExpireOldEntries_lookup.
Qed.

(** The program of a session through a history. *)
Lemma history_same_program appConfig session dcss es dcss' s :
  history appConfig session dcss es dcss' ->
  session_state dcss session = Some s ->
  exists s', session_state dcss' session = Some s' /\ same_program s s'.
Proof.
  induction 1 as [dcss|dcss e dcss1 es dcss2 Hstep Hin _ IH] in s |- *; intros Hs.
  - exists s. split; [done|]. by unfold same_program.
  - destruct (step_same_program _ _ _ _ _ _ Hstep Hin Hs) as (s1 & Hs1 & Hp1).
    destruct (IH _ Hs1) as (s2 & Hs2 & Hp2). exists s2. split; [done|].
    unfold same_program in *. intuition congruence.
Qed.

(** X27. The program of a session is fixed when the session is created.
    Through every history of DNS requests, HTTP requests on the catch-all
    route and expiry sweeps in which the session stays in the store, its
    first query time, its two hosts and its timeout are the ones it had at
    the start (so a later query that carries the same session id with
    other hosts does not change them). *)
Theorem session_program_fixed appConfig session dcss es dcss' s :
  history appConfig session dcss es dcss' ->
  session_state dcss session = Some s ->
  exists s', session_state dcss' session = Some s' /\ same_program s s'.
Proof. apply history_same_program. Qed.

(** X18. Once the handler of ["/"] has routed a request to the hijack
    handler, it routes every later request with the same [Host] header
    there too: a request right after the first leaves the store as it is,
    and so does the routing after every history of DNS requests, HTTP
    requests and sweeps in which the session stays in the store. While the
    session lives, the default-headers handler, and so the file server, is
    out of reach for this host name. *)
Theorem rootHandler_trigger_persists appConfig dcss host now dcss1 name now' :
  rootHandler dcss host now = Some (dcss1, IPTables) ->
  NewDNSQuery host = (name, None) ->
  now <= now' ->
  rootHandler dcss1 host now' = Some (dcss1, IPTables) /\
  forall es dcss2,
    history appConfig (DNSQuery.Session name) dcss1 es dcss2 ->
    exists dcss3, rootHandler dcss2 host now' = Some (dcss3, IPTables).
Proof.
  intros Hroot Hname Hnow. unfold rootHandler in Hroot. rewrite Hname in Hroot.
  destruct (Sessions dcss !! DNSQuery.Session name) as [p|] eqn:Hp; [|done].
  destruct (session_state dcss _) as [s0|] eqn:Hs0; [|done].
  cbn [mbind option_bind] in Hroot.
  destruct (String.eqb _ "ma") eqn:Hma; [|done]. simpl in Hroot.
  destruct (_ <? _) eqn:Hlt; [|done].
  apply session_state_Some in Hs0 as (p' & Hp' & Hs0). simplify_eq.
  rewrite (store_session_lookup _ _ _ _ _ Hp Hs0) in Hroot.
  cbn [mbind option_bind] in Hroot. injection Hroot as <-.
  apply Sub_exceeds in Hlt.
  assert (session_state
            {| Sessions := Sessions dcss;
               Objects := <[p := DNSClientState.set_FirewalledOnce true s0]>
                            (Objects dcss) |} (DNSQuery.Session name)
          = Some (DNSClientState.set_FirewalledOnce true s0)) as Hs1
    by (by eapply session_state_stored).
  assert (forall d s,
             session_state d (DNSQuery.Session name) = Some s ->
             DNSClientState.FirstQueryTime s = DNSClientState.FirstQueryTime s0 ->
             exists p1,
               Sessions d !! DNSQuery.Session name = Some p1 /\
               rootHandler d host now'
               = Some ({| Sessions := Sessions d;
                          Objects := <[p1 := DNSClientState.set_FirewalledOnce true s]>
                                       (Objects d) |}, IPTables)) as Hagain.
  { intros d s Hs Hfirst. pose proof Hs as (p1 & Hp1 & Ho1)%session_state_Some.
    exists p1. split; [done|].
    unfold rootHandler. rewrite Hname, Hp1, Hs. cbn [mbind option_bind].
    rewrite Hma, Hfirst. simpl.
    assert ((time.mul time.Second 3
             <? time.Sub now' (DNSClientState.FirstQueryTime s0)) = true) as ->
      by (apply Sub_exceeds; lia).
    by rewrite (store_session_lookup _ _ _ _ _ Hp1 Ho1). }
  split.
  - destruct (Hagain _ _ Hs1 eq_refl) as (p1 & Hp1 & ->).
    simpl in Hp1. simplify_eq. simpl.
    by rewrite list_insert_insert_eq.
  - intros es dcss2 Hhistory.
    destruct (history_same_program _ _ _ _ _ _ Hhistory Hs1) as (s2 & Hs2 & Hfirst & _).
    destruct (Hagain _ _ Hs2 Hfirst) as (p1 & _ & ->). by eexists.
Qed.

End Program.

(** ** Names of the documented format *)

Lemma append_nil_r (s : string) : s +:+ "" = s.
Proof.
  induction s as [|c s IH]; [done|].
  change (String c (s +:+ "") = String c s). by f_equal.
Qed.

Lemma plain_hexdigit (d : Z) : 0 <= d < 16 -> plain (hex.hexdigit d) = true.
Proof.
  intros Hd.
  assert (d = 0 \/ d = 1 \/ d = 2 \/ d = 3 \/ d = 4 \/ d = 5 \/ d = 6 \/ d = 7 \/
          d = 8 \/ d = 9 \/ d = 10 \/ d = 11 \/ d = 12 \/ d = 13 \/ d = 14 \/ d = 15)
    as Hcases by lia.
  repeat (destruct Hcases as [-> | Hcases]; [reflexivity|]). by subst.
Qed.

Lemma plain_EncodeToString (b : list Z) :
  Forall is_byte b -> reference.all_chars plain (hex.EncodeToString b) = true.
Proof.
  induction 1 as [|x b Hx _ IH]; [done|].
  cbn [hex.EncodeToString reference.all_chars]. unfold is_byte in Hx.
  rewrite !plain_hexdigit, IH; [done| |].
  - apply Z.mod_pos_bound. lia.
  - split; [apply Z.div_pos; lia|apply Z.div_lt_upper_bound; lia].
Qed.

Lemma plain_free (s : string) :
  reference.all_chars plain s = true ->
  dash_free s /\ strings.ContainsAny s "." = false.
Proof.
  unfold dash_free. induction s as [|c s IH]; simpl; [done|].
  intros [Hc Hs]%andb_true_iff. destruct (IH Hs) as [-> ->].
  unfold plain in Hc. apply andb_true_iff in Hc as [Hd Hp].
  apply negb_true_iff in Hd, Hp. by rewrite Hd, Hp.
Qed.

Lemma dash_free_app (a b : string) :
  dash_free a -> dash_free b -> dash_free (a +:+ b).
Proof.
  unfold dash_free. induction a as [|c a IH]; simpl; [done|].
  intros [Hc Ha]%orb_false_iff Hb. by rewrite Hc, IH.
Qed.

Lemma dash_free_head (c : ascii) (s : string) :
  dash_free (String c s) -> Ascii.eqb c "-" = false /\ dash_free s.
Proof.
  unfold dash_free. simpl. intros [Hc Hs]%orb_false_iff.
  by apply orb_false_iff in Hc as [-> _].
Qed.

(** No doubled dash to replace in a text without dashes, nor at a dash
    that a text without dashes follows. *)
Lemma replace_dash_free (p r : string) :
  dash_free p ->
  strings.replace_from "--" "_" 0 (p +:+ r) = p +:+ strings.replace_from "--" "_" 0 r.
Proof.
  induction p as [|c p IH]; [done|].
  intros [Hc Hp]%dash_free_head.
  change (String c p +:+ r) with (String c (p +:+ r)).
  cbn [strings.replace_from strings.HasPrefix].
  rewrite Hc. cbn [andb]. by rewrite IH.
Qed.

Lemma replace_dash (p r : string) :
  p <> "" -> dash_free p ->
  strings.replace_from "--" "_" 0 (String "-" (p +:+ r))
  = String "-" (p +:+ strings.replace_from "--" "_" 0 r).
Proof.
  intros Hne Hp. destruct p as [|c p]; [done|].
  apply dash_free_head in Hp as [Hc Hp].
  change (String "-" (String c p +:+ r)) with (String "-" (String c (p +:+ r))).
  change (String c p +:+ strings.replace_from "--" "_" 0 r)
    with (String c (p +:+ strings.replace_from "--" "_" 0 r)).
  cbn [strings.replace_from strings.HasPrefix]. rewrite Hc.
  change (Ascii.eqb "-" "-") with true. cbn [andb].
  do 2 f_equal. by apply replace_dash_free.
Qed.

Lemma replace_char (c : ascii) (t : string) :
  Ascii.eqb c "-" = false ->
  strings.replace_from "--" "_" 0 (String c t)
  = String c (strings.replace_from "--" "_" 0 t).
Proof. intros Hc. cbn [strings.replace_from strings.HasPrefix]. by rewrite Hc. Qed.

Lemma replace_end (p : string) :
  p <> "" -> dash_free p ->
  strings.replace_from "--" "_" 0 (String "-" p) = String "-" p.
Proof.
  intros Hne Hp. rewrite <- (append_nil_r p) at 1.
  rewrite (replace_dash p "" Hne Hp). cbn [strings.replace_from].
  by rewrite append_nil_r.
Qed.

(** No end tag begins in a text without dashes, nor at a dash that a
    label and a dash follow. *)
Lemma split_tag_prefix (p r piece : string) (l : list string) :
  dash_free p ->
  strings.split_from "-e." 0 r = piece :: l ->
  strings.split_from "-e." 0 (p +:+ r) = (p +:+ piece) :: l.
Proof.
  intros Hp Hr. induction p as [|c p IH]; [done|].
  apply dash_free_head in Hp as [Hc Hp].
  change (String c p +:+ r) with (String c (p +:+ r)).
  change (String c p +:+ piece) with (String c (p +:+ piece)).
  cbn [strings.split_from strings.HasPrefix]. rewrite Hc. cbn [andb].
  by rewrite (IH Hp).
Qed.

Lemma split_tag_dash (S r piece : string) (l : list string) :
  label S ->
  strings.split_from "-e." 0 (String "-" r) = piece :: l ->
  strings.split_from "-e." 0 (String "-" (S +:+ String "-" r))
  = String "-" (S +:+ piece) :: l.
Proof.
  intros [Hne Hplain] Hr.
  destruct (plain_free S Hplain) as [Hdash _].
  assert (strings.HasPrefix (String "-" (S +:+ String "-" r)) "-e." = false) as Htag.
  { destruct S as [|c [|c' S']]; [done| |].
    - change (String c "" +:+ String "-" r) with (String c (String "-" r)).
      cbn [strings.HasPrefix]. change (Ascii.eqb "-" ".") with false.
      cbn [andb]. by rewrite !andb_false_r.
    - change (String c (String c' S') +:+ String "-" r)
        with (String c (String c' (S' +:+ String "-" r))).
      cbn [strings.HasPrefix].
      simpl in Hplain. apply andb_true_iff in Hplain as [_ Hplain].
      apply andb_true_iff in Hplain as [Hc' _]. unfold plain in Hc'.
      apply andb_true_iff in Hc' as [_ Hdot]. apply negb_true_iff in Hdot.
      rewrite Hdot. cbn [andb]. by rewrite !andb_false_r. }
  change (strings.split_from "-e." 0 (String "-" (S +:+ String "-" r)))
    with (if strings.HasPrefix (String "-" (S +:+ String "-" r)) "-e."
          then EmptyString :: strings.split_from "-e." 2 (S +:+ String "-" r)
          else match strings.split_from "-e." 0 (S +:+ String "-" r) with
               | piece :: rest => String "-" piece :: rest
               | [] => [String "-" EmptyString]
               end).
  rewrite Htag. by rewrite (split_tag_prefix S _ piece l Hdash Hr).
Qed.

Lemma split_tag_none (s : string) :
  dash_free s -> strings.split_from "-e." 0 s = [s].
Proof.
  induction s as [|c s IH]; [done|].
  intros [Hc Hs]%dash_free_head.
  cbn [strings.split_from strings.HasPrefix]. rewrite Hc. cbn [andb].
  by rewrite (IH Hs).
Qed.

Lemma Cut_dot (p r : string) :
  strings.ContainsAny p "." = false ->
  strings.Cut (p +:+ String "." r) "." = (p, r, true).
Proof.
  induction p as [|c p IH]; simpl; [done|].
  intros [Hc Hp]%orb_false_iff. apply orb_false_iff in Hc as [Hc _].
  rewrite Hc. simpl. by rewrite (IH Hp).
Qed.

Section WellFormed.

Context `{External}.

(** X28. The codec reads back a name of the documented format. For two
    hosts given by their bytes, a session id and a strategy tag that are
    labels, and a domain without a dash that has three characters or more,
    or a dot, [NewDNSQuery] accepts the name
    [s-<hex1>.<hex2>-<session>-<method>-e.<domain>] and returns the text of
    the two hosts, the session id, the tag, and the domain after a dot. *)
Theorem NewDNSQuery_encoded_name host1 host2 session method domain :
  Forall is_byte host1 ->
  Forall is_byte host2 ->
  label session ->
  label method ->
  dash_free domain ->
  (3 <= String.length domain)%nat \/ strings.ContainsAny domain "." = true ->
  NewDNSQuery (encoded_name host1 host2 session method domain)
  = (DNSQuery.mk (net.String host1) (net.String host2) session method
       ("." +:+ domain), None).
Proof.
  intros Hb1 Hb2 Hsession Hmethod Hdomain Hsuffix.
  destruct (plain_free _ (plain_EncodeToString host1 Hb1)) as [Hd1 Hdot1].
  destruct (plain_free _ (plain_EncodeToString host2 Hb2)) as [Hd2 _].
  destruct (plain_free _ (proj2 Hsession)) as [Hds _].
  destruct (plain_free _ (proj2 Hmethod)) as [Hdm _].
  set (hosts := hex.EncodeToString host1 +:+ "." +:+ hex.EncodeToString host2).
  assert (dash_free hosts) as Hdh.
  { apply dash_free_app; [done|]. by apply (dash_free_app "."). }
  assert (hosts <> "") as Hnh.
  { unfold hosts. by destruct (hex.EncodeToString host1). }
  set (fields := hosts +:+ String "-" (session +:+ String "-" method)).
  assert (encoded_name host1 host2 session method domain
          = String "s" (String "-"
              (hosts +:+ String "-" (session +:+ String "-"
                 (method +:+ String "-" (String "e" (String "." domain)))))))
    as -> by reflexivity.
  assert (strings.Replace
            (String "s" (String "-"
               (hosts +:+ String "-" (session +:+ String "-"
                  (method +:+ String "-" (String "e" (String "." domain)))))))
            "--" "_"
          = String "s" (String "-"
              (hosts +:+ String "-" (session +:+ String "-"
                 (method +:+ String "-" (String "e" (String "." domain)))))))
    as Hreplace.
  { unfold strings.Replace. rewrite (replace_char "s" _ eq_refl).
    rewrite (replace_dash hosts _ Hnh Hdh).
    rewrite (replace_dash session _ (proj1 Hsession) Hds).
    rewrite (replace_dash method _ (proj1 Hmethod) Hdm).
    rewrite (replace_end (String "e" (String "." domain))); [done|done|].
    by apply (dash_free_app "e."). }
  unfold NewDNSQuery. rewrite Hreplace.
  change (strings.HasPrefix (String "s" (String "-" ?t)) "s-") with true.
  cbn [negb]. cbv iota.
  change (strings.TrimPrefix
            (String "s" (String "-"
               (hosts +:+ String "-" (session +:+ String "-"
                  (method +:+ String "-" (String "e" (String "." domain)))))))
            "s-")
    with (hosts +:+ String "-" (session +:+ String "-"
            (method +:+ String "-" (String "e" (String "." domain))))).
  assert (strings.Split
            (hosts +:+ String "-" (session +:+ String "-"
               (method +:+ String "-" (String "e" (String "." domain)))))
            "-e."
          = [fields; domain]) as ->.
  { unfold strings.Split, fields.
    apply split_tag_prefix; [done|].
    assert (strings.split_from "-e." 0 (String "-" (String "e" (String "." domain)))
            = "" :: [domain]) as Htag.
    { cbn [strings.split_from strings.HasPrefix String.length Nat.sub].
      change (Ascii.eqb "-" "-") with true. change (Ascii.eqb "e" "e") with true.
      change (Ascii.eqb "." ".") with true. cbn [andb].
      by rewrite (split_tag_none domain Hdomain). }
    assert (strings.split_from "-e." 0
              (String "-" (method +:+ String "-" (String "e" (String "." domain))))
            = String "-" method :: [domain]) as Hmethod_tag.
    { rewrite (split_tag_dash method _ "" [domain] Hmethod Htag).
      by rewrite append_nil_r. }
    apply (split_tag_dash session _ _ _ Hsession Hmethod_tag). }
  assert (((String.length domain <? 3)%nat && negb (strings.ContainsAny domain "."))
          = false) as ->.
  { destruct Hsuffix as [Hlen| ->]; [|apply andb_false_r].
    apply andb_false_iff. left. apply Nat.ltb_ge. lia. }
  unfold fields.
  rewrite (Split_char_app "-" hosts _ Hdh), (Split_char_app "-" session _ Hds),
    (Split_char_none "-" method Hdm).
  change (strings.Cut hosts ".")
    with (strings.Cut (hex.EncodeToString host1
                         +:+ String "." (hex.EncodeToString host2)) ".").
  rewrite (Cut_dot _ _ Hdot1). cbn [negb]. cbv iota.
  rewrite !DecodeString_EncodeToString by done.
  cbn [DNSQuery.Session].
  destruct (Nat.eqb_spec (String.length session) 0) as [Hlen|]; [|done].
  destruct Hsession as [Hne _]. by destruct session.
Qed.

End WellFormed.

(** ** The further theorems at concrete inputs *)

Lemma GenerateRandomString_token_witness :
  exists token,
    GenerateRandomString (Some further.entropy) = Some token /\
    String.length token = 40%nat /\
    hex.DecodeString token = Some (take 20 further.entropy).
Proof.
  apply GenerateRandomString_token.
  - unfold further.entropy, is_byte.
    repeat (apply List.Forall_cons; [lia|]). apply List.Forall_nil.
  - vm_compute. lia.
Defined.

Lemma NewDNSQueryFromOrigin_host_witness :
  @NewDNSQueryFromOrigin reference.go
    ("http://" +:+ "s-c0a80001.7f000001-abc-fs-e.a.tld" +:+ ":" +:+ "8080")
  = Some (@NewDNSQuery reference.go "s-c0a80001.7f000001-abc-fs-e.a.tld") /\
  @NewDNSQueryFromOrigin reference.go ("http://" +:+ "s-c0a80001.7f000001-abc-fs-e.a.tld")
  = Some (@NewDNSQuery reference.go "s-c0a80001.7f000001-abc-fs-e.a.tld").
Proof.
  exact (@NewDNSQueryFromOrigin_host reference.go
           "s-c0a80001.7f000001-abc-fs-e.a.tld" "8080" eq_refl).
Defined.

Lemma client_info_fields_witness :
  HTTPClientInfoHandler_ServeHTTP HTTPClientInfoHandler.zero "GET"
    ("192.0.2.7" +:+ ":" +:+ "5555")
  = Some (HTTPClientInfoHandler.mk "192.0.2.7" "5555",
          {| StatusCode := 200;
             Body := JObject [("IPAddress", "192.0.2.7"); ("Port", "5555")] |}) /\
  HTTPClientInfoHandler_ServeHTTP HTTPClientInfoHandler.zero "GET"
    ("[2001" +:+ ":" +:+ "db8" +:+ ":" +:+ ":1]:443")
  = Some (HTTPClientInfoHandler.mk "[2001" "db8",
          {| StatusCode := 200;
             Body := JObject [("IPAddress", "[2001"); ("Port", "db8")] |}) /\
  forall Method,
    fst <$> HTTPClientInfoHandler_ServeHTTP HTTPClientInfoHandler.zero Method
              ("[2001" +:+ ":" +:+ "db8")
    = Some (HTTPClientInfoHandler.mk "[2001" "db8").
Proof.
  destruct (client_info_fields HTTPClientInfoHandler.zero "192.0.2.7" "5555" ""
              eq_refl eq_refl) as (Hv4 & _ & _).
  destruct (client_info_fields HTTPClientInfoHandler.zero "[2001" "db8" ":1]:443"
              eq_refl eq_refl) as (_ & Hv6 & Hany).
  split; [exact Hv4|]. split; [exact Hv6|exact Hany].
Defined.

Lemma client_info_no_colon_witness :
  HTTPClientInfoHandler_ServeHTTP HTTPClientInfoHandler.zero "GET" "@" = None.
Proof.
  exact (client_info_no_colon HTTPClientInfoHandler.zero "GET" "@" eq_refl).
Defined.

Lemma addrInIPAddressList_listed_witness :
  addrInIPAddressList further.ignored_peer [[192; 0; 2; 1]] = true /\
  addrInIPAddressList OtherAddr [[192; 0; 2; 1]] = false /\
  addrInIPAddressList further.ignored_peer [] = false.
Proof.
  apply (addrInIPAddressList_listed further.ignored_peer [[192; 0; 2; 1]]
           [192; 0; 2; 1]).
  - left. reflexivity.
  - right. left. split; reflexivity.
Defined.

Lemma ignored_peer_dropped_witness :
  exists dcss',
    @MakeRebindDNSHandler reference.go further.appConfig empty_store scenario.t0
      further.ignored_peer 0 (scenario.query further.multi_a_name dns.TypeA)
    = Some (dcss', NoReply) /\
    untouched empty_store dcss'.
Proof.
  exact (@ignored_peer_dropped reference.go further.appConfig empty_store scenario.t0
           further.ignored_peer 0 (scenario.query further.multi_a_name dns.TypeA)
           (scenario.question further.multi_a_name dns.TypeA) []
           eq_refl eq_refl (or_introl eq_refl) eq_refl).
Defined.

Lemma not_address_request_empty_reply_witness :
  exists dcss',
    @MakeRebindDNSHandler reference.go further.appConfig empty_store scenario.t0
      further.ignored_peer 0 (scenario.query further.multi_a_name 15)
    = Some (dcss', WriteMsg []) /\
    untouched empty_store dcss'.
Proof.
  apply (@not_address_request_empty_reply reference.go).
  right. simpl. intros [Hq|Hq]; vm_compute in Hq; discriminate.
Defined.

Lemma reply_at_most_two_records_witness :
  @MakeRebindDNSHandler reference.go scenario.appConfig empty_store scenario.t0
    scenario.peer 0 (scenario.query further.multi_a_name dns.TypeA)
  = Some (scenario.multi_a false,
          WriteMsg [scenario.record further.multi_a_name 10 "A" "192.168.0.1";
                    scenario.record further.multi_a_name 0 "A" "127.0.0.1"]) /\
  (length [scenario.record further.multi_a_name 10 "A" "192.168.0.1";
           scenario.record further.multi_a_name 0 "A" "127.0.0.1"] <= 2)%nat.
Proof.
  assert (Hh :
    @MakeRebindDNSHandler reference.go scenario.appConfig empty_store scenario.t0
      scenario.peer 0 (scenario.query further.multi_a_name dns.TypeA)
    = Some (scenario.multi_a false,
            WriteMsg [scenario.record further.multi_a_name 10 "A" "192.168.0.1";
                      scenario.record further.multi_a_name 0 "A" "127.0.0.1"]))
    by (vm_compute; reflexivity).
  split; [exact Hh|].
  exact (@reply_at_most_two_records reference.go _ _ _ _ _ _ _ _ Hh).
Defined.

Lemma dns_request_keeps_sessions_witness :
  @MakeRebindDNSHandler reference.go scenario.appConfig (scenario.multi_a false)
    (scenario.t0 + scenario.seconds 1) scenario.peer 0
    (scenario.query further.other_hosts_name dns.TypeA)
  = Some (further.requeried,
          WriteMsg [scenario.record further.other_hosts_name 10 "A" "192.168.0.1";
                    scenario.record further.other_hosts_name 0 "A" "127.0.0.1"]) /\
  exists s',
    session_state further.requeried "m1" = Some s' /\
    stamped (scenario.t0 + scenario.seconds 1)
      (DNSClientState.mk scenario.t0 scenario.t0 scenario.t0
         "192.168.0.1" "127.0.0.1" 0 30 false) s'.
Proof.
  assert (Hh :
    @MakeRebindDNSHandler reference.go scenario.appConfig (scenario.multi_a false)
      (scenario.t0 + scenario.seconds 1) scenario.peer 0
      (scenario.query further.other_hosts_name dns.TypeA)
    = Some (further.requeried,
            WriteMsg [scenario.record further.other_hosts_name 10 "A" "192.168.0.1";
                      scenario.record further.other_hosts_name 0 "A" "127.0.0.1"]))
    by (vm_compute; reflexivity).
  assert (Hs : session_state (scenario.multi_a false) "m1"
               = Some (DNSClientState.mk scenario.t0 scenario.t0 scenario.t0
                         "192.168.0.1" "127.0.0.1" 0 30 false))
    by (vm_compute; reflexivity).
  split; [exact Hh|].
  exact (@dns_request_keeps_sessions reference.go _ _ _ _ _ _ _ _ _ _ Hh Hs).
Defined.

Lemma dns_request_new_session_witness :
  exists q rest name,
    dns.Questions (scenario.query further.multi_a_name dns.TypeA) = q :: rest /\
    @NewDNSQuery reference.go (strings.ToLower (dns.Name q)) = (name, None) /\
    "m1" = DNSQuery.Session name /\
    stamped scenario.t0 (new_session scenario.appConfig scenario.t0 name)
      (DNSClientState.mk scenario.t0 scenario.t0 scenario.t0
         "192.168.0.1" "127.0.0.1" 0 30 false).
Proof.
  assert (Hh :
    @MakeRebindDNSHandler reference.go scenario.appConfig empty_store scenario.t0
      scenario.peer 0 (scenario.query further.multi_a_name dns.TypeA)
    = Some (scenario.multi_a false,
            WriteMsg [scenario.record further.multi_a_name 10 "A" "192.168.0.1";
                      scenario.record further.multi_a_name 0 "A" "127.0.0.1"]))
    by (vm_compute; reflexivity).
  assert (Hs : session_state (scenario.multi_a false) "m1"
               = Some (DNSClientState.mk scenario.t0 scenario.t0 scenario.t0
                         "192.168.0.1" "127.0.0.1" 0 30 false))
    by (vm_compute; reflexivity).
  exact (@dns_request_new_session reference.go _ _ _ _ _ _ _ _ "m1" _ Hh eq_refl Hs).
Defined.

Lemma strategies_answer_session_hosts_witness :
  exists s,
    session_state (scenario.multi_a false) "m1" = Some s /\
    (1 <= length ["192.168.0.1"; "127.0.0.1"] <= 2)%nat /\
    Forall (fun answer => answer = DNSClientState.ResponseIPAddr s \/
                          answer = DNSClientState.ResponseReboundIPAddr s)
           ["192.168.0.1"; "127.0.0.1"] /\
    (FnMultiA <> FnRoundRobin -> scenario.multi_a false = scenario.multi_a false).
Proof.
  assert (Hc : @call FnMultiA 0 "m1" (scenario.multi_a false)
                 (scenario.question further.multi_a_name dns.TypeA)
               = Some (["192.168.0.1"; "127.0.0.1"], scenario.multi_a false))
    by (vm_compute; reflexivity).
  exact (strategies_answer_session_hosts _ _ _ _ _ _ _ Hc).
Defined.

Lemma run_never_panics_witness :
  is_Some (@run reference.go scenario.appConfig empty_store
             [scenario.dns_request scenario.t0 further.multi_a_name dns.TypeA;
              RootRequest "s-c0a80001.7f000001-m1-ma-e.a.tld:8080"
                (scenario.t0 + scenario.seconds 4);
              Sweep (scenario.seconds 10) (fun _ => scenario.t0 + scenario.seconds 60)]).
Proof.
  apply (@run_never_panics reference.go).
  repeat (apply List.Forall_cons; [simpl; lia|]). apply List.Forall_nil.
Defined.

Lemma reachable_sessions_have_state_witness :
  exists s, session_state (scenario.multi_a false) "m1" = Some s /\ cursor_ok s.
Proof.
  assert (Hrun : @run reference.go scenario.appConfig empty_store
                   [scenario.dns_request scenario.t0 further.multi_a_name dns.TypeA]
                 = Some (scenario.multi_a false)) by (vm_compute; reflexivity).
  assert (Hin : is_Some (Sessions (scenario.multi_a false) !! "m1"))
    by (exists 0%nat; vm_compute; reflexivity).
  exact (@reachable_sessions_have_state reference.go _ _ _ _ Hrun Hin).
Defined.

Lemma rootHandler_frame_witness :
  Sessions (scenario.multi_a true) = Sessions (scenario.multi_a false) /\
  (IPTables = DefaultHeaders -> scenario.multi_a true = scenario.multi_a false) /\
  forall session s,
    session_state (scenario.multi_a false) session = Some s ->
    session_state (scenario.multi_a true) session = Some s \/
    session_state (scenario.multi_a true) session
    = Some (DNSClientState.set_FirewalledOnce true s).
Proof.
  assert (Hh : @rootHandler reference.go (scenario.multi_a false)
                 "s-c0a80001.7f000001-m1-ma-e.a.tld:8080"
                 (scenario.t0 + scenario.seconds 4)
               = Some (scenario.multi_a true, IPTables)) by (vm_compute; reflexivity).
  exact (@rootHandler_frame reference.go _ _ _ _ _ Hh).
Defined.

Lemma rootHandler_trigger_persists_witness :
  @rootHandler reference.go (scenario.multi_a true)
    "s-c0a80001.7f000001-m1-ma-e.a.tld:8080" (scenario.t0 + scenario.seconds 5)
  = Some (scenario.multi_a true, IPTables) /\
  forall es dcss2,
    @history reference.go scenario.appConfig
      (DNSQuery.Session (DNSQuery.mk "192.168.0.1" "127.0.0.1" "m1" "ma" ".a.tld:8080"))
      (scenario.multi_a true) es dcss2 ->
    exists dcss3,
      @rootHandler reference.go dcss2 "s-c0a80001.7f000001-m1-ma-e.a.tld:8080"
        (scenario.t0 + scenario.seconds 5)
      = Some (dcss3, IPTables).
Proof.
  assert (Hh : @rootHandler reference.go (scenario.multi_a false)
                 "s-c0a80001.7f000001-m1-ma-e.a.tld:8080"
                 (scenario.t0 + scenario.seconds 4)
               = Some (scenario.multi_a true, IPTables)) by (vm_compute; reflexivity).
  assert (Hname : @NewDNSQuery reference.go "s-c0a80001.7f000001-m1-ma-e.a.tld:8080"
                  = (DNSQuery.mk "192.168.0.1" "127.0.0.1" "m1" "ma" ".a.tld:8080", None))
    by (vm_compute; reflexivity).
  apply (@rootHandler_trigger_persists reference.go scenario.appConfig _ _ _ _ _ _
           Hh Hname).
  unfold scenario.seconds, time.Second. lia.
Defined.

Lemma NewDNSQuery_accepted_witness :
  DNSQuery.Session (DNSQuery.mk "192.168.0.1" "127.0.0.1" "abc" "fs" ".a.tld") <> "" /\
  dash_free "abc" /\
  dash_free "fs" /\
  (exists elem0, "192.168.0.1" = net.String elem0) /\
  ((exists elem1, "127.0.0.1" = net.String elem1) \/
   "127.0.0.1" = "localhost" \/
   @IsDomainName reference.go "127.0.0.1" = true) /\
  exists domainSuffix,
    ".a.tld" = "." +:+ domainSuffix /\
    ((3 <= String.length domainSuffix)%nat \/
     strings.ContainsAny domainSuffix "." = true).
Proof.
  assert (Hq : @NewDNSQuery reference.go "s-c0a80001.7f000001-abc-fs-e.a.tld"
               = (DNSQuery.mk "192.168.0.1" "127.0.0.1" "abc" "fs" ".a.tld", None))
    by (vm_compute; reflexivity).
  exact (@NewDNSQuery_accepted reference.go _ _ Hq).
Defined.

Lemma fleet_accepted_put (port : string) (n : Z) :
  strconv.Atoi port = Some n ->
  fleet.json_Unmarshal (fleet.body port) = Some {| httpServerInfo.Port := port |} ->
  (String.length (fleet.body port) <= 5000)%nat ->
  accepted_put fleet.json_Unmarshal fleet.store (fleet.body port)
    {| httpServerInfo.Port := port |} n.
Proof. intros Hport Hjson Hlen. by repeat split. Qed.

Lemma servers_rejected_witness :
  HTTPServerStoreHandler_ServeHTTP fleet.Listen fleet.json_Unmarshal fleet.store
    "PUT" (fleet.body "http")
  = Some (fleet.store, bad_request, []).
Proof.
  apply servers_rejected; [discriminate|].
  intros _ serverInfo port (_ & _ & Hjson & Hport).
  vm_compute in Hjson. injection Hjson as <-. vm_compute in Hport. discriminate.
Defined.

Lemma servers_put_replaces_witness :
  HTTPServerStoreHandler_ServeHTTP fleet.Listen fleet.json_Unmarshal fleet.store
    "PUT" (fleet.body "+03130")
  = Some (set_DynamicServers [Some (NewHTTPServer 3130)] fleet.store,
          {| Status := 200;
             Payload := OfServerInfo {| httpServerInfo.Port := "+03130" |} |},
          closes (Some (NewHTTPServer 3129)) ++ [Serve (NewHTTPServer 3130)]).
Proof.
  apply (servers_put_replaces fleet.Listen fleet.json_Unmarshal fleet.store
           (fleet.body "+03130") {| httpServerInfo.Port := "+03130" |} 3130
           (Some (NewHTTPServer 3129)) []).
  - apply fleet_accepted_put; [reflexivity|reflexivity|vm_compute; lia].
  - reflexivity.
  - reflexivity.
  - reflexivity.
Defined.

Lemma servers_put_listen_fails_witness :
  HTTPServerStoreHandler_ServeHTTP fleet.Listen fleet.json_Unmarshal fleet.store
    "PUT" (fleet.body "9999")
  = Some (set_DynamicServers [None] fleet.store, bad_request,
          closes (Some (NewHTTPServer 3129))).
Proof.
  apply (servers_put_listen_fails fleet.Listen fleet.json_Unmarshal fleet.store
           (fleet.body "9999") {| httpServerInfo.Port := "9999" |} 9999
           (Some (NewHTTPServer 3129)) []).
  - apply fleet_accepted_put; [reflexivity|reflexivity|vm_compute; lia].
  - reflexivity.
  - reflexivity.
Defined.

Lemma servers_put_static_address_witness :
  HTTPServerStoreHandler_ServeHTTP fleet.Listen fleet.json_Unmarshal fleet.store
    "PUT" (fleet.body "8080")
  = Some (set_DynamicServers [None] fleet.store,
          {| Status := 200;
             Payload := OfServerInfo {| httpServerInfo.Port := "8080" |} |},
          closes (Some (NewHTTPServer 3129)) ++ [Serve (NewHTTPServer 8080)]).
Proof.
  apply (servers_put_static_address fleet.Listen fleet.json_Unmarshal fleet.store
           (fleet.body "8080") {| httpServerInfo.Port := "8080" |} 8080
           (Some (NewHTTPServer 3129)) []).
  - apply fleet_accepted_put; [reflexivity|reflexivity|vm_compute; lia].
  - reflexivity.
  - reflexivity.
  - reflexivity.
Defined.

Lemma servers_invariant_witness :
  HTTPServerStoreHandler.AllowDynamicHTTPServers
    (set_DynamicServers [Some (NewHTTPServer 3130)] fleet.store)
  = HTTPServerStoreHandler.AllowDynamicHTTPServers fleet.store /\
  HTTPServerStoreHandler.StaticServers
    (set_DynamicServers [Some (NewHTTPServer 3130)] fleet.store)
  = HTTPServerStoreHandler.StaticServers fleet.store /\
  length (HTTPServerStoreHandler.DynamicServers
            (set_DynamicServers [Some (NewHTTPServer 3130)] fleet.store))
  = length (HTTPServerStoreHandler.DynamicServers fleet.store) /\
  drop 1 (HTTPServerStoreHandler.DynamicServers
            (set_DynamicServers [Some (NewHTTPServer 3130)] fleet.store))
  = drop 1 (HTTPServerStoreHandler.DynamicServers fleet.store) /\
  (compartments_disjoint fleet.store ->
   compartments_disjoint (set_DynamicServers [Some (NewHTTPServer 3130)] fleet.store)).
Proof.
  assert (Hserve :
    HTTPServerStoreHandler_ServeHTTP fleet.Listen fleet.json_Unmarshal fleet.store
      "PUT" (fleet.body "3130")
    = Some (set_DynamicServers [Some (NewHTTPServer 3130)] fleet.store,
            {| Status := 200;
               Payload := OfServerInfo {| httpServerInfo.Port := "3130" |} |},
            [Close (NewHTTPServer 3129); Serve (NewHTTPServer 3130)]))
    by (vm_compute; reflexivity).
  exact (servers_invariant fleet.Listen fleet.json_Unmarshal _ _ _ _ _ _ Hserve).
Defined.

Lemma servers_put_then_get_witness :
  exists hss' effects,
    HTTPServerStoreHandler_ServeHTTP fleet.Listen fleet.json_Unmarshal fleet.store
      "PUT" (fleet.body "+03130")
    = Some (hss', {| Status := 200;
                     Payload := OfServerInfo {| httpServerInfo.Port := "+03130" |} |},
            effects) /\
    HTTPServerStoreHandler_ServeHTTP fleet.Listen fleet.json_Unmarshal hss' "GET" ""
    = Some (hss',
            {| Status := 200;
               Payload := OfServersConfig
                 {| HTTPServersConfig.ServerInformation := port_infos [8080; 8081; 3130];
                    HTTPServersConfig.AllowDynamicHTTPServers := true |} |},
            []).
Proof.
  apply (servers_put_then_get fleet.Listen fleet.json_Unmarshal true
           [Some 8080; Some 8081] (Some 3129) (fleet.body "+03130") ""
           {| httpServerInfo.Port := "+03130" |} 3130).
  - apply fleet_accepted_put; [reflexivity|reflexivity|vm_compute; lia].
  - reflexivity.
  - reflexivity.
Defined.

Lemma session_program_fixed_witness :
  exists s',
    session_state further.requeried "m1" = Some s' /\
    same_program (DNSClientState.mk scenario.t0 scenario.t0 scenario.t0
                    "192.168.0.1" "127.0.0.1" 0 30 false) s'.
Proof.
  assert (Hhistory :
    @history reference.go scenario.appConfig "m1" (scenario.multi_a false)
      [scenario.dns_request (scenario.t0 + scenario.seconds 1)
         further.other_hosts_name dns.TypeA]
      further.requeried).
  { eapply history_cons; [|exists 0%nat|apply history_nil];
      vm_compute; reflexivity. }
  assert (Hs : session_state (scenario.multi_a false) "m1"
               = Some (DNSClientState.mk scenario.t0 scenario.t0 scenario.t0
                         "192.168.0.1" "127.0.0.1" 0 30 false))
    by (vm_compute; reflexivity).
  exact (@session_program_fixed reference.go _ _ _ _ _ _ Hhistory Hs).
Defined.

Lemma NewDNSQuery_encoded_name_witness :
  @NewDNSQuery reference.go
    (encoded_name [192; 168; 0; 1] [127; 0; 0; 1] "abc" "fs" "a.tld")
  = (DNSQuery.mk (net.String [192; 168; 0; 1]) (net.String [127; 0; 0; 1])
       "abc" "fs" ("." +:+ "a.tld"), None).
Proof.
  apply (@NewDNSQuery_encoded_name reference.go).
  - unfold is_byte. repeat (apply List.Forall_cons; [lia|]). apply List.Forall_nil.
  - unfold is_byte. repeat (apply List.Forall_cons; [lia|]). apply List.Forall_nil.
  - split; [discriminate|reflexivity].
  - split; [discriminate|reflexivity].
  - reflexivity.
  - left. simpl. lia.
Defined.
